(** * QualitySync: authorization, lifecycles and bug-to-test conversion

    A shallow embedding of the backend controllers (testController,
    bugController, authController), of the express-validator chains in
    front of them and of the tables of [schema.sql], followed by the
    properties of the specification that concern them.

    Conventions.
    - A table is a finite map from the primary key [id] (a UUID, kept as a
      string) to the remaining columns of the row.
    - A JSON body field is an [option string]: [None] is JavaScript's
      [undefined].
    - Every call of a handler receives an [Env]: the outcome of each store
      and mail call the handler awaits (the [error] the supabase client
      returns, an exception of the mail service), the UUID the store draws
      for an inserted row and the clock. *)

From stdpp Require Import base strings list functions gmap sorting.
From Stdlib Require Import ZArith Lia.

Open Scope string_scope.

(** ** Enumerations ([CREATE TYPE ... AS ENUM], [types/index.ts]) *)

Inductive UserRole := PM | QA | ENG.
Inductive TestStatus := pending | pass | fail | escalated.
Inductive BugStatus := open | in_progress | resolved | closed | converted_to_test.
Inductive BugSeverity := low | medium | high | critical.

#[global] Instance UserRole_eq_dec : EqDecision UserRole.
Proof. solve_decision. Defined.
#[global] Instance TestStatus_eq_dec : EqDecision TestStatus.
Proof. solve_decision. Defined.
#[global] Instance BugStatus_eq_dec : EqDecision BugStatus.
Proof. solve_decision. Defined.
#[global] Instance BugSeverity_eq_dec : EqDecision BugSeverity.
Proof. solve_decision. Defined.

(** The store parses the text of an enum column; a text outside the enum is
    an error of the statement. *)
Definition TestStatus_of_string (s : string) : option TestStatus :=
  if bool_decide (s = "pending") then Some pending
  else if bool_decide (s = "pass") then Some pass
  else if bool_decide (s = "fail") then Some fail
  else if bool_decide (s = "escalated") then Some escalated
  else None.

Definition BugStatus_of_string (s : string) : option BugStatus :=
  if bool_decide (s = "open") then Some open
  else if bool_decide (s = "in_progress") then Some in_progress
  else if bool_decide (s = "resolved") then Some resolved
  else if bool_decide (s = "closed") then Some closed
  else if bool_decide (s = "converted_to_test") then Some converted_to_test
  else None.

Definition BugSeverity_of_string (s : string) : option BugSeverity :=
  if bool_decide (s = "low") then Some low
  else if bool_decide (s = "medium") then Some medium
  else if bool_decide (s = "high") then Some high
  else if bool_decide (s = "critical") then Some critical
  else None.

(** ** Tables *)

Record users_row := {
  email : string;
  name : string;
  role : UserRole;
  is_verified : bool;
  reset_password_token : option string;
  reset_password_expires : option Z;
}.

Record test_cases_row := {
  tc_module_platform : string;
  tc_test_case : string;
  tc_expected_result : string;
  tc_status : TestStatus;
  tc_evidence_url : option string;
  tc_notes : option string;
  tc_assigned_to : string;
  tc_created_by : string;
  tc_source_bug_id : option string;
  tc_created_at : Z;
  tc_updated_at : Z;
}.

Record unlisted_bugs_row := {
  bug_module_platform : string;
  bug_jam_link : string;
  bug_description : string;
  bug_note : option string;
  bug_severity : BugSeverity;
  bug_status : BugStatus;
  bug_created_by : string;
  bug_converted_to_test_id : option string;
  bug_converted_at : option Z;
  bug_created_at : Z;
  bug_updated_at : Z;
}.

Record DB := {
  users : gmap string users_row;
  test_cases : gmap string test_cases_row;
  unlisted_bugs : gmap string unlisted_bugs_row;
}.

Definition with_users (f : gmap string users_row → gmap string users_row) (db : DB) : DB :=
  {| users := f (users db); test_cases := test_cases db; unlisted_bugs := unlisted_bugs db |}.
Definition with_test_cases (f : gmap string test_cases_row → gmap string test_cases_row) (db : DB) : DB :=
  {| users := users db; test_cases := f (test_cases db); unlisted_bugs := unlisted_bugs db |}.
Definition with_unlisted_bugs (f : gmap string unlisted_bugs_row → gmap string unlisted_bugs_row) (db : DB) : DB :=
  {| users := users db; test_cases := test_cases db; unlisted_bugs := f (unlisted_bugs db) |}.

(** ** Requests, environment, responses *)

(** [req.user], as [authenticate] attaches it. *)
Record ReqUser := { user_id : string; user_role : UserRole }.

Record Env := {
  findError : bool;      (* the handler's first [select ... .single()] *)
  assigneeError : bool;  (* the lookup of the assignee *)
  insertError : bool;    (* [.insert(...)] *)
  updateError : bool;    (* [.update(...)] *)
  emailError : bool;     (* the mail service throws *)
  uuid : string;         (* [uuid_generate_v4()] of an inserted row *)
  now : Z;               (* [NOW()], [Date.now()] *)
}.

(** The envelope [{success, message?, data?, errors?}] with its status. *)
Record Response (A : Type) := {
  statusCode : nat;
  success : bool;
  message : string;
  data : option A;
  errors : list (string * string);
}.
Arguments statusCode {A} _.
Arguments success {A} _.
Arguments message {A} _.
Arguments data {A} _.
Arguments errors {A} _.

(** [res.status(c).json({success: true, message, data})] *)
Definition Json {A} (c : nat) (msg : string) (d : option A) : Response A :=
  {| statusCode := c; success := true; message := msg; data := d; errors := [] |}.

(** [throw new ApiError(c, msg)], rendered by [errorHandler]. *)
Definition ApiError {A} (c : nat) (msg : string) : Response A :=
  {| statusCode := c; success := false; message := msg; data := None; errors := [] |}.

(** ** JavaScript and store helpers *)

(** Truthiness of a string-or-undefined. *)
Definition truthy (v : option string) : bool :=
  match v with
  | Some s => negb (bool_decide (s = ""))
  | None => false
  end.

(** [v || null] *)
Definition or_null (v : option string) : option string :=
  if truthy v then v else None.

(** [.single()] after a filter on a key: the row, or an error when the call
    fails or no row matches; the handlers test [error || !row]. *)
Definition single {A} (err : bool) (row : option A) : option A :=
  if err then None else row.

(** [.eq(col, v)] with [v] possibly [undefined] never matches a row. *)
Definition by_id {A} (m : gmap string A) (k : option string) : option A :=
  match k with
  | Some k => m !! k
  | None => None
  end.

(** What an [insert] into [test_cases] is given; absent columns take their
    defaults ([status] pending, the rest null). *)
Record test_cases_insert := {
  ins_module_platform : option string;
  ins_test_case : option string;
  ins_expected_result : option string;
  ins_evidence_url : option string;
  ins_assigned_to : option string;
  ins_created_by : option string;
  ins_source_bug_id : option string;
}.

(** An [insert] fails on a store error, on a null in a NOT NULL column and
    on a primary key already present. *)
Definition insert_test_case (ρ : Env) (v : test_cases_insert) (db : DB)
  : option (string * test_cases_row * DB) :=
  if insertError ρ then None else
  match ins_module_platform v, ins_test_case v, ins_expected_result v,
        ins_assigned_to v, ins_created_by v with
  | Some mp, Some tc, Some er, Some a, Some c =>
      match test_cases db !! uuid ρ with
      | Some _ => None
      | None =>
          let row := {| tc_module_platform := mp; tc_test_case := tc;
                        tc_expected_result := er; tc_status := pending;
                        tc_evidence_url := ins_evidence_url v; tc_notes := None;
                        tc_assigned_to := a; tc_created_by := c;
                        tc_source_bug_id := ins_source_bug_id v;
                        tc_created_at := now ρ; tc_updated_at := now ρ |} in
          Some (uuid ρ, row, with_test_cases (insert (uuid ρ) row) db)
      end
  | _, _, _, _, _ => None
  end.

(** ** bugController.convertToTest *)

Record ConvertBody := {
  cv_assigned_to : option string;
  cv_test_case : option string;
  cv_expected_result : option string;
}.

(** The columns the conversion writes on the bug (the trigger of the table
    refreshes [updated_at]). *)
Definition mark_converted (test_id : string) (t : Z) (b : unlisted_bugs_row) : unlisted_bugs_row :=
  {| bug_module_platform := bug_module_platform b;
     bug_jam_link := bug_jam_link b;
     bug_description := bug_description b;
     bug_note := bug_note b;
     bug_severity := bug_severity b;
     bug_status := converted_to_test;
     bug_created_by := bug_created_by b;
     bug_converted_to_test_id := Some test_id;
     bug_converted_at := Some t;
     bug_created_at := bug_created_at b;
     bug_updated_at := t |}.

(** The handler awaits the status update and never looks at its result: on
    [updateError] the statement has no effect and the handler goes on.  The
    assignment mail is sent inside [try/catch]; its failure is logged. *)
Definition convertToTest (ρ : Env) (user : ReqUser) (id : string) (body : ConvertBody)
    (db : DB) : Response (string * test_cases_row) * DB :=
  match single (findError ρ) (unlisted_bugs db !! id) with
  | None => (ApiError 404 "Bug not found", db)
  | Some bug =>
      if bool_decide (bug_status bug = converted_to_test)
      then (ApiError 400 "This bug has already been converted to a test case", db)
      else
        match single (assigneeError ρ) (by_id (users db) (cv_assigned_to body)) with
        | None => (ApiError 400 "Assigned user not found", db)
        | Some assignee =>
            if negb (bool_decide (role assignee = QA))
            then (ApiError 400 "Tests can only be assigned to QA testers", db)
            else
              match insert_test_case ρ
                      {| ins_module_platform := Some (bug_module_platform bug);
                         ins_test_case := cv_test_case body;
                         ins_expected_result := cv_expected_result body;
                         ins_evidence_url := Some (bug_jam_link bug);
                         ins_assigned_to := cv_assigned_to body;
                         ins_created_by := Some (user_id user);
                         ins_source_bug_id := Some id |} db with
              | None => (ApiError 500 "Failed to convert bug to test case", db)
              | Some (test_id, test, db1) =>
                  let db2 :=
                    if updateError ρ then db1
                    else with_unlisted_bugs (alter (mark_converted test_id (now ρ)) id) db1 in
                  (Json 201 "Bug converted to test case successfully" (Some (test_id, test)), db2)
              end
        end
  end.

(** ** testController: single-row handlers *)

Definition getTest (ρ : Env) (user : ReqUser) (id : string) (db : DB)
  : Response (string * test_cases_row) :=
  match single (findError ρ) (test_cases db !! id) with
  | None => ApiError 404 "Test case not found"
  | Some test =>
      if bool_decide (user_role user = QA)
         && negb (bool_decide (tc_assigned_to test = user_id user))
      then ApiError 403 "You do not have access to this test case"
      else if bool_decide (user_role user = ENG)
              && negb (bool_decide (tc_status test ∈ [fail; escalated]))
      then ApiError 403 "You can only view failed or escalated test cases"
      else Json 200 "" (Some (id, test))
  end.

Record CreateTestBody := {
  ct_module_platform : option string;
  ct_test_case : option string;
  ct_expected_result : option string;
  ct_evidence_url : option string;
  ct_assigned_to : option string;
}.

Definition createTest (ρ : Env) (user : ReqUser) (body : CreateTestBody) (db : DB)
  : Response (string * test_cases_row) * DB :=
  match single (assigneeError ρ) (by_id (users db) (ct_assigned_to body)) with
  | None => (ApiError 400 "Assigned user not found", db)
  | Some assignee =>
      if negb (bool_decide (role assignee = QA))
      then (ApiError 400 "Tests can only be assigned to QA testers", db)
      else
        match insert_test_case ρ
                {| ins_module_platform := ct_module_platform body;
                   ins_test_case := ct_test_case body;
                   ins_expected_result := ct_expected_result body;
                   ins_evidence_url := or_null (ct_evidence_url body);
                   ins_assigned_to := ct_assigned_to body;
                   ins_created_by := Some (user_id user);
                   ins_source_bug_id := None |} db with
        | None => (ApiError 500 "Failed to create test case", db)
        | Some (test_id, test, db1) =>
            (Json 201 "Test case created successfully" (Some (test_id, test)), db1)
        end
  end.

(** The object given to [.update(...)] on [test_cases]: [None] is a key that
    is absent (or [undefined], which the JSON encoding drops); for a nullable
    column [Some None] writes null. *)
Record test_cases_update := {
  upd_module_platform : option string;
  upd_test_case : option string;
  upd_expected_result : option string;
  upd_status : option string;
  upd_evidence_url : option (option string);
  upd_notes : option (option string);
  upd_assigned_to : option string;
}.

Definition apply_test_cases_update (t : Z) (u : test_cases_update) (st : TestStatus)
    (r : test_cases_row) : test_cases_row :=
  {| tc_module_platform := default (tc_module_platform r) (upd_module_platform u);
     tc_test_case := default (tc_test_case r) (upd_test_case u);
     tc_expected_result := default (tc_expected_result r) (upd_expected_result u);
     tc_status := st;
     tc_evidence_url := default (tc_evidence_url r) (upd_evidence_url u);
     tc_notes := default (tc_notes r) (upd_notes u);
     tc_assigned_to := default (tc_assigned_to r) (upd_assigned_to u);
     tc_created_by := tc_created_by r;
     tc_source_bug_id := tc_source_bug_id r;
     tc_created_at := tc_created_at r;
     tc_updated_at := t |}.

(** [.update(u).eq('id', id).select(...).single()]: an error of the store,
    a text outside the enum, or no row with this id, is an [error]. *)
Definition update_test_case (ρ : Env) (id : string) (u : test_cases_update) (db : DB)
  : option (test_cases_row * DB) :=
  if updateError ρ then None else
  match test_cases db !! id with
  | None => None
  | Some r =>
      match (match upd_status u with
             | None => Some (tc_status r)
             | Some s => TestStatus_of_string s
             end) with
      | None => None
      | Some st =>
          let r' := apply_test_cases_update (now ρ) u st r in
          Some (r', with_test_cases (insert id r') db)
      end
  end.

Record ResultBody := {
  rb_status : option string;
  rb_evidence_url : option string;
  rb_notes : option string;
}.

Definition updateTestResult (ρ : Env) (user : ReqUser) (id : string) (body : ResultBody)
    (db : DB) : Response (string * test_cases_row) * DB :=
  match single (findError ρ) (test_cases db !! id) with
  | None => (ApiError 404 "Test case not found", db)
  | Some existingTest =>
      if negb (bool_decide (tc_assigned_to existingTest = user_id user))
      then (ApiError 403 "You can only update tests assigned to you", db)
      else
        match update_test_case ρ id
                {| upd_module_platform := None; upd_test_case := None;
                   upd_expected_result := None;
                   upd_status := rb_status body;
                   upd_evidence_url := Some (or_null (rb_evidence_url body));
                   upd_notes := Some (or_null (rb_notes body));
                   upd_assigned_to := None |} db with
        | None => (ApiError 500 "Failed to update test result", db)
        | Some (test, db1) =>
            (Json 200 "Test result updated successfully" (Some (id, test)), db1)
        end
  end.

Record UpdateTestBody := {
  ut_module_platform : option string;
  ut_test_case : option string;
  ut_expected_result : option string;
  ut_evidence_url : option string;
  ut_assigned_to : option string;
}.

(** [if (x) updateData.k = x] *)
Definition if_truthy (v : option string) : option string :=
  if truthy v then v else None.

Definition updateTest (ρ : Env) (user : ReqUser) (id : string) (body : UpdateTestBody)
    (db : DB) : Response (string * test_cases_row) * DB :=
  match single (findError ρ) (test_cases db !! id) with
  | None => (ApiError 404 "Test case not found", db)
  | Some existingTest =>
      let updateData :=
        {| upd_module_platform := if_truthy (ut_module_platform body);
           upd_test_case := if_truthy (ut_test_case body);
           upd_expected_result := if_truthy (ut_expected_result body);
           upd_status := None;
           upd_evidence_url :=
             match ut_evidence_url body with
             | Some _ => Some (or_null (ut_evidence_url body))
             | None => None
             end;
           upd_notes := None;
           upd_assigned_to := None |} in
      let finish (updateData : test_cases_update) :=
        match update_test_case ρ id updateData db with
        | None => (ApiError 500 "Failed to update test case", db)
        | Some (test, db1) =>
            (Json 200 "Test case updated successfully" (Some (id, test)), db1)
        end in
      if truthy (ut_assigned_to body)
         && negb (bool_decide (ut_assigned_to body = Some (tc_assigned_to existingTest)))
      then
        match single (assigneeError ρ) (by_id (users db) (ut_assigned_to body)) with
        | None => (ApiError 400 "Assigned user not found", db)
        | Some assignee =>
            if negb (bool_decide (role assignee = QA))
            then (ApiError 400 "Tests can only be assigned to QA testers", db)
            else finish
                   {| upd_module_platform := upd_module_platform updateData;
                      upd_test_case := upd_test_case updateData;
                      upd_expected_result := upd_expected_result updateData;
                      upd_status := None;
                      upd_evidence_url := upd_evidence_url updateData;
                      upd_notes := None;
                      upd_assigned_to := ut_assigned_to body |}
        end
      else finish updateData
  end.

(** ** bugController *)

Definition getBug (ρ : Env) (user : ReqUser) (id : string) (db : DB)
  : Response (string * unlisted_bugs_row) :=
  match single (findError ρ) (unlisted_bugs db !! id) with
  | None => ApiError 404 "Bug not found"
  | Some bug =>
      if bool_decide (user_role user = QA)
         && negb (bool_decide (bug_created_by bug = user_id user))
      then ApiError 403 "You do not have access to this bug"
      else Json 200 "" (Some (id, bug))
  end.

Record BugBody := {
  bb_module_platform : option string;
  bb_jam_link : option string;
  bb_description : option string;
  bb_note : option string;
  bb_severity : option string;
  bb_status : option string;
}.

(** [.insert({...})] into [unlisted_bugs]: [status] takes its default. *)
Definition insert_bug (ρ : Env) (body : BugBody) (created_by : string) (db : DB)
  : option (string * unlisted_bugs_row * DB) :=
  if insertError ρ then None else
  match bb_module_platform body, bb_jam_link body, bb_description body,
        BugSeverity_of_string (default "medium" (or_null (bb_severity body))) with
  | Some mp, Some jl, Some d, Some sev =>
      match unlisted_bugs db !! uuid ρ with
      | Some _ => None
      | None =>
          let row := {| bug_module_platform := mp; bug_jam_link := jl;
                        bug_description := d; bug_note := or_null (bb_note body);
                        bug_severity := sev; bug_status := open;
                        bug_created_by := created_by;
                        bug_converted_to_test_id := None; bug_converted_at := None;
                        bug_created_at := now ρ; bug_updated_at := now ρ |} in
          Some (uuid ρ, row, with_unlisted_bugs (insert (uuid ρ) row) db)
      end
  | _, _, _, _ => None
  end.

Definition createBug (ρ : Env) (user : ReqUser) (body : BugBody) (db : DB)
  : Response (string * unlisted_bugs_row) * DB :=
  match insert_bug ρ body (user_id user) db with
  | None => (ApiError 500 "Failed to create unlisted bug", db)
  | Some (bug_id, bug, db1) =>
      (Json 201 "Bug reported successfully" (Some (bug_id, bug)), db1)
  end.

(** The [updateData] object of [updateBug]. *)
Record unlisted_bugs_update := {
  ub_module_platform : option string;
  ub_jam_link : option string;
  ub_description : option string;
  ub_note : option (option string);
  ub_severity : option string;
  ub_status : option string;
}.

Definition apply_unlisted_bugs_update (t : Z) (u : unlisted_bugs_update)
    (sev : BugSeverity) (st : BugStatus) (b : unlisted_bugs_row) : unlisted_bugs_row :=
  {| bug_module_platform := default (bug_module_platform b) (ub_module_platform u);
     bug_jam_link := default (bug_jam_link b) (ub_jam_link u);
     bug_description := default (bug_description b) (ub_description u);
     bug_note := default (bug_note b) (ub_note u);
     bug_severity := sev;
     bug_status := st;
     bug_created_by := bug_created_by b;
     bug_converted_to_test_id := bug_converted_to_test_id b;
     bug_converted_at := bug_converted_at b;
     bug_created_at := bug_created_at b;
     bug_updated_at := t |}.

Definition update_bug (ρ : Env) (id : string) (u : unlisted_bugs_update) (db : DB)
  : option (unlisted_bugs_row * DB) :=
  if updateError ρ then None else
  match unlisted_bugs db !! id with
  | None => None
  | Some b =>
      match (match ub_severity u with
             | None => Some (bug_severity b)
             | Some s => BugSeverity_of_string s
             end),
            (match ub_status u with
             | None => Some (bug_status b)
             | Some s => BugStatus_of_string s
             end) with
      | Some sev, Some st =>
          let b' := apply_unlisted_bugs_update (now ρ) u sev st b in
          Some (b', with_unlisted_bugs (insert id b') db)
      | _, _ => None
      end
  end.

Definition updateBug (ρ : Env) (user : ReqUser) (id : string) (body : BugBody)
    (db : DB) : Response (string * unlisted_bugs_row) * DB :=
  match single (findError ρ) (unlisted_bugs db !! id) with
  | None => (ApiError 404 "Bug not found", db)
  | Some existingBug =>
      if bool_decide (user_role user = QA)
         && negb (bool_decide (bug_created_by existingBug = user_id user))
      then (ApiError 403 "You can only update bugs you created", db)
      else if bool_decide (user_role user = QA)
              && bool_decide (bug_status existingBug = converted_to_test)
      then (ApiError 400 "Cannot update a bug that has been converted to a test", db)
      else
        let updateData :=
          {| ub_module_platform := if_truthy (bb_module_platform body);
             ub_jam_link := if_truthy (bb_jam_link body);
             ub_description := if_truthy (bb_description body);
             ub_note :=
               match bb_note body with
               | Some _ => Some (or_null (bb_note body))
               | None => None
               end;
             ub_severity := if_truthy (bb_severity body);
             ub_status :=
               if truthy (bb_status body) && bool_decide (user_role user = PM)
               then bb_status body else None |} in
        match update_bug ρ id updateData db with
        | None => (ApiError 500 "Failed to update bug", db)
        | Some (bug, db1) => (Json 200 "Bug updated successfully" (Some (id, bug)), db1)
        end
  end.

(** ** authController.forgotPassword *)

(** [.eq('email', e).single()]: exactly one row, or an error. *)
Definition user_by_email (e : string) (db : DB) : option (string * users_row) :=
  match filter (λ kv : string * users_row, email kv.2 = e) (map_to_list (users db)) with
  | [kv] => Some kv
  | _ => None
  end.

Definition set_reset_token (tok : string) (expires : Z) (u : users_row) : users_row :=
  {| email := email u; name := name u; role := role u; is_verified := is_verified u;
     reset_password_token := Some tok; reset_password_expires := Some expires |}.

(** [randomToken] is the value of [generateRandomToken()].  The store of the
    token is awaited without a look at its result; a failure of the mail is
    thrown on as a 500. *)
Definition forgotPassword (ρ : Env) (randomToken : string) (email_ : string) (db : DB)
  : Response unit * DB :=
  match single (findError ρ) (user_by_email email_ db) with
  | None =>
      (Json 200 "If an account exists, a password reset email has been sent." None, db)
  | Some (uid, user) =>
      let db1 :=
        if updateError ρ then db
        else with_users (alter (set_reset_token randomToken (now ρ + 60 * 60 * 1000)%Z) uid) db in
      if emailError ρ
      then (ApiError 500 "Failed to send password reset email", db1)
      else (Json 200 "If an account exists, a password reset email has been sent." None, db1)
  end.

(** ** testController.getTests *)

(** Text matching is the store's: [ilike pattern text]. *)
Class Postgres := { ilike : string → string → bool }.

Record TestsQuery := {
  q_page : option nat;
  q_limit : option nat;
  q_status : option string;
  q_module_platform : option string;
  q_search : option string;
  q_sort : option string;
  q_order : option string;
}.

Record Pagination := { page : nat; limit : nat; total : nat; totalPages : nat }.

Record TestList := { tests : list (string * test_cases_row); pagination : Pagination }.

(** [parseInt(v) || d] for a count: [undefined] and 0 give [d]. *)
Definition parseInt_or (v : option nat) (d : nat) : nat :=
  match v with
  | Some (S n) => S n
  | _ => d
  end.

(** Role-based filtering. *)
Definition role_filter (user : ReqUser) (kv : string * test_cases_row) : bool :=
  match user_role user with
  | QA => bool_decide (tc_assigned_to kv.2 = user_id user)
  | ENG => bool_decide (tc_status kv.2 ∈ [fail; escalated])
  | PM => true
  end.

Definition status_filter (status : option string) (kv : string * test_cases_row) : bool :=
  match TestStatus_of_string (default "" status) with
  | Some st => bool_decide (tc_status kv.2 = st)
  | None => true
  end.

Definition module_filter `{Postgres} (module_platform : option string)
    (kv : string * test_cases_row) : bool :=
  if truthy module_platform
  then ilike ("%" ++ default "" module_platform ++ "%") (tc_module_platform kv.2)
  else true.

Definition search_filter `{Postgres} (search : option string)
    (kv : string * test_cases_row) : bool :=
  if truthy search
  then ilike ("%" ++ default "" search ++ "%") (tc_test_case kv.2)
       || ilike ("%" ++ default "" search ++ "%") (tc_expected_result kv.2)
  else true.

Definition TestStatus_rank (s : TestStatus) : nat :=
  match s with pending => 0 | pass => 1 | fail => 2 | escalated => 3 end.

(** The order of [.order(sortField, ...)]; a field outside
    [validSortFields] falls back to [created_at]. *)
Definition test_le (sortField : string) (a b : string * test_cases_row) : bool :=
  if bool_decide (sortField = "updated_at") then (tc_updated_at a.2 <=? tc_updated_at b.2)%Z
  else if bool_decide (sortField = "status")
       then (TestStatus_rank (tc_status a.2) <=? TestStatus_rank (tc_status b.2))%nat
  else if bool_decide (sortField = "module_platform")
       then String.leb (tc_module_platform a.2) (tc_module_platform b.2)
  else (tc_created_at a.2 <=? tc_created_at b.2)%Z.

Definition order_tests (sort order : option string)
    (rows : list (string * test_cases_row)) : list (string * test_cases_row) :=
  if bool_decide (default "desc" order = "asc")
  then merge_sort (λ a b, Is_true (test_le (default "created_at" sort) a b)) rows
  else merge_sort (λ a b, Is_true (test_le (default "created_at" sort) b a)) rows.

(** The rows the query selects before [.range]: scope, filters, order. *)
Definition tests_query `{Postgres} (user : ReqUser) (q : TestsQuery) (db : DB)
  : list (string * test_cases_row) :=
  order_tests (q_sort q) (q_order q)
    (filter (λ kv, Is_true (role_filter user kv && status_filter (q_status q) kv
                            && module_filter (q_module_platform q) kv
                            && search_filter (q_search q) kv))
       (map_to_list (test_cases db))).

(** On an error of the store the 500 carries the text of that error, or
    [Unknown error]; the embedding keeps the latter. *)
Definition getTests `{Postgres} (ρ : Env) (user : ReqUser) (q : TestsQuery) (db : DB)
  : Response TestList :=
  let page := parseInt_or (q_page q) 1 in
  let limit := parseInt_or (q_limit q) 10 in
  let offset := (page - 1) * limit in
  if findError ρ then ApiError 500 "Failed to fetch test cases: Unknown error"
  else
    let rows := tests_query user q db in
    let count := length rows in
    Json 200 ""
      (Some {| tests := take limit (drop offset rows);
               pagination := {| page := page; limit := limit; total := count;
                                totalPages := (count + limit - 1) / limit |} |}).

(** ** Validation (middleware/validate.js and the route files) *)

(** The checks of validator.js the chains use. *)
Class ValidatorJs := {
  isURL : string → bool;
  isUUID : string → bool;
  trim : string → string;
}.

(** [hay.includes(needle)] *)
Fixpoint includes (needle hay : string) : bool :=
  String.prefix needle hay
  || match hay with
     | EmptyString => false
     | String _ rest => includes needle rest
     end.

Inductive Validator :=
| v_notEmpty
| v_isLength (min : nat) (max : nat)
| v_isURL
| v_isUUID
| v_isIn (values : list string)
| v_custom (f : option string → bool).

(** A chain [body(field)....]: whether it starts with [.optional()], and its
    validators, each with the message of its failure. *)
Record ValidationChain := {
  vc_field : string;
  vc_optional : bool;
  vc_validators : list (Validator * string);
}.

(** Standard validators see the value as a string, [undefined] as the empty
    one; a custom validator sees the value itself and passes unless it
    throws. *)
Definition passes `{ValidatorJs} (c : Validator) (v : option string) : bool :=
  match c with
  | v_notEmpty => negb (bool_decide (default "" v = ""))
  | v_isLength mn mx =>
      (mn <=? String.length (default "" v))%nat && (String.length (default "" v) <=? mx)%nat
  | v_isURL => isURL (default "" v)
  | v_isUUID => isUUID (default "" v)
  | v_isIn values => bool_decide (default "" v ∈ values)
  | v_custom f => f v
  end.

(** All validators of a chain run; an optional chain is skipped on
    [undefined]. *)
Definition run_chain `{ValidatorJs} (c : ValidationChain) (v : option string)
  : list (string * string) :=
  if vc_optional c && bool_decide (v = None) then []
  else (λ cm, (vc_field c, cm.2)) <$> filter (λ cm, ¬ Is_true (passes cm.1 v)) (vc_validators c).

(** [(value) => { if (value && !value.includes('jam.dev')) throw ...; return true }] *)
Definition jam_if_present (v : option string) : bool :=
  negb (truthy v && negb (includes "jam.dev" (default "" v))).

(** [(value) => { if (!value.includes('jam.dev')) throw ...; return true }];
    on [undefined] the call of [includes] itself throws. *)
Definition jam_required (v : option string) : bool :=
  match v with
  | Some s => includes "jam.dev" s
  | None => false
  end.

(** [handleValidation] *)
Definition handleValidation {A} (errs : list (string * string)) (db : DB)
    (next : Response A * DB) : Response A * DB :=
  match errs with
  | [] => next
  | _ => ({| statusCode := 400; success := false; message := "Validation failed";
             data := None; errors := errs |}, db)
  end.

Definition role_name (r : UserRole) : string :=
  match r with PM => "PM" | QA => "QA" | ENG => "ENG" end.

(** [authorize(...roles)] *)
Definition authorize {A} (roles : list UserRole) (user : ReqUser) (db : DB)
    (next : Response A * DB) : Response A * DB :=
  if bool_decide (user_role user ∈ roles) then next
  else (ApiError 403 ("Access denied. Required role: "
                      ++ String.concat " or " (role_name <$> roles)), db).

Definition chain (field : string) (validators : list (Validator * string)) : ValidationChain :=
  {| vc_field := field; vc_optional := false; vc_validators := validators |}.
Definition optional_chain (field : string) (validators : list (Validator * string))
  : ValidationChain :=
  {| vc_field := field; vc_optional := true; vc_validators := validators |}.

(** The chains that carry an evidence link. *)
Definition evidence_url_chain : ValidationChain :=
  optional_chain "evidence_url"
    [(v_isURL, "Evidence URL must be a valid URL");
     (v_custom jam_if_present, "Evidence URL must be a Jam.dev link")].

(** The chain of [PUT /tests/:id] (testRoutes.js): it has no [isURL()]. *)
Definition updateTest_evidence_url_chain : ValidationChain :=
  optional_chain "evidence_url"
    [(v_custom jam_if_present, "Evidence URL must be a Jam.dev link")].

Definition jam_link_chain : ValidationChain :=
  chain "jam_link"
    [(v_notEmpty, "Jam link is required");
     (v_isURL, "Jam link must be a valid URL");
     (v_custom jam_required, "Must be a valid Jam.dev link")].

Definition updateBug_jam_link_chain : ValidationChain :=
  optional_chain "jam_link"
    [(v_isURL, "Jam link must be a valid URL");
     (v_custom jam_if_present, "Must be a valid Jam.dev link")].

Definition uuidParamValidation `{ValidatorJs} (id : string) : list (string * string) :=
  run_chain (chain "id" [(v_isUUID, "Invalid ID format")]) (Some id).

Definition createTestValidation `{ValidatorJs} (body : CreateTestBody)
  : list (string * string) :=
  run_chain (chain "module_platform"
               [(v_notEmpty, "Module/Platform is required");
                (v_isLength 0 255, "Module/Platform must be less than 255 characters")])
    (ct_module_platform body)
  ++ run_chain (chain "test_case"
               [(v_notEmpty, "Test case description is required");
                (v_isLength 5 2000, "Test case must be between 5 and 2000 characters")])
    (ct_test_case body)
  ++ run_chain (chain "expected_result"
               [(v_notEmpty, "Expected result is required");
                (v_isLength 5 2000, "Expected result must be between 5 and 2000 characters")])
    (ct_expected_result body)
  ++ run_chain evidence_url_chain (ct_evidence_url body)
  ++ run_chain (chain "assigned_to"
               [(v_notEmpty, "Assigned tester is required");
                (v_isUUID, "Assigned tester must be a valid user ID")])
    (ct_assigned_to body).

Definition updateTestResultValidation `{ValidatorJs} (id : string) (body : ResultBody)
  : list (string * string) :=
  run_chain (chain "id" [(v_isUUID, "Invalid test case ID")]) (Some id)
  ++ run_chain (chain "status"
               [(v_isIn ["pass"; "fail"; "escalated"],
                 "Status must be pass, fail, or escalated")])
    (rb_status body)
  ++ run_chain evidence_url_chain (rb_evidence_url body)
  ++ run_chain (optional_chain "notes"
               [(v_isLength 0 2000, "Notes must be less than 2000 characters")])
    (rb_notes body).

Definition updateTestValidation `{ValidatorJs} (body : UpdateTestBody)
  : list (string * string) :=
  run_chain (optional_chain "module_platform"
               [(v_isLength 0 255, "Module/Platform must be less than 255 characters")])
    (ut_module_platform body)
  ++ run_chain (optional_chain "test_case"
               [(v_isLength 5 2000, "Test case must be between 5 and 2000 characters")])
    (ut_test_case body)
  ++ run_chain (optional_chain "expected_result"
               [(v_isLength 5 2000, "Expected result must be between 5 and 2000 characters")])
    (ut_expected_result body)
  ++ run_chain updateTest_evidence_url_chain (ut_evidence_url body)
  ++ run_chain (optional_chain "assigned_to"
               [(v_isUUID, "Assigned tester must be a valid user ID")])
    (ut_assigned_to body).

Definition createBugValidation `{ValidatorJs} (body : BugBody) : list (string * string) :=
  run_chain (chain "module_platform"
               [(v_notEmpty, "Module/Platform is required");
                (v_isLength 0 255, "Module/Platform must be less than 255 characters")])
    (bb_module_platform body)
  ++ run_chain jam_link_chain (bb_jam_link body)
  ++ run_chain (chain "description"
               [(v_notEmpty, "Description is required");
                (v_isLength 10 2000, "Description must be between 10 and 2000 characters")])
    (bb_description body)
  ++ run_chain (optional_chain "note"
               [(v_isLength 0 2000, "Note must be less than 2000 characters")])
    (bb_note body)
  ++ run_chain (optional_chain "severity"
               [(v_isIn ["low"; "medium"; "high"; "critical"],
                 "Severity must be low, medium, high, or critical")])
    (bb_severity body).

Definition updateBugValidation `{ValidatorJs} (body : BugBody) : list (string * string) :=
  run_chain (optional_chain "module_platform"
               [(v_isLength 0 255, "Module/Platform must be less than 255 characters")])
    (bb_module_platform body)
  ++ run_chain updateBug_jam_link_chain (bb_jam_link body)
  ++ run_chain (optional_chain "description"
               [(v_isLength 10 2000, "Description must be between 10 and 2000 characters")])
    (bb_description body)
  ++ run_chain (optional_chain "note"
               [(v_isLength 0 2000, "Note must be less than 2000 characters")])
    (bb_note body)
  ++ run_chain (optional_chain "severity"
               [(v_isIn ["low"; "medium"; "high"; "critical"],
                 "Severity must be low, medium, high, or critical")])
    (bb_severity body)
  ++ run_chain (optional_chain "status"
               [(v_isIn ["open"; "in_progress"; "resolved"; "closed"],
                 "Invalid status value")])
    (bb_status body).

(** The [.trim()] sanitizers at the end of the chains rewrite the body the
    handler receives. *)
Definition sanitize_CreateTestBody `{ValidatorJs} (b : CreateTestBody) : CreateTestBody :=
  {| ct_module_platform := trim <$> ct_module_platform b;
     ct_test_case := trim <$> ct_test_case b;
     ct_expected_result := trim <$> ct_expected_result b;
     ct_evidence_url := ct_evidence_url b;
     ct_assigned_to := ct_assigned_to b |}.

Definition sanitize_ResultBody `{ValidatorJs} (b : ResultBody) : ResultBody :=
  {| rb_status := rb_status b;
     rb_evidence_url := rb_evidence_url b;
     rb_notes := trim <$> rb_notes b |}.

Definition sanitize_UpdateTestBody `{ValidatorJs} (b : UpdateTestBody) : UpdateTestBody :=
  {| ut_module_platform := trim <$> ut_module_platform b;
     ut_test_case := trim <$> ut_test_case b;
     ut_expected_result := trim <$> ut_expected_result b;
     ut_evidence_url := ut_evidence_url b;
     ut_assigned_to := ut_assigned_to b |}.

Definition sanitize_BugBody `{ValidatorJs} (b : BugBody) : BugBody :=
  {| bb_module_platform := trim <$> bb_module_platform b;
     bb_jam_link := bb_jam_link b;
     bb_description := trim <$> bb_description b;
     bb_note := trim <$> bb_note b;
     bb_severity := bb_severity b;
     bb_status := bb_status b |}.

(** ** Routes (testRoutes.js, bugRoutes.js), after [authenticate] *)

(** [router.post('/', authorize('PM'), createTestValidation, createTest)] *)
Definition post_tests `{ValidatorJs} (ρ : Env) (user : ReqUser) (body : CreateTestBody)
    (db : DB) : Response (string * test_cases_row) * DB :=
  authorize [PM] user db
    (handleValidation (createTestValidation body) db
       (createTest ρ user (sanitize_CreateTestBody body) db)).

(** [router.put('/:id/result', authorize('QA'), updateTestResultValidation, updateTestResult)] *)
Definition put_tests_id_result `{ValidatorJs} (ρ : Env) (user : ReqUser) (id : string)
    (body : ResultBody) (db : DB) : Response (string * test_cases_row) * DB :=
  authorize [QA] user db
    (handleValidation (updateTestResultValidation id body) db
       (updateTestResult ρ user id (sanitize_ResultBody body) db)).

(** [router.put('/:id', authorize('PM'), [...uuidParamValidation, ..., handleValidation], updateTest)]:
    the spread [uuidParamValidation] ends in a [handleValidation] of its own. *)
Definition put_tests_id `{ValidatorJs} (ρ : Env) (user : ReqUser) (id : string)
    (body : UpdateTestBody) (db : DB) : Response (string * test_cases_row) * DB :=
  authorize [PM] user db
    (handleValidation (uuidParamValidation id) db
       (handleValidation (updateTestValidation body) db
          (updateTest ρ user id (sanitize_UpdateTestBody body) db))).

(** [router.post('/', authorize('QA'), createBugValidation, createBug)] *)
Definition post_bugs `{ValidatorJs} (ρ : Env) (user : ReqUser) (body : BugBody)
    (db : DB) : Response (string * unlisted_bugs_row) * DB :=
  authorize [QA] user db
    (handleValidation (createBugValidation body) db
       (createBug ρ user (sanitize_BugBody body) db)).

(** [router.put('/:id', [...uuidParamValidation, ..., handleValidation], updateBug)]:
    no [authorize]. *)
Definition put_bugs_id `{ValidatorJs} (ρ : Env) (user : ReqUser) (id : string)
    (body : BugBody) (db : DB) : Response (string * unlisted_bugs_row) * DB :=
  handleValidation (uuidParamValidation id) db
    (handleValidation (updateBugValidation body) db
       (updateBug ρ user id (sanitize_BugBody body) db)).

Definition convertBugToTestValidation `{ValidatorJs} (id : string) (body : ConvertBody)
  : list (string * string) :=
  run_chain (chain "id" [(v_isUUID, "Invalid bug ID")]) (Some id)
  ++ run_chain (chain "assigned_to"
               [(v_notEmpty, "Assigned tester is required");
                (v_isUUID, "Assigned tester must be a valid user ID")])
    (cv_assigned_to body)
  ++ run_chain (chain "test_case"
               [(v_notEmpty, "Test case description is required");
                (v_isLength 5 2000, "Test case must be between 5 and 2000 characters")])
    (cv_test_case body)
  ++ run_chain (chain "expected_result"
               [(v_notEmpty, "Expected result is required");
                (v_isLength 5 2000, "Expected result must be between 5 and 2000 characters")])
    (cv_expected_result body).

Definition sanitize_ConvertBody `{ValidatorJs} (b : ConvertBody) : ConvertBody :=
  {| cv_assigned_to := cv_assigned_to b;
     cv_test_case := trim <$> cv_test_case b;
     cv_expected_result := trim <$> cv_expected_result b |}.

(** [router.post('/:id/convert', authorize('PM'), convertBugToTestValidation, convertToTest)] *)
Definition post_bugs_id_convert `{ValidatorJs} (ρ : Env) (user : ReqUser) (id : string)
    (body : ConvertBody) (db : DB) : Response (string * test_cases_row) * DB :=
  authorize [PM] user db
    (handleValidation (convertBugToTestValidation id body) db
       (convertToTest ρ user id (sanitize_ConvertBody body) db)).

(** ** Sequences of conversion calls *)

Record ConvertCall := {
  cc_env : Env;
  cc_user : ReqUser;
  cc_body : ConvertBody;
}.

(** The calls of a list, one after the other on the same bug id; the
    responses come back in order. *)
Fixpoint convert_calls (id : string) (calls : list ConvertCall) (db : DB)
  : list (Response (string * test_cases_row)) * DB :=
  match calls with
  | [] => ([], db)
  | c :: rest =>
      let '(r, db1) := convertToTest (cc_env c) (cc_user c) id (cc_body c) db in
      let '(rs, db2) := convert_calls id rest db1 in
      (r :: rs, db2)
  end.

(** The test cases of the table derived from a bug. *)
Definition derived_tests (id : string) (db : DB) : list (string * test_cases_row) :=
  filter (λ kv, tc_source_bug_id kv.2 = Some id) (map_to_list (test_cases db)).

(** The number of responses that report success. *)
Definition created {A} (rs : list (Response A)) : nat :=
  length (filter (λ r, success r = true) rs).

(** A user row with the verification flag set to [v]. *)
Definition set_is_verified (v : bool) (u : users_row) : users_row :=
  {| email := email u; name := name u; role := role u; is_verified := v;
     reset_password_token := reset_password_token u;
     reset_password_expires := reset_password_expires u |}.

(** The query [q] asking for page [p]. *)
Definition at_page (p : nat) (q : TestsQuery) : TestsQuery :=
  {| q_page := Some p; q_limit := q_limit q; q_status := q_status q;
     q_module_platform := q_module_platform q; q_search := q_search q;
     q_sort := q_sort q; q_order := q_order q |}.

(** ** A small deployment, used by the examples *)

Module Sample.

Definition env0 : Env :=
  {| findError := false; assigneeError := false; insertError := false;
     updateError := false; emailError := false; uuid := "t-1"; now := 1000 |}.

(** As [env0], but the next inserted row draws another UUID. *)
Definition env1 : Env :=
  {| findError := false; assigneeError := false; insertError := false;
     updateError := false; emailError := false; uuid := "t-2"; now := 2000 |}.

(** The store refuses the update statements. *)
Definition env_update_fails (id : string) (t : Z) : Env :=
  {| findError := false; assigneeError := false; insertError := false;
     updateError := true; emailError := false; uuid := id; now := t |}.

(** The store refuses the insert statements. *)
Definition env_insert_fails : Env :=
  {| findError := false; assigneeError := false; insertError := true;
     updateError := false; emailError := false; uuid := "t-1"; now := 1000 |}.

(** The mail service is down. *)
Definition env_email_fails : Env :=
  {| findError := false; assigneeError := false; insertError := false;
     updateError := false; emailError := true; uuid := "t-1"; now := 1000 |}.

Definition user (e n : string) (r : UserRole) (v : bool) : users_row :=
  {| email := e; name := n; role := r; is_verified := v;
     reset_password_token := None; reset_password_expires := None |}.

Definition pat := user "pm@qualitysync.com" "Pat" PM true.
Definition mike := user "qa@qualitysync.com" "Mike" QA true.
Definition lisa := user "lisa@qualitysync.com" "Lisa" QA false.
Definition erin := user "eng@qualitysync.com" "Erin" ENG true.

Definition as_pat : ReqUser := {| user_id := "u-pat"; user_role := PM |}.
Definition as_mike : ReqUser := {| user_id := "u-mike"; user_role := QA |}.
Definition as_nora : ReqUser := {| user_id := "u-nora"; user_role := QA |}.
Definition as_erin : ReqUser := {| user_id := "u-erin"; user_role := ENG |}.

Definition bug1 : unlisted_bugs_row :=
  {| bug_module_platform := "Checkout / Web";
     bug_jam_link := "https://jam.dev/c/x";
     bug_description := "Total is not refreshed after a coupon";
     bug_note := None; bug_severity := high; bug_status := open;
     bug_created_by := "u-mike";
     bug_converted_to_test_id := None; bug_converted_at := None;
     bug_created_at := 10; bug_updated_at := 10 |}.

(** A bug that was converted into the test case ["t-0"]. *)
Definition bug2 : unlisted_bugs_row :=
  {| bug_module_platform := "Login / iOS";
     bug_jam_link := "https://jam.dev/c/y";
     bug_description := "Keyboard hides the submit button";
     bug_note := None; bug_severity := medium; bug_status := converted_to_test;
     bug_created_by := "u-mike";
     bug_converted_to_test_id := Some "t-0"; bug_converted_at := Some 50%Z;
     bug_created_at := 20; bug_updated_at := 50 |}.

Definition test0 : test_cases_row :=
  {| tc_module_platform := "Login / iOS";
     tc_test_case := "Open the login form on a small screen";
     tc_expected_result := "The submit button stays visible";
     tc_status := pending;
     tc_evidence_url := Some "https://jam.dev/c/y";
     tc_notes := Some "first run";
     tc_assigned_to := "u-mike"; tc_created_by := "u-pat";
     tc_source_bug_id := Some "b-2";
     tc_created_at := 50; tc_updated_at := 50 |}.

Definition db0 : DB :=
  {| users := <["u-pat" := pat]> (<["u-mike" := mike]> (<["u-lisa" := lisa]>
                (<["u-erin" := erin]> ∅)));
     test_cases := <["t-0" := test0]> ∅;
     unlisted_bugs := <["b-1" := bug1]> (<["b-2" := bug2]> ∅) |}.

Definition convert_body (assignee : string) : ConvertBody :=
  {| cv_assigned_to := Some assignee;
     cv_test_case := Some "Apply a coupon in the cart";
     cv_expected_result := Some "The total shows the reduced price" |}.

Definition create_body (assignee : string) (url : option string) : CreateTestBody :=
  {| ct_module_platform := Some "Checkout / Web";
     ct_test_case := Some "Apply a coupon in the cart";
     ct_expected_result := Some "The total shows the reduced price";
     ct_evidence_url := url;
     ct_assigned_to := Some assignee |}.

(** A validator.js whose URLs are the texts that start with [https://], that
    accepts every id, and whose [trim] keeps its argument. *)
Definition https_validator : ValidatorJs :=
  {| isURL := String.prefix "https://"; isUUID := λ _, true; trim := λ s, s |}.

Definition no_ilike : Postgres := {| ilike := λ _ _, false |}.

Definition no_query : TestsQuery :=
  {| q_page := None; q_limit := None; q_status := None; q_module_platform := None;
     q_search := None; q_sort := None; q_order := None |}.

End Sample.

(** ** testController.deleteTest, bugController.deleteBug *)

(** The foreign keys between the two tables are [ON DELETE SET NULL]: the
    row that pointed at a deleted row is updated, and the trigger of its
    table refreshes [updated_at]. *)
Definition clear_converted_to_test_id (test_id : string) (t : Z) (b : unlisted_bugs_row)
  : unlisted_bugs_row :=
  if bool_decide (bug_converted_to_test_id b = Some test_id)
  then {| bug_module_platform := bug_module_platform b;
          bug_jam_link := bug_jam_link b;
          bug_description := bug_description b;
          bug_note := bug_note b;
          bug_severity := bug_severity b;
          bug_status := bug_status b;
          bug_created_by := bug_created_by b;
          bug_converted_to_test_id := None;
          bug_converted_at := bug_converted_at b;
          bug_created_at := bug_created_at b;
          bug_updated_at := t |}
  else b.

(** [.update({ source_bug_id: null })] on a row of [test_cases]. *)
Definition set_source_bug_id_null (t : Z) (r : test_cases_row) : test_cases_row :=
  {| tc_module_platform := tc_module_platform r;
     tc_test_case := tc_test_case r;
     tc_expected_result := tc_expected_result r;
     tc_status := tc_status r;
     tc_evidence_url := tc_evidence_url r;
     tc_notes := tc_notes r;
     tc_assigned_to := tc_assigned_to r;
     tc_created_by := tc_created_by r;
     tc_source_bug_id := None;
     tc_created_at := tc_created_at r;
     tc_updated_at := t |}.

Definition clear_source_bug_id (bug_id : string) (t : Z) (r : test_cases_row)
  : test_cases_row :=
  if bool_decide (tc_source_bug_id r = Some bug_id) then set_source_bug_id_null t r else r.

(** [.delete().eq('id', id)] on [test_cases]; [deleteError] is the [error]
    the store may answer. *)
Definition delete_test_case (deleteError : bool) (ρ : Env) (id : string) (db : DB)
  : option DB :=
  if deleteError then None
  else Some {| users := users db;
               test_cases := delete id (test_cases db);
               unlisted_bugs := clear_converted_to_test_id id (now ρ) <$> unlisted_bugs db |}.

(** [.delete().eq('id', id)] on [unlisted_bugs]. *)
Definition delete_bug (deleteError : bool) (ρ : Env) (id : string) (db : DB) : option DB :=
  if deleteError then None
  else Some {| users := users db;
               test_cases := clear_source_bug_id id (now ρ) <$> test_cases db;
               unlisted_bugs := delete id (unlisted_bugs db) |}.

Definition deleteTest (ρ : Env) (deleteError : bool) (user : ReqUser) (id : string)
    (db : DB) : Response unit * DB :=
  match single (findError ρ) (test_cases db !! id) with
  | None => (ApiError 404 "Test case not found", db)
  | Some existingTest =>
      match delete_test_case deleteError ρ id db with
      | None => (ApiError 500 "Failed to delete test case", db)
      | Some db1 => (Json 200 "Test case deleted successfully" None, db1)
      end
  end.

(** The back-reference of the derived test case is cleared first, in an
    update whose result is not read; then the bug is deleted. *)
Definition deleteBug (ρ : Env) (deleteError : bool) (user : ReqUser) (id : string)
    (db : DB) : Response unit * DB :=
  match single (findError ρ) (unlisted_bugs db !! id) with
  | None => (ApiError 404 "Bug not found", db)
  | Some existingBug =>
      let db1 :=
        if truthy (bug_converted_to_test_id existingBug) && negb (updateError ρ)
        then with_test_cases
               (alter (set_source_bug_id_null (now ρ))
                  (default "" (bug_converted_to_test_id existingBug))) db
        else db in
      match delete_bug deleteError ρ id db1 with
      | None => (ApiError 500 "Failed to delete bug", db1)
      | Some db2 => (Json 200 "Bug deleted successfully" None, db2)
      end
  end.

(** ** bugController.getBugs *)

Record BugsQuery := {
  bq_page : option nat;
  bq_limit : option nat;
  bq_status : option string;
  bq_severity : option string;
  bq_module_platform : option string;
  bq_search : option string;
  bq_sort : option string;
  bq_order : option string;
}.

Record BugList := { bugs : list (string * unlisted_bugs_row); bugs_pagination : Pagination }.

(** QA only sees bugs they created; PM and ENG see all bugs. *)
Definition bug_role_filter (user : ReqUser) (kv : string * unlisted_bugs_row) : bool :=
  if bool_decide (user_role user = QA)
  then bool_decide (bug_created_by kv.2 = user_id user)
  else true.

Definition bug_status_filter (status : option string) (kv : string * unlisted_bugs_row)
  : bool :=
  match BugStatus_of_string (default "" status) with
  | Some st => bool_decide (bug_status kv.2 = st)
  | None => true
  end.

Definition bug_severity_filter (severity : option string)
    (kv : string * unlisted_bugs_row) : bool :=
  match BugSeverity_of_string (default "" severity) with
  | Some sev => bool_decide (bug_severity kv.2 = sev)
  | None => true
  end.

Definition bug_module_filter `{Postgres} (module_platform : option string)
    (kv : string * unlisted_bugs_row) : bool :=
  if truthy module_platform
  then ilike ("%" ++ default "" module_platform ++ "%") (bug_module_platform kv.2)
  else true.

(** A null [note] matches no pattern. *)
Definition bug_search_filter `{Postgres} (search : option string)
    (kv : string * unlisted_bugs_row) : bool :=
  if truthy search
  then ilike ("%" ++ default "" search ++ "%") (bug_description kv.2)
       || match bug_note kv.2 with
          | Some n => ilike ("%" ++ default "" search ++ "%") n
          | None => false
          end
  else true.

Definition BugStatus_rank (s : BugStatus) : nat :=
  match s with
  | open => 0 | in_progress => 1 | resolved => 2 | closed => 3 | converted_to_test => 4
  end.

Definition BugSeverity_rank (s : BugSeverity) : nat :=
  match s with low => 0 | medium => 1 | high => 2 | critical => 3 end.

Definition bug_le (sortField : string) (a b : string * unlisted_bugs_row) : bool :=
  if bool_decide (sortField = "updated_at") then (bug_updated_at a.2 <=? bug_updated_at b.2)%Z
  else if bool_decide (sortField = "status")
       then (BugStatus_rank (bug_status a.2) <=? BugStatus_rank (bug_status b.2))%nat
  else if bool_decide (sortField = "severity")
       then (BugSeverity_rank (bug_severity a.2) <=? BugSeverity_rank (bug_severity b.2))%nat
  else if bool_decide (sortField = "module_platform")
       then String.leb (bug_module_platform a.2) (bug_module_platform b.2)
  else (bug_created_at a.2 <=? bug_created_at b.2)%Z.

Definition order_bugs (sort order : option string)
    (rows : list (string * unlisted_bugs_row)) : list (string * unlisted_bugs_row) :=
  if bool_decide (default "desc" order = "asc")
  then merge_sort (λ a b, Is_true (bug_le (default "created_at" sort) a b)) rows
  else merge_sort (λ a b, Is_true (bug_le (default "created_at" sort) b a)) rows.

Definition bugs_query `{Postgres} (user : ReqUser) (q : BugsQuery) (db : DB)
  : list (string * unlisted_bugs_row) :=
  order_bugs (bq_sort q) (bq_order q)
    (filter (λ kv, Is_true (bug_role_filter user kv && bug_status_filter (bq_status q) kv
                            && bug_severity_filter (bq_severity q) kv
                            && bug_module_filter (bq_module_platform q) kv
                            && bug_search_filter (bq_search q) kv))
       (map_to_list (unlisted_bugs db))).

Definition getBugs `{Postgres} (ρ : Env) (user : ReqUser) (q : BugsQuery) (db : DB)
  : Response BugList :=
  let page := parseInt_or (bq_page q) 1 in
  let limit := parseInt_or (bq_limit q) 10 in
  let offset := (page - 1) * limit in
  if findError ρ then ApiError 500 "Failed to fetch unlisted bugs"
  else
    let rows := bugs_query user q db in
    let count := length rows in
    Json 200 ""
      (Some {| bugs := take limit (drop offset rows);
               bugs_pagination := {| page := page; limit := limit; total := count;
                                     totalPages := (count + limit - 1) / limit |} |}).

(** The query [q] asking for page [p]. *)
Definition bugs_at_page (p : nat) (q : BugsQuery) : BugsQuery :=
  {| bq_page := Some p; bq_limit := bq_limit q; bq_status := bq_status q;
     bq_severity := bq_severity q; bq_module_platform := bq_module_platform q;
     bq_search := bq_search q; bq_sort := bq_sort q; bq_order := bq_order q |}.

(** ** The view [dashboard_stats] and testController.getStats *)

Record DashboardStats := {
  total_tests : nat;
  passed_tests : nat;
  failed_tests : nat;
  pending_tests : nat;
  escalated_tests : nat;
  open_bugs : nat;
  total_bugs : nat;
}.

(** [SELECT COUNT( * ) FROM test_cases WHERE status = st] *)
Definition count_tests (st : TestStatus) (db : DB) : nat :=
  length (filter (λ kv : string * test_cases_row, tc_status kv.2 = st)
            (map_to_list (test_cases db))).

Definition count_bugs (st : BugStatus) (db : DB) : nat :=
  length (filter (λ kv : string * unlisted_bugs_row, bug_status kv.2 = st)
            (map_to_list (unlisted_bugs db))).

Definition dashboard_stats (db : DB) : DashboardStats :=
  {| total_tests := length (map_to_list (test_cases db));
     passed_tests := count_tests pass db;
     failed_tests := count_tests fail db;
     pending_tests := count_tests pending db;
     escalated_tests := count_tests escalated db;
     open_bugs := count_bugs open db;
     total_bugs := length (map_to_list (unlisted_bugs db)) |}.

Definition getStats (ρ : Env) (db : DB) : Response DashboardStats :=
  if findError ρ then ApiError 500 "Failed to fetch statistics"
  else Json 200 "" (Some (dashboard_stats db)).

(** ** userController *)

(** A row of [getQATesters]: [.select('id, email, name')]. *)
Record QATester := { qt_id : string; qt_email : string; qt_name : string }.

Definition QATester_of (kv : string * users_row) : QATester :=
  {| qt_id := kv.1; qt_email := email kv.2; qt_name := name kv.2 |}.

(** [.eq('role', 'QA').eq('is_verified', true).order('name', { ascending: true })] *)
Definition getQATesters (ρ : Env) (db : DB) : Response (list QATester) :=
  if findError ρ then ApiError 500 "Failed to fetch QA testers"
  else
    Json 200 ""
      (Some (QATester_of <$>
               merge_sort (λ a b : string * users_row,
                             Is_true (String.leb (name a.2) (name b.2)))
                 (filter (λ kv : string * users_row,
                            role kv.2 = QA ∧ is_verified kv.2 = true)
                    (map_to_list (users db))))).

Definition getUser (ρ : Env) (id : string) (db : DB) : Response (string * users_row) :=
  match single (findError ρ) (users db !! id) with
  | None => ApiError 404 "User not found"
  | Some user => Json 200 "" (Some (id, user))
  end.

Record UpdateUserBody := { uu_name : option string; uu_role : option string }.

Definition UserRole_of_string (s : string) : option UserRole :=
  if bool_decide (s = "PM") then Some PM
  else if bool_decide (s = "QA") then Some QA
  else if bool_decide (s = "ENG") then Some ENG
  else None.

(** [if (name) updateData.name = name;
     if (role && ['PM', 'QA', 'ENG'].includes(role)) updateData.role = role;] *)
Definition apply_user_update (body : UpdateUserBody) (u : users_row) : users_row :=
  {| email := email u;
     name := default (name u) (if_truthy (uu_name body));
     role := default (role u) (UserRole_of_string (default "" (uu_role body)));
     is_verified := is_verified u;
     reset_password_token := reset_password_token u;
     reset_password_expires := reset_password_expires u |}.

Definition updateUser (ρ : Env) (user : ReqUser) (id : string) (body : UpdateUserBody)
    (db : DB) : Response (string * users_row) * DB :=
  match single (findError ρ) (users db !! id) with
  | None => (ApiError 404 "User not found", db)
  | Some existingUser =>
      if updateError ρ then (ApiError 500 "Failed to update user", db)
      else
        let u' := apply_user_update body existingUser in
        (Json 200 "User updated successfully" (Some (id, u')),
         with_users (insert id u') db)
  end.

(** [.delete().eq('id', id)] on [users]: the references to a user from
    [test_cases] and [unlisted_bugs] are [ON DELETE RESTRICT]. *)
Definition user_referenced (id : string) (db : DB) : bool :=
  bool_decide (Exists (λ kv : string * test_cases_row,
                         tc_assigned_to kv.2 = id ∨ tc_created_by kv.2 = id)
                 (map_to_list (test_cases db)))
  || bool_decide (Exists (λ kv : string * unlisted_bugs_row, bug_created_by kv.2 = id)
                    (map_to_list (unlisted_bugs db))).

Definition delete_user (deleteError : bool) (id : string) (db : DB) : option DB :=
  if deleteError || user_referenced id db then None
  else Some (with_users (delete id) db).

(** The columns [id], [assigned_to] and [created_by] are of type [uuid]:
    the store reads the text of a filter as a [uuid], whatever the case of
    its hexadecimal digits, and writes ids in lower case.  [as_uuid s] is the
    id the store compares with when it is given the text [s]; the keys of
    the tables are such ids.  [deleteUser] is the one handler that also
    compares the text of a parameter itself; the others hand their ids to
    the store only, and are stated on the ids the store reads. *)
Definition as_uuid_digit (c : Ascii.ascii) : Ascii.ascii :=
  if (65 <=? Ascii.nat_of_ascii c)%nat && (Ascii.nat_of_ascii c <=? 70)%nat
  then Ascii.ascii_of_nat (Ascii.nat_of_ascii c + 32)
  else c.

Fixpoint as_uuid (s : string) : string :=
  match s with
  | EmptyString => EmptyString
  | String c rest => String (as_uuid_digit c) (as_uuid rest)
  end.

(** The guard compares the text of the parameter with [req.user.id], the id
    [authenticate] read from the store; the three queries that follow hand
    the text to the store.  [selectError] is the outcome of the look for
    assigned test cases; its [error] is not read, and without [data] the
    check is skipped. *)
Definition deleteUser (ρ : Env) (selectError deleteError : bool) (user : ReqUser)
    (id : string) (db : DB) : Response unit * DB :=
  if bool_decide (id = user_id user)
  then (ApiError 400 "You cannot delete your own account", db)
  else
    match single (findError ρ) (users db !! as_uuid id) with
    | None => (ApiError 404 "User not found", db)
    | Some existingUser =>
        if negb selectError
           && bool_decide (Exists (λ kv : string * test_cases_row,
                                     tc_assigned_to kv.2 = as_uuid id)
                             (map_to_list (test_cases db)))
        then (ApiError 400
                "Cannot delete user with assigned test cases. Reassign tests first.", db)
        else
          match delete_user deleteError (as_uuid id) db with
          | None => (ApiError 500 "Failed to delete user", db)
          | Some db1 => (Json 200 "User deleted successfully" None, db1)
          end
    end.

(** ** Referential integrity *)

(** Every reference of a row resolves: the foreign keys of [schema.sql]. *)
Definition refs_ok (db : DB) : Prop :=
  (∀ k t, test_cases db !! k = Some t →
     is_Some (users db !! tc_assigned_to t)
     ∧ is_Some (users db !! tc_created_by t)
     ∧ ∀ b, tc_source_bug_id t = Some b → is_Some (unlisted_bugs db !! b))
  ∧ (∀ k b, unlisted_bugs db !! k = Some b →
       is_Some (users db !! bug_created_by b)
       ∧ ∀ t, bug_converted_to_test_id b = Some t → is_Some (test_cases db !! t)).

(** ** userController.createUser *)

(** The body as the route's validation lets it through: [email] is a
    string. *)
Record CreateUserBody := {
  cu_email : string;
  cu_name : option string;
  cu_role : option string;
}.

(** [.insert({email, password_hash, name, role, is_verified: true})] into
    [users]: [email] is [UNIQUE], [name] is [NOT NULL], [role] is of the enum
    [user_role]. *)
Definition insert_user (ρ : Env) (body : CreateUserBody) (db : DB)
  : option (string * users_row * DB) :=
  if insertError ρ then None else
  match cu_name body, UserRole_of_string (default "" (cu_role body)) with
  | Some n, Some r =>
      if bool_decide (Exists (λ kv : string * users_row, email kv.2 = cu_email body)
                        (map_to_list (users db)))
      then None
      else
        match users db !! uuid ρ with
        | Some _ => None
        | None =>
            let row := {| email := cu_email body; name := n; role := r;
                          is_verified := true;
                          reset_password_token := None;
                          reset_password_expires := None |} in
            Some (uuid ρ, row, with_users (insert (uuid ρ) row) db)
        end
  | _, _ => None
  end.

(** The [error] of the look for the email is logged only; [errorMessage] is
    the [message] of the error of the insert; a failure of the welcome mail
    is logged. *)
Definition createUser (ρ : Env) (errorMessage : option string) (user : ReqUser)
    (body : CreateUserBody) (db : DB) : Response (string * users_row) * DB :=
  match single (findError ρ) (user_by_email (cu_email body) db) with
  | Some existingUser => (ApiError 409 "User with this email already exists", db)
  | None =>
      match insert_user ρ body db with
      | None =>
          (ApiError 500 ("Failed to create user: "
                         ++ default "Unknown error" (if_truthy errorMessage)), db)
      | Some (id, row, db1) =>
          (Json 201 "User created successfully. They can now log in." (Some (id, row)), db1)
      end
  end.

(** No two users share an email: the [UNIQUE] constraint of [users.email]. *)
Definition emails_unique (db : DB) : Prop :=
  ∀ k1 k2 u1 u2, users db !! k1 = Some u1 → users db !! k2 = Some u2 →
                 email u1 = email u2 → k1 = k2.

(** ** authController.resetPassword *)

Definition user_by_reset_token (tok : string) (db : DB) : option (string * users_row) :=
  match filter (λ kv : string * users_row, reset_password_token kv.2 = Some tok)
          (map_to_list (users db)) with
  | [kv] => Some kv
  | _ => None
  end.

(** [.update({password_hash, reset_password_token: null,
    reset_password_expires: null})]; the column [password_hash] is outside
    the columns of [users_row]. *)
Definition clear_reset_token (u : users_row) : users_row :=
  {| email := email u; name := name u; role := role u; is_verified := is_verified u;
     reset_password_token := None; reset_password_expires := None |}.

(** [token] is the token of the body, which the route wants not empty;
    [new Date(null)] is the time 0. *)
Definition resetPassword (ρ : Env) (token : string) (db : DB) : Response unit * DB :=
  match single (findError ρ) (user_by_reset_token token db) with
  | None => (ApiError 400 "Invalid or expired reset token", db)
  | Some (uid, user) =>
      if (default 0 (reset_password_expires user) <? now ρ)%Z
      then (ApiError 400 "Reset token has expired", db)
      else if updateError ρ then (ApiError 500 "Failed to reset password", db)
      else (Json 200 "Password reset successful. You can now log in with your new password."
              None,
            with_users (alter clear_reset_token uid) db)
  end.

(** ** middleware/auth.js: authenticate *)

(** [userId] is the [decoded.userId] of a token that [jwt.verify] accepts;
    [authError] is the [error] of the look for the user. *)
Definition authenticate {A} (authError : bool) (userId : string) (db : DB)
    (next : ReqUser → Response A * DB) : Response A * DB :=
  match single authError (users db !! userId) with
  | None => (ApiError 401 "Invalid token. User not found.", db)
  | Some user =>
      if negb (is_verified user)
      then (ApiError 403 "Please verify your email before accessing this resource.", db)
      else next {| user_id := userId; user_role := role user |}
  end.

(** ** Routes that delete, and userRoutes.js *)

(** [router.delete('/:id', authorize('PM'), uuidParamValidation, deleteTest)] *)
Definition delete_tests_id `{ValidatorJs} (ρ : Env) (deleteError : bool) (user : ReqUser)
    (id : string) (db : DB) : Response unit * DB :=
  authorize [PM] user db
    (handleValidation (uuidParamValidation id) db (deleteTest ρ deleteError user id db)).

(** [router.delete('/:id', authorize('PM'), uuidParamValidation, deleteBug)] *)
Definition delete_bugs_id `{ValidatorJs} (ρ : Env) (deleteError : bool) (user : ReqUser)
    (id : string) (db : DB) : Response unit * DB :=
  authorize [PM] user db
    (handleValidation (uuidParamValidation id) db (deleteBug ρ deleteError user id db)).

Definition updateUserValidation `{ValidatorJs} (body : UpdateUserBody)
  : list (string * string) :=
  run_chain (optional_chain "name"
               [(v_isLength 2 100, "Name must be between 2 and 100 characters")])
    (uu_name body)
  ++ run_chain (optional_chain "role"
               [(v_isIn ["PM"; "QA"; "ENG"], "Role must be PM, QA, or ENG")])
    (uu_role body).

Definition sanitize_UpdateUserBody `{ValidatorJs} (b : UpdateUserBody) : UpdateUserBody :=
  {| uu_name := trim <$> uu_name b; uu_role := uu_role b |}.

(** [router.use(authorize('PM'))], then
    [router.put('/:id', [...uuidParamValidation, ..., handleValidation], updateUser)] *)
Definition put_users_id `{ValidatorJs} (ρ : Env) (user : ReqUser) (id : string)
    (body : UpdateUserBody) (db : DB) : Response (string * users_row) * DB :=
  authorize [PM] user db
    (handleValidation (uuidParamValidation id) db
       (handleValidation (updateUserValidation body) db
          (updateUser ρ user id (sanitize_UpdateUserBody body) db))).

(** [router.delete('/:id', uuidParamValidation, deleteUser)] *)
Definition delete_users_id `{ValidatorJs} (ρ : Env) (selectError deleteError : bool)
    (user : ReqUser) (id : string) (db : DB) : Response unit * DB :=
  authorize [PM] user db
    (handleValidation (uuidParamValidation id) db
       (deleteUser ρ selectError deleteError user id db)).

(** ** The column [password_hash] *)

(** [argon2.hash] and [argon2.verify(hash, plain)]. *)
Class Argon2 := {
  argon2_hash : string → string;
  argon2_verify : string → string → bool;
}.

(** The tables, and the column [users.password_hash] by id (what it holds
    for an id without a row is immaterial: the column is read through a row
    only, and every row is inserted with its hash). *)
Record Store := {
  tables : DB;
  password_hash : string → string;
}.

(** The answer of a handler that leaves [password_hash] alone. *)
Definition lift {A} (p : Response A * DB) (s : Store) : Response A * Store :=
  (p.1, {| tables := p.2; password_hash := password_hash s |}).

(** [authenticate] and [handleValidation] on the store with its hashes,
    as a handler that writes [password_hash] needs them. *)
Definition authenticate_store {A} (authError : bool) (userId : string) (s : Store)
    (next : ReqUser → Response A * Store) : Response A * Store :=
  match single authError (users (tables s) !! userId) with
  | None => (ApiError 401 "Invalid token. User not found.", s)
  | Some user =>
      if negb (is_verified user)
      then (ApiError 403 "Please verify your email before accessing this resource.", s)
      else next {| user_id := userId; user_role := role user |}
  end.

Definition handleValidation_store {A} (errs : list (string * string)) (s : Store)
    (next : Response A * Store) : Response A * Store :=
  match errs with
  | [] => next
  | _ => ({| statusCode := 400; success := false; message := "Validation failed";
             data := None; errors := errs |}, s)
  end.

(** *** authController.changePassword *)

(** The update of the hash is awaited and its result is not read. *)
Definition changePassword `{Argon2} (ρ : Env) (user : ReqUser)
    (currentPassword newPassword : string) (s : Store) : Response unit * Store :=
  match single (findError ρ) (users (tables s) !! user_id user) with
  | None => (ApiError 404 "User not found", s)
  | Some _ =>
      if negb (argon2_verify (password_hash s (user_id user)) currentPassword)
      then (ApiError 401 "Current password is incorrect", s)
      else
        (Json 200 "Password changed successfully" None,
         if updateError ρ then s
         else {| tables := tables s;
                 password_hash :=
                   <[user_id user := argon2_hash newPassword]> (password_hash s) |})
  end.

Record ChangePasswordBody := {
  cp_currentPassword : option string;
  cp_newPassword : option string;
}.

Definition is_upper (c : Ascii.ascii) : bool :=
  (65 <=? Ascii.nat_of_ascii c)%nat && (Ascii.nat_of_ascii c <=? 90)%nat.
Definition is_lower (c : Ascii.ascii) : bool :=
  (97 <=? Ascii.nat_of_ascii c)%nat && (Ascii.nat_of_ascii c <=? 122)%nat.
Definition is_digit (c : Ascii.ascii) : bool :=
  (48 <=? Ascii.nat_of_ascii c)%nat && (Ascii.nat_of_ascii c <=? 57)%nat.

(** [.matches(/[...]/)] with a class of characters, and [.isLength({min})]:
    standard validators, which see the value as a string. *)
Definition v_matches (class : Ascii.ascii → bool) : Validator :=
  v_custom (λ v, existsb class (String.list_ascii_of_string (default "" v))).
Definition v_minLength (min : nat) : Validator :=
  v_custom (λ v, (min <=? String.length (default "" v))%nat).

(** The chains of [router.put('/change-password', ...)] (authRoutes.js). *)
Definition changePasswordValidation `{ValidatorJs} (body : ChangePasswordBody)
  : list (string * string) :=
  run_chain (chain "currentPassword" [(v_notEmpty, "Current password is required")])
    (cp_currentPassword body)
  ++ run_chain (chain "newPassword"
               [(v_minLength 8, "New password must be at least 8 characters");
                (v_matches is_upper, "Password must contain at least one uppercase letter");
                (v_matches is_lower, "Password must contain at least one lowercase letter");
                (v_matches is_digit, "Password must contain at least one number")])
    (cp_newPassword body).

(** [router.put('/change-password', authenticate, [..., handleValidation],
    changePassword)]: no [authorize].  A body that passes the chains holds
    both texts. *)
Definition put_auth_change_password `{ValidatorJs} `{Argon2} (ρ : Env) (user : ReqUser)
    (body : ChangePasswordBody) (s : Store) : Response unit * Store :=
  handleValidation_store (changePasswordValidation body) s
    (changePassword ρ user (default "" (cp_currentPassword body))
       (default "" (cp_newPassword body)) s).

(** *** The handlers that write a hash with a row *)

(** [createUser] with its hash: [password] is the password of the body,
    [generated] the value of [uuidv4().slice(0, 12)]. *)
Definition createUser_hashed `{Argon2} (ρ : Env) (errorMessage : option string)
    (user : ReqUser) (body : CreateUserBody) (password : option string)
    (generated : string) (s : Store) : Response (string * users_row) * Store :=
  let p := createUser ρ errorMessage user body (tables s) in
  (p.1,
   {| tables := p.2;
      password_hash :=
        match data p.1 with
        | Some (id, _) =>
            <[id := argon2_hash (default generated (if_truthy password))]> (password_hash s)
        | None => password_hash s
        end |}).

(** [resetPassword] with the hash of the new password, written in the
    update that clears the token. *)
Definition resetPassword_hashed `{Argon2} (ρ : Env) (token password : string) (s : Store)
  : Response unit * Store :=
  let p := resetPassword ρ token (tables s) in
  (p.1,
   {| tables := p.2;
      password_hash :=
        match user_by_reset_token token (tables s) with
        | Some (uid, _) =>
            if success p.1 then <[uid := argon2_hash password]> (password_hash s)
            else password_hash s
        | None => password_hash s
        end |}).

(** ** The writing requests of the API *)

(** The requests behind [authenticate] that write to the store, but for
    [POST /users], which is behind [authorize('PM')] as the other routes of
    userRoutes.js are. *)
Inductive Request :=
| POST_tests (body : CreateTestBody)
| PUT_tests_id_result (id : string) (body : ResultBody)
| PUT_tests_id (id : string) (body : UpdateTestBody)
| DELETE_tests_id (id : string)
| POST_bugs (body : BugBody)
| PUT_bugs_id (id : string) (body : BugBody)
| POST_bugs_id_convert (id : string) (body : ConvertBody)
| DELETE_bugs_id (id : string)
| PUT_users_id (id : string) (body : UpdateUserBody)
| DELETE_users_id (id : string)
| PUT_auth_change_password (body : ChangePasswordBody).

(** What the store answers besides the flags of [Env]. *)
Record Faults := { fl_auth : bool; fl_select : bool; fl_delete : bool }.

Definition answer {A S} (p : Response A * S) : nat * S := (statusCode p.1, p.2).

(** [router.use(authenticate)], then the route. *)
Definition serve `{ValidatorJs} `{Argon2} (ρ : Env) (φ : Faults) (userId : string)
    (req : Request) (s : Store) : nat * Store :=
  match req with
  | POST_tests body =>
      answer (authenticate_store (fl_auth φ) userId s
                (λ user, lift (post_tests ρ user body (tables s)) s))
  | PUT_tests_id_result id body =>
      answer (authenticate_store (fl_auth φ) userId s
                (λ user, lift (put_tests_id_result ρ user id body (tables s)) s))
  | PUT_tests_id id body =>
      answer (authenticate_store (fl_auth φ) userId s
                (λ user, lift (put_tests_id ρ user id body (tables s)) s))
  | DELETE_tests_id id =>
      answer (authenticate_store (fl_auth φ) userId s
                (λ user, lift (delete_tests_id ρ (fl_delete φ) user id (tables s)) s))
  | POST_bugs body =>
      answer (authenticate_store (fl_auth φ) userId s
                (λ user, lift (post_bugs ρ user body (tables s)) s))
  | PUT_bugs_id id body =>
      answer (authenticate_store (fl_auth φ) userId s
                (λ user, lift (put_bugs_id ρ user id body (tables s)) s))
  | POST_bugs_id_convert id body =>
      answer (authenticate_store (fl_auth φ) userId s
                (λ user, lift (post_bugs_id_convert ρ user id body (tables s)) s))
  | DELETE_bugs_id id =>
      answer (authenticate_store (fl_auth φ) userId s
                (λ user, lift (delete_bugs_id ρ (fl_delete φ) user id (tables s)) s))
  | PUT_users_id id body =>
      answer (authenticate_store (fl_auth φ) userId s
                (λ user, lift (put_users_id ρ user id body (tables s)) s))
  | DELETE_users_id id =>
      answer (authenticate_store (fl_auth φ) userId s
                (λ user, lift (delete_users_id ρ (fl_select φ) (fl_delete φ) user id
                                 (tables s)) s))
  | PUT_auth_change_password body =>
      answer (authenticate_store (fl_auth φ) userId s
                (λ user, put_auth_change_password ρ user body s))
  end.

(** What reaches the store: a request behind [authenticate], a call of the
    handler of [POST /users] (with a body its route lets through), or one of
    the two public calls for a new password. *)
Inductive Event :=
| Authenticated (ρ : Env) (φ : Faults) (userId : string) (req : Request)
| Create_user (ρ : Env) (errorMessage : option string) (user : ReqUser)
    (body : CreateUserBody) (password : option string) (generated : string)
| Forgot_password (ρ : Env) (randomToken email_ : string)
| Reset_password (ρ : Env) (token password : string).

Definition step `{ValidatorJs} `{Argon2} (s : Store) (e : Event) : Store :=
  match e with
  | Authenticated ρ φ userId req => (serve ρ φ userId req s).2
  | Create_user ρ errorMessage user body password generated =>
      (createUser_hashed ρ errorMessage user body password generated s).2
  | Forgot_password ρ randomToken email_ =>
      (lift (forgotPassword ρ randomToken email_ (tables s)) s).2
  | Reset_password ρ token password => (resetPassword_hashed ρ token password s).2
  end.

Definition run `{ValidatorJs} `{Argon2} (events : list Event) (s : Store) : Store :=
  foldl step s events.

(** ** A second deployment: more rows, and the libraries of the examples *)

Module Fixture.

(** Whitespace of the ASCII range, the [\s] of validator.js's [trim] on such
    text. *)
Definition is_space (c : Ascii.ascii) : bool :=
  ((9 <=? Ascii.nat_of_ascii c)%nat && (Ascii.nat_of_ascii c <=? 13)%nat)
  || bool_decide (Ascii.nat_of_ascii c = 32).

Fixpoint ltrim (s : string) : string :=
  match s with
  | EmptyString => EmptyString
  | String c rest => if is_space c then ltrim rest else s
  end.

Fixpoint rtrim (s : string) : string :=
  match s with
  | EmptyString => EmptyString
  | String c rest =>
      if is_space c && bool_decide (rtrim rest = EmptyString) then EmptyString
      else String c (rtrim rest)
  end.

(** As [Sample.https_validator], with the [trim] of validator.js. *)
Definition trimming_validator : ValidatorJs :=
  {| isURL := String.prefix "https://"; isUUID := λ _, true;
     trim := λ s, rtrim (ltrim s) |}.

Definition test (status : TestStatus) (assignee : string) (t : Z) : test_cases_row :=
  {| tc_module_platform := "Checkout / Web";
     tc_test_case := "Apply a coupon in the cart";
     tc_expected_result := "The total shows the reduced price";
     tc_status := status;
     tc_evidence_url := None; tc_notes := None;
     tc_assigned_to := assignee; tc_created_by := "u-pat";
     tc_source_bug_id := None;
     tc_created_at := t; tc_updated_at := t |}.

(** [Sample.db0] with three more test cases of Mike, of different ages. *)
Definition db_tests : DB :=
  with_test_cases
    (λ m, <["t-3" := test pass "u-mike" 70]>
            (<["t-4" := test escalated "u-mike" 60]>
               (<["t-5" := test fail "u-mike" 80]> m)))
    Sample.db0.

Definition limit_2 : TestsQuery :=
  {| q_page := None; q_limit := Some 2; q_status := None; q_module_platform := None;
     q_search := None; q_sort := None; q_order := None |}.

(** A second PM, whom no row refers to, under an id of the shape of a
    UUID. *)
Definition pia := Sample.user "pia@qualitysync.com" "Pia" PM true.
Definition pia_id : string := "7c9e6679-7425-40de-944b-e07fc1f90ae7".
Definition as_pia : ReqUser := {| user_id := pia_id; user_role := PM |}.
Definition db_pia : DB := with_users (insert pia_id pia) Sample.db0.

Definition argon2 : Argon2 :=
  {| argon2_hash := λ p, "$argon2id$" ++ p;
     argon2_verify := λ h p, bool_decide (h = "$argon2id$" ++ p) |}.

(** Every user of [Sample.db0] has the password [Secret-1]. *)
Definition store0 : Store :=
  {| tables := Sample.db0; password_hash := λ _, "$argon2id$Secret-1" |}.

Definition no_faults : Faults :=
  {| fl_auth := false; fl_select := false; fl_delete := false |}.

End Fixture.

(** * Properties *)

(** ** Conversion *)

Lemma single_Some {A} (err : bool) (o : option A) (x : A) :
  single err o = Some x ↔ err = false ∧ o = Some x.
Proof. unfold single. destruct err; split; intros; try done; by destruct_and?. Qed.

(** What a conversion that answers success has done. *)
Lemma convertToTest_success ρ user id body db r db' :
  convertToTest ρ user id body db = (r, db') →
  success r = true →
  ∃ bug a assignee tc er,
    findError ρ = false ∧ unlisted_bugs db !! id = Some bug
    ∧ bug_status bug ≠ converted_to_test
    ∧ cv_assigned_to body = Some a ∧ users db !! a = Some assignee
    ∧ role assignee = QA
    ∧ cv_test_case body = Some tc ∧ cv_expected_result body = Some er
    ∧ test_cases db !! uuid ρ = None
    ∧ let test := {| tc_module_platform := bug_module_platform bug;
                     tc_test_case := tc; tc_expected_result := er;
                     tc_status := pending;
                     tc_evidence_url := Some (bug_jam_link bug);
                     tc_notes := None; tc_assigned_to := a;
                     tc_created_by := user_id user;
                     tc_source_bug_id := Some id;
                     tc_created_at := now ρ; tc_updated_at := now ρ |} in
      r = Json 201 "Bug converted to test case successfully" (Some (uuid ρ, test))
      ∧ users db' = users db
      ∧ test_cases db' = <[uuid ρ := test]> (test_cases db)
      ∧ unlisted_bugs db' =
          if updateError ρ then unlisted_bugs db
          else alter (mark_converted (uuid ρ) (now ρ)) id (unlisted_bugs db).
Proof.
  unfold convertToTest, insert_test_case. intros H Hs.
  destruct (single _ (unlisted_bugs db !! id)) as [bug|] eqn:Hb;
    [|by simplify_eq/=].
  apply single_Some in Hb as [Hf Hb].
  case_bool_decide as Hst; [by simplify_eq/=|].
  destruct (single _ (by_id _ _)) as [assignee|] eqn:Ha; [|by simplify_eq/=].
  apply single_Some in Ha as [_ Ha].
  destruct (cv_assigned_to body) as [a|] eqn:Hcv; [|done]. simpl in Ha.
  case_bool_decide as Hr; simpl in H; [|by simplify_eq/=].
  destruct (insertError ρ); [by simplify_eq/=|].
  destruct (cv_test_case body) as [tc|]; [|by simplify_eq/=].
  destruct (cv_expected_result body) as [er|]; [|by simplify_eq/=].
  destruct (test_cases db !! uuid ρ) eqn:Hfresh; [by simplify_eq/=|].
  exists bug, a, assignee, tc, er. simplify_eq/=.
  repeat split; try done; by destruct (updateError ρ).
Qed.

(** The branches of a handler, one by one. *)
Ltac handler_cases := repeat (case_match; simplify_eq/=).

(** A conversion that fails leaves the store as it was. *)
Lemma convertToTest_failure ρ user id body db r db' :
  convertToTest ρ user id body db = (r, db') →
  success r = false →
  db' = db.
Proof.
  unfold convertToTest. intros H Hs.
  handler_cases; done.
Qed.

(** The guard: a converted bug is refused, whatever else the call carries. *)
Lemma convertToTest_guard ρ user id body db bug :
  unlisted_bugs db !! id = Some bug →
  bug_status bug = converted_to_test →
  convertToTest ρ user id body db =
    (if findError ρ then ApiError 404 "Bug not found"
     else ApiError 400 "This bug has already been converted to a test case", db).
Proof.
  intros Hb Hst. unfold convertToTest, single. rewrite Hb.
  destruct (findError ρ); [done|]. by rewrite bool_decide_eq_true_2.
Qed.

Lemma created_cons {A} (r : Response A) (rs : list (Response A)) :
  created (r :: rs) = (if success r then 1 else 0) + created rs.
Proof.
  unfold created. rewrite filter_cons.
  destruct (success r); by case_decide.
Qed.

Lemma convert_calls_cons id c rest db :
  convert_calls id (c :: rest) db =
    let out := convertToTest (cc_env c) (cc_user c) id (cc_body c) db in
    let outs := convert_calls id rest out.2 in
    (out.1 :: outs.1, outs.2).
Proof.
  simpl. destruct (convertToTest _ _ _ _ _) as [r db1]. simpl.
  by destruct (convert_calls id rest db1).
Qed.

(** Once the bug is converted, conversion calls create nothing. *)
Lemma convert_calls_on_converted id calls db bug :
  unlisted_bugs db !! id = Some bug →
  bug_status bug = converted_to_test →
  (convert_calls id calls db).2 = db
  ∧ created (convert_calls id calls db).1 = 0
  ∧ Forall (λ r, success r = false) (convert_calls id calls db).1.
Proof.
  intros Hb Hst. induction calls as [|c rest IH]; [by repeat split|].
  rewrite convert_calls_cons.
  rewrite (convertToTest_guard _ _ _ _ _ _ Hb Hst). simpl.
  destruct IH as (IH1 & IH2 & IH3).
  rewrite created_cons, IH1, IH2.
  repeat split; [by destruct (findError _)|].
  constructor; [by destruct (findError _)|done].
Qed.

(** The guard of the conversion, and what it gives.  A conversion call on a
    bug whose status is already [converted_to_test] is answered 400
    (BadRequest) and leaves the store, hence the table of test cases, as it
    was; any sequence of calls on such a bug creates nothing.  Over a
    sequence of conversion calls on one bug id, the status writes of which
    the store carries out, at most one call reports a created test case, and
    the number of test cases derived from the bug grows by exactly that
    many. *)
Lemma convert_guarded_once :
  (∀ ρ user id body db bug,
     unlisted_bugs db !! id = Some bug →
     bug_status bug = converted_to_test →
     findError ρ = false →
     convertToTest ρ user id body db =
       (ApiError 400 "This bug has already been converted to a test case", db))
  ∧ (∀ id calls db bug,
       unlisted_bugs db !! id = Some bug →
       bug_status bug = converted_to_test →
       (convert_calls id calls db).2 = db
       ∧ Forall (λ r, success r = false) (convert_calls id calls db).1)
  ∧ (∀ id calls db,
       Forall (λ c, updateError (cc_env c) = false) calls →
       (created (convert_calls id calls db).1 ≤ 1)%nat
       ∧ length (derived_tests id (convert_calls id calls db).2)
         = length (derived_tests id db) + created (convert_calls id calls db).1).
Proof.
  split; [|split].
  - intros ρ user id body db bug Hb Hst Hf.
    rewrite (convertToTest_guard _ _ _ _ _ _ Hb Hst). by rewrite Hf.
  - intros id calls db bug Hb Hst.
    by destruct (convert_calls_on_converted id calls db bug Hb Hst) as (? & _ & ?).
  - intros id calls. induction calls as [|c rest IH]; intros db Hall.
    { simpl. unfold created. rewrite filter_nil. simpl. lia. }
    apply Forall_cons in Hall as [Hc Hrest].
    rewrite convert_calls_cons.
    destruct (convertToTest (cc_env c) (cc_user c) id (cc_body c) db) as [r db1] eqn:Hr.
    simpl. rewrite created_cons.
    destruct (success r) eqn:Hs.
    + destruct (convertToTest_success _ _ _ _ _ _ _ Hr Hs)
        as (bug & a & assignee & tc & er & _ & Hb & _ & _ & _ & _ & _ & _ & Hfresh
            & _ & _ & Htests & Hbugs).
      rewrite Hc in Hbugs.
      assert (Hb1 : unlisted_bugs db1 !! id
                    = Some (mark_converted (uuid (cc_env c)) (now (cc_env c)) bug)).
      { rewrite Hbugs, lookup_alter_eq, Hb. done. }
      destruct (convert_calls_on_converted id rest db1 _ Hb1 eq_refl) as (E1 & E2 & _).
      rewrite E1, E2. split; [lia|].
      rewrite Nat.add_0_r, Nat.add_1_r.
      unfold derived_tests. rewrite Htests.
      rewrite (map_to_list_insert _ _ _ Hfresh), filter_cons_True; done.
    + pose proof (convertToTest_failure _ _ _ _ _ _ _ Hr Hs) as ->.
      destruct (IH db Hrest) as [IH1 IH2]. split; [lia|]. rewrite IH2. lia.
Qed.

Example convert_guarded_once_example :
  convertToTest Sample.env0 Sample.as_pat "b-2" (Sample.convert_body "u-mike") Sample.db0
  = (ApiError 400 "This bug has already been converted to a test case", Sample.db0)
  ∧ let calls :=
      [ {| cc_env := Sample.env0; cc_user := Sample.as_pat;
           cc_body := Sample.convert_body "u-mike" |};
        {| cc_env := Sample.env1; cc_user := Sample.as_pat;
           cc_body := Sample.convert_body "u-mike" |} ] in
    (created (convert_calls "b-1" calls Sample.db0).1 ≤ 1)%nat
    ∧ length (derived_tests "b-1" (convert_calls "b-1" calls Sample.db0).2)
      = length (derived_tests "b-1" Sample.db0)
        + created (convert_calls "b-1" calls Sample.db0).1.
Proof.
  split.
  - apply (proj1 convert_guarded_once) with (bug := Sample.bug2); reflexivity.
  - apply (proj2 (proj2 convert_guarded_once)). repeat constructor.
Qed.

(** In that run the first call creates the test case and the second is
    refused. *)
Example convert_twice :
  statusCode <$> (convert_calls "b-1"
      [ {| cc_env := Sample.env0; cc_user := Sample.as_pat;
           cc_body := Sample.convert_body "u-mike" |};
        {| cc_env := Sample.env1; cc_user := Sample.as_pat;
           cc_body := Sample.convert_body "u-mike" |} ] Sample.db0).1
  = [201; 400].
Proof. vm_compute. reflexivity. Qed.

(** C2, first half: when the creation of the test case fails, the call is
    answered 500 and the store, the bug included, is as before. *)
Lemma convertToTest_insert_fails ρ user id body db :
  insertError ρ = true →
  success (convertToTest ρ user id body db).1 = false
  ∧ (convertToTest ρ user id body db).2 = db.
Proof.
  intros Hi. unfold convertToTest, insert_test_case. rewrite Hi.
  handler_cases; done.
Qed.

(** C2, second half, on the code: the status update of the bug is awaited
    but its error is never read.  When the store refuses that update after
    the test case was inserted, the call still answers 201, the bug ["b-1"]
    keeps the status [open] with no [converted_to_test_id], and the table
    holds the derived test case ["t-1"] that points at it. *)
Theorem convert_not_atomic :
  let out := convertToTest (Sample.env_update_fails "t-1" 1000) Sample.as_pat "b-1"
               (Sample.convert_body "u-mike") Sample.db0 in
  statusCode out.1 = 201
  ∧ success out.1 = true
  ∧ unlisted_bugs out.2 !! "b-1" = Some Sample.bug1
  ∧ bug_status Sample.bug1 = open
  ∧ (tc_source_bug_id <$> test_cases out.2 !! "t-1") = Some (Some "b-1")
  ∧ test_cases Sample.db0 !! "t-1" = None.
Proof. vm_compute. repeat split. Qed.

(** C1 on the code: exactly-once rests on the status write of the first
    conversion, and the handler does not notice when that write is lost
    (the defect of C2).  The first call below is answered 201 and leaves the
    bug ["b-1"] open; the guard then lets the second call through, it is
    answered 201 as well, and two test cases, ["t-1"] and ["t-2"], are
    derived from the one bug. *)
Theorem convert_twice_after_lost_write :
  let calls :=
    [ {| cc_env := Sample.env_update_fails "t-1" 1000; cc_user := Sample.as_pat;
         cc_body := Sample.convert_body "u-mike" |};
      {| cc_env := Sample.env1; cc_user := Sample.as_pat;
         cc_body := Sample.convert_body "u-mike" |} ] in
  statusCode <$> (convert_calls "b-1" calls Sample.db0).1 = [201; 201]
  ∧ created (convert_calls "b-1" calls Sample.db0).1 = 2
  ∧ derived_tests "b-1" Sample.db0 = []
  ∧ fst <$> derived_tests "b-1" (convert_calls "b-1" calls Sample.db0).2 = ["t-1"; "t-2"].
Proof. vm_compute. repeat split. Qed.

(** With the insert refused, the same request is answered 500 and the store
    is the one before the call. *)
Example convert_insert_refused :
  convertToTest Sample.env_insert_fails Sample.as_pat "b-1"
    (Sample.convert_body "u-mike") Sample.db0
  = (ApiError 500 "Failed to convert bug to test case", Sample.db0).
Proof. reflexivity. Qed.

(** The two halves of a successful conversion.  Every call that is
    answered 201 has created the test case from the bug: [module_platform] is the bug's,
    [evidence_url] is the bug's [jam_link], [status] is pending,
    [source_bug_id] is the bug's id, [created_by] is the acting user; the
    response carries that row under its new id.  When the status write of
    the call was carried out as well, the bug ends with status
    [converted_to_test], [converted_to_test_id] the id of the new test case
    and [converted_at] set to the time of the call. *)
Theorem convert_fields ρ user id body db r db' :
  convertToTest ρ user id body db = (r, db') →
  success r = true →
  ∃ bug test_id test,
    unlisted_bugs db !! id = Some bug
    ∧ statusCode r = 201
    ∧ data r = Some (test_id, test)
    ∧ test_cases db !! test_id = None
    ∧ test_cases db' !! test_id = Some test
    ∧ tc_module_platform test = bug_module_platform bug
    ∧ tc_evidence_url test = Some (bug_jam_link bug)
    ∧ tc_status test = pending
    ∧ tc_source_bug_id test = Some id
    ∧ tc_created_by test = user_id user
    ∧ Some (tc_assigned_to test) = cv_assigned_to body
    ∧ Some (tc_test_case test) = cv_test_case body
    ∧ Some (tc_expected_result test) = cv_expected_result body
    ∧ (updateError ρ = false →
       ∃ bug', unlisted_bugs db' !! id = Some bug'
               ∧ bug_status bug' = converted_to_test
               ∧ bug_converted_to_test_id bug' = Some test_id
               ∧ bug_converted_at bug' = Some (now ρ)
               ∧ bug_module_platform bug' = bug_module_platform bug
               ∧ bug_jam_link bug' = bug_jam_link bug
               ∧ bug_description bug' = bug_description bug
               ∧ bug_created_by bug' = bug_created_by bug).
Proof.
  intros H Hs.
  destruct (convertToTest_success _ _ _ _ _ _ _ H Hs)
    as (bug & a & assignee & tc & er & _ & Hb & _ & Ha & _ & _ & Htc & Her & Hfresh
        & -> & _ & Htests & Hbugs).
  eexists bug, (uuid ρ), _. repeat split; try done.
  - rewrite Htests. apply lookup_insert_eq.
  - intros Hu. rewrite Hu in Hbugs.
    exists (mark_converted (uuid ρ) (now ρ) bug).
    rewrite Hbugs, lookup_alter_eq, Hb. done.
Qed.

(** The route reaches the handler for a PM only, so the [created_by] of the
    test case is the id of the acting PM. *)
Lemma post_bugs_id_convert_success `{ValidatorJs} ρ user id body db :
  success (post_bugs_id_convert ρ user id body db).1 = true →
  user_role user = PM
  ∧ post_bugs_id_convert ρ user id body db
    = convertToTest ρ user id (sanitize_ConvertBody body) db.
Proof.
  unfold post_bugs_id_convert, authorize, handleValidation.
  case_bool_decide as Hrole; [|done].
  apply list_elem_of_singleton in Hrole.
  by destruct (convertBugToTestValidation id body).
Qed.

Lemma convert_fields_witness :
  ∃ bug test_id test,
    unlisted_bugs Sample.db0 !! "b-1" = Some bug
    ∧ statusCode (convertToTest Sample.env0 Sample.as_pat "b-1"
                    (Sample.convert_body "u-mike") Sample.db0).1 = 201
    ∧ data (convertToTest Sample.env0 Sample.as_pat "b-1"
              (Sample.convert_body "u-mike") Sample.db0).1 = Some (test_id, test)
    ∧ tc_status test = pending
    ∧ tc_source_bug_id test = Some "b-1"
    ∧ ∃ bug', unlisted_bugs (convertToTest Sample.env0 Sample.as_pat "b-1"
                    (Sample.convert_body "u-mike") Sample.db0).2 !! "b-1" = Some bug'
              ∧ bug_status bug' = converted_to_test
              ∧ bug_converted_to_test_id bug' = Some test_id.
Proof.
  destruct (convert_fields Sample.env0 Sample.as_pat "b-1" (Sample.convert_body "u-mike")
              Sample.db0 _ _ eq_refl eq_refl)
    as (bug & test_id & test & Hb & Hc & Hd & _ & _ & _ & _ & Hp & Hsrc & _ & _ & _ & _ & Hbug).
  destruct (Hbug eq_refl) as (bug' & Hb' & Hst & Hid & _).
  exists bug, test_id, test. repeat split; try done.
  exists bug'. repeat split; done.
Defined.

(** C3 on the code.  The half of the claim on the test case holds of every
    conversion that is answered success; the half on the bug does not.  The
    handler never reads the result of its status update: when the store
    refuses that update, the conversion is answered 201 all the same, the
    test case is there with its fields copied from the bug, and the bug is
    the row it was, not [converted_to_test] (the defect of C2). *)
Theorem convert_success_bug_unmarked ρ user id body db r db' :
  convertToTest ρ user id body db = (r, db') →
  success r = true →
  updateError ρ = true →
  ∃ bug test_id test,
    unlisted_bugs db !! id = Some bug
    ∧ statusCode r = 201
    ∧ data r = Some (test_id, test)
    ∧ test_cases db' !! test_id = Some test
    ∧ tc_module_platform test = bug_module_platform bug
    ∧ tc_evidence_url test = Some (bug_jam_link bug)
    ∧ tc_status test = pending
    ∧ tc_source_bug_id test = Some id
    ∧ tc_created_by test = user_id user
    ∧ unlisted_bugs db' !! id = Some bug
    ∧ bug_status bug ≠ converted_to_test.
Proof.
  intros H Hs Hu.
  destruct (convertToTest_success _ _ _ _ _ _ _ H Hs)
    as (bug & a & assignee & tc & er & _ & Hb & Hst & _ & _ & _ & _ & _ & _
        & -> & _ & Htests & Hbugs).
  rewrite Hu in Hbugs.
  eexists bug, (uuid ρ), _. split; [done|]. split; [done|]. split; [done|].
  split; [by rewrite Htests, lookup_insert_eq|].
  repeat (split; [done|]). split; [by rewrite Hbugs|done].
Qed.

Lemma convert_success_bug_unmarked_witness :
  ∃ bug test_id test,
    unlisted_bugs Sample.db0 !! "b-1" = Some bug
    ∧ statusCode (convertToTest (Sample.env_update_fails "t-1" 1000) Sample.as_pat "b-1"
                    (Sample.convert_body "u-mike") Sample.db0).1 = 201
    ∧ test_cases (convertToTest (Sample.env_update_fails "t-1" 1000) Sample.as_pat "b-1"
                    (Sample.convert_body "u-mike") Sample.db0).2 !! test_id = Some test
    ∧ tc_source_bug_id test = Some "b-1"
    ∧ unlisted_bugs (convertToTest (Sample.env_update_fails "t-1" 1000) Sample.as_pat
                       "b-1" (Sample.convert_body "u-mike") Sample.db0).2 !! "b-1"
      = Some bug
    ∧ bug_status bug ≠ converted_to_test.
Proof.
  destruct (convert_success_bug_unmarked (Sample.env_update_fails "t-1" 1000)
              Sample.as_pat "b-1" (Sample.convert_body "u-mike") Sample.db0 _ _
              eq_refl eq_refl eq_refl)
    as (bug & test_id & test & Hb & Hc & _ & Ht & _ & _ & _ & Hsrc & _ & Hb' & Hst).
  exists bug, test_id, test.
  split; [exact Hb|]. split; [exact Hc|]. split; [exact Ht|]. split; [exact Hsrc|].
  split; [exact Hb'|exact Hst].
Defined.

(** On the sample: the conversion is answered 201, the test case ["t-1"]
    points at the bug ["b-1"], and the bug is open with no
    [converted_to_test_id]. *)
Example convert_success_bug_unmarked_sample :
  let out := convertToTest (Sample.env_update_fails "t-1" 1000) Sample.as_pat "b-1"
               (Sample.convert_body "u-mike") Sample.db0 in
  success out.1 = true
  ∧ (tc_source_bug_id <$> test_cases out.2 !! "t-1") = Some (Some "b-1")
  ∧ (bug_status <$> unlisted_bugs out.2 !! "b-1") = Some open
  ∧ (bug_converted_to_test_id <$> unlisted_bugs out.2 !! "b-1") = Some None
  ∧ (bug_converted_at <$> unlisted_bugs out.2 !! "b-1") = Some None.
Proof. vm_compute. repeat split. Qed.

(** ** Assignment *)

(** The lookup of the assignee does not depend on verification flags. *)
Lemma assignee_lookup_set_is_verified v err db k :
  role <$> single err (by_id (set_is_verified v <$> users db) k)
  = role <$> single err (by_id (users db) k).
Proof.
  unfold single. destruct err; [done|]. destruct k as [k|]; [|done]. simpl.
  rewrite lookup_fmap. by destruct (users db !! k).
Qed.

(** C4 as stated fails: Lisa is a QA user whose [is_verified] is false, and
    both the creation of a test and the conversion of a bug with her as
    assignee are answered 201 and store a test case assigned to her.  (The
    conversion looks for the bug first: with an id that is in no table the
    answer is 404 whoever the assignee is.) *)
Lemma unverified_assignee_accepted :
  users Sample.db0 !! "u-lisa" = Some Sample.lisa
  ∧ role Sample.lisa = QA
  ∧ is_verified Sample.lisa = false
  ∧ let created_ := createTest Sample.env0 Sample.as_pat
                      (Sample.create_body "u-lisa" None) Sample.db0 in
    statusCode created_.1 = 201
    ∧ statusCode created_.1 ≠ 400
    ∧ (tc_assigned_to <$> test_cases created_.2 !! "t-1") = Some "u-lisa"
  ∧ let converted := convertToTest Sample.env0 Sample.as_pat "b-1"
                       (Sample.convert_body "u-lisa") Sample.db0 in
    statusCode converted.1 = 201
    ∧ statusCode converted.1 ≠ 400
    ∧ (tc_assigned_to <$> test_cases converted.2 !! "t-1") = Some "u-lisa"
  ∧ statusCode (convertToTest Sample.env0 Sample.as_pat "b-9"
                  (Sample.convert_body "u-erin") Sample.db0).1 = 404.
Proof. vm_compute. repeat split; discriminate. Qed.

(** C4, amended.  Test creation fails with 400, and writes nothing, whenever
    [assigned_to] does not resolve to a user whose role is QA; so does the
    conversion of a bug that was found and is not yet converted.  The
    verification flag of the assignee is not examined: the response of
    either operation, and the test cases it stores, are the same on a store
    whose users all have [is_verified] set to any [v]. *)
Theorem assignee_must_be_QA :
  (∀ ρ user body db,
     (∀ a u, ct_assigned_to body = Some a → users db !! a = Some u → role u ≠ QA) →
     statusCode (createTest ρ user body db).1 = 400
     ∧ (createTest ρ user body db).2 = db)
  ∧ (∀ ρ user id body db bug,
       findError ρ = false →
       unlisted_bugs db !! id = Some bug →
       bug_status bug ≠ converted_to_test →
       (∀ a u, cv_assigned_to body = Some a → users db !! a = Some u → role u ≠ QA) →
       statusCode (convertToTest ρ user id body db).1 = 400
       ∧ (convertToTest ρ user id body db).2 = db)
  ∧ (∀ v ρ user body db,
       let db_v := with_users (fmap (set_is_verified v)) db in
       (createTest ρ user body db_v).1 = (createTest ρ user body db).1
       ∧ test_cases (createTest ρ user body db_v).2 = test_cases (createTest ρ user body db).2)
  ∧ (∀ v ρ user id body db,
       let db_v := with_users (fmap (set_is_verified v)) db in
       (convertToTest ρ user id body db_v).1 = (convertToTest ρ user id body db).1
       ∧ test_cases (convertToTest ρ user id body db_v).2
         = test_cases (convertToTest ρ user id body db).2).
Proof.
  split; [|split; [|split]].
  - intros ρ user body db Hno. unfold createTest, single.
    destruct (assigneeError ρ); [done|].
    destruct (ct_assigned_to body) as [a|] eqn:Ha; [|done]. simpl.
    destruct (users db !! a) as [u|] eqn:Hu; [|done].
    rewrite bool_decide_eq_false_2; [done|]. by eapply Hno.
  - intros ρ user id body db bug Hf Hb Hst Hno. unfold convertToTest, single.
    rewrite Hf, Hb. rewrite (bool_decide_eq_false_2 _ Hst).
    destruct (assigneeError ρ); [done|].
    destruct (cv_assigned_to body) as [a|] eqn:Ha; [|done]. simpl.
    destruct (users db !! a) as [u|] eqn:Hu; [|done].
    rewrite bool_decide_eq_false_2; [done|]. by eapply Hno.
  - intros v ρ user body db db_v. subst db_v.
    pose proof (assignee_lookup_set_is_verified v (assigneeError ρ) db (ct_assigned_to body)) as E.
    unfold createTest, with_users, insert_test_case in *. simpl in *.
    destruct (single _ (by_id (set_is_verified v <$> users db) _)) as [u1|],
             (single _ (by_id (users db) _)) as [u2|]; simplify_eq/=; [|done].
    rewrite E. handler_cases; done.
  - intros v ρ user id body db db_v. subst db_v.
    pose proof (assignee_lookup_set_is_verified v (assigneeError ρ) db (cv_assigned_to body)) as E.
    unfold convertToTest, with_users, with_unlisted_bugs, insert_test_case in *. simpl in *.
    destruct (single _ (unlisted_bugs db !! id)) as [bug|]; [|done].
    case_bool_decide; [done|].
    destruct (single _ (by_id (set_is_verified v <$> users db) _)) as [u1|],
             (single _ (by_id (users db) _)) as [u2|]; simplify_eq/=; [|done].
    rewrite E. handler_cases; done.
Qed.

Lemma assignee_must_be_QA_witness :
  statusCode (createTest Sample.env0 Sample.as_pat
                (Sample.create_body "u-erin" None) Sample.db0).1 = 400
  ∧ (createTest Sample.env0 Sample.as_pat
       (Sample.create_body "u-erin" None) Sample.db0).2 = Sample.db0.
Proof.
  apply (proj1 assignee_must_be_QA).
  intros a u [= <-] Hu. vm_compute in Hu. injection Hu as <-. discriminate.
Defined.

(** ** Bug reports *)

(** C5 as stated fails: the bug ["b-2"] is converted, and a PM's update with
    [status = "open"], which the route's validator admits, is answered 200
    and leaves the bug with status [open]. *)
Lemma pm_reopens_converted_bug :
  let body := {| bb_module_platform := None; bb_jam_link := None; bb_description := None;
                 bb_note := None; bb_severity := None; bb_status := Some "open" |} in
  (bug_status <$> unlisted_bugs Sample.db0 !! "b-2") = Some converted_to_test
  ∧ let out := @put_bugs_id Sample.https_validator Sample.env0 Sample.as_pat "b-2" body
                 Sample.db0 in
    statusCode out.1 = 200
    ∧ (bug_status <$> unlisted_bugs out.2 !! "b-2") = Some open
  ∧ let out := updateBug Sample.env0 Sample.as_pat "b-2" body Sample.db0 in
    statusCode out.1 = 200
    ∧ (bug_status <$> unlisted_bugs out.2 !! "b-2") = Some open.
Proof. vm_compute. repeat split. Qed.

(** An update of a bug changes rows of [unlisted_bugs] only. *)
Lemma update_bug_Some ρ id u db b' db' :
  update_bug ρ id u db = Some (b', db') →
  ∃ b sev st,
    unlisted_bugs db !! id = Some b
    ∧ match ub_status u with
      | None => st = bug_status b
      | Some s => BugStatus_of_string s = Some st
      end
    ∧ b' = apply_unlisted_bugs_update (now ρ) u sev st b
    ∧ db' = with_unlisted_bugs (insert id b') db.
Proof.
  unfold update_bug. intros H.
  destruct (updateError ρ); [done|].
  destruct (unlisted_bugs db !! id) as [b|]; [|done].
  destruct (match ub_severity u with Some _ => _ | None => _ end) as [sev|]; [|done].
  destruct (ub_status u) as [s|] eqn:Hs.
  - destruct (BugStatus_of_string s) as [st|] eqn:Hp; [|done].
    simplify_eq/=. by exists b, sev, st.
  - simplify_eq/=. by exists b, sev, (bug_status b).
Qed.

(** C5, amended.  [PUT /bugs/:id] changes the status of no bug when the
    actor is not a PM; the creating QA of a converted bug is refused with
    400, a QA who did not create the bug with 403, and nothing is written.
    A PM's successful update that supplies a status sets the bug to that
    status, converted or not: the state [converted_to_test] is terminal for
    QA and ENG actors only. *)
Theorem bug_status_changes_by_PM_only :
  (∀ ρ user id body db k,
     user_role user ≠ PM →
     (bug_status <$> unlisted_bugs (updateBug ρ user id body db).2 !! k)
     = (bug_status <$> unlisted_bugs db !! k))
  ∧ (∀ ρ user id body db bug,
       user_role user = QA →
       findError ρ = false →
       unlisted_bugs db !! id = Some bug →
       bug_created_by bug = user_id user →
       bug_status bug = converted_to_test →
       updateBug ρ user id body db =
         (ApiError 400 "Cannot update a bug that has been converted to a test", db))
  ∧ (∀ ρ user id body db bug,
       user_role user = QA →
       findError ρ = false →
       unlisted_bugs db !! id = Some bug →
       bug_created_by bug ≠ user_id user →
       updateBug ρ user id body db =
         (ApiError 403 "You can only update bugs you created", db))
  ∧ (∀ ρ user id body db s,
       user_role user = PM →
       bb_status body = Some s → s ≠ "" →
       success (updateBug ρ user id body db).1 = true →
       ∃ st, BugStatus_of_string s = Some st
             ∧ (bug_status <$> unlisted_bugs (updateBug ρ user id body db).2 !! id) = Some st).
Proof.
  split; [|split; [|split]].
  - intros ρ user id body db k Hrole. unfold updateBug.
    rewrite (bool_decide_eq_false_2 _ Hrole), andb_false_r.
    destruct (single _ _) as [existing|]; [|done].
    destruct (_ && _); [done|]. destruct (_ && _); [done|].
    destruct (update_bug _ _ _ _) as [[b' db']|] eqn:Hu; [|done].
    apply update_bug_Some in Hu as (b0 & sev & st & Hb0 & Hst & -> & ->).
    simpl in Hst. subst st.
    simpl. destruct (decide (id = k)) as [->|Hne].
    + by rewrite lookup_insert_eq, Hb0.
    + by rewrite lookup_insert_ne.
  - intros ρ user id body db bug Hrole Hf Hb Hby Hst. unfold updateBug, single.
    rewrite Hf, Hb, Hrole, Hby, Hst.
    rewrite !bool_decide_eq_true_2 by done. reflexivity.
  - intros ρ user id body db bug Hrole Hf Hb Hby. unfold updateBug, single.
    rewrite Hf, Hb, Hrole. rewrite (bool_decide_eq_false_2 _ Hby).
    rewrite bool_decide_eq_true_2 by done. reflexivity.
  - intros ρ user id body db s Hrole Hs Hne. unfold updateBug.
    destruct (single _ _) as [existing|]; [|done].
    rewrite Hrole. simpl.
    destruct (update_bug _ _ _ _) as [[b' db']|] eqn:Hu; [|done].
    intros _. simpl.
    apply update_bug_Some in Hu as (b0 & sev & st & Hb0 & Hst & -> & ->).
    simpl in Hst. unfold truthy in Hst. rewrite Hs in Hst.
    rewrite (bool_decide_eq_false_2 _ Hne) in Hst. simpl in Hst.
    exists st. split; [done|]. simpl. by rewrite lookup_insert_eq.
Qed.

Lemma bug_status_changes_by_PM_only_witness :
  updateBug Sample.env0 Sample.as_mike "b-2"
    {| bb_module_platform := None; bb_jam_link := None;
       bb_description := Some "Keyboard hides the whole form";
       bb_note := None; bb_severity := None; bb_status := Some "open" |} Sample.db0
  = (ApiError 400 "Cannot update a bug that has been converted to a test", Sample.db0).
Proof.
  apply (proj1 (proj2 bug_status_changes_by_PM_only)) with (bug := Sample.bug2);
    reflexivity.
Defined.

(** An ENG actor passes the permission check of [updateBug]: the content of
    a converted bug changes, its status does not. *)
Example eng_updates_converted_bug :
  let out := updateBug Sample.env0 Sample.as_erin "b-2"
               {| bb_module_platform := None; bb_jam_link := None;
                  bb_description := Some "Keyboard hides the whole form";
                  bb_note := None; bb_severity := None; bb_status := Some "open" |}
               Sample.db0 in
  statusCode out.1 = 200
  ∧ (bug_status <$> unlisted_bugs out.2 !! "b-2") = Some converted_to_test
  ∧ (bug_description <$> unlisted_bugs out.2 !! "b-2")
    = Some "Keyboard hides the whole form".
Proof. vm_compute. repeat split. Qed.

(** ** Reading one resource *)

(** C6 as stated fails: the test case ["t-0"] is assigned to Mike and is
    pending, the bug ["b-1"] was reported by Mike.  Nora (QA) and Erin (ENG)
    asking for the test, and Nora asking for the bug, are answered 403; an
    id that is in no table is answered 404, so the two are told apart. *)
Lemma non_owner_gets_403 :
  statusCode (getTest Sample.env0 Sample.as_nora "t-0" Sample.db0) = 403
  ∧ statusCode (getTest Sample.env0 Sample.as_erin "t-0" Sample.db0) = 403
  ∧ statusCode (getBug Sample.env0 Sample.as_nora "b-1" Sample.db0) = 403
  ∧ statusCode (getTest Sample.env0 Sample.as_nora "t-9" Sample.db0) = 404
  ∧ statusCode (getBug Sample.env0 Sample.as_nora "b-9" Sample.db0) = 404.
Proof. vm_compute. repeat split. Qed.

(** C6, amended.  A test case or bug that exists but is outside the scope
    of the actor is answered 403 (Forbidden) with a message that says so: a
    QA user on a test case assigned to someone else, an ENG user on a test
    case that is neither failed nor escalated, a QA user on a bug somebody
    else created.  404 is the answer only when the lookup yields no row. *)
Theorem out_of_scope_is_403 :
  (∀ ρ user id db test,
     findError ρ = false → test_cases db !! id = Some test →
     user_role user = QA → tc_assigned_to test ≠ user_id user →
     getTest ρ user id db = ApiError 403 "You do not have access to this test case")
  ∧ (∀ ρ user id db test,
       findError ρ = false → test_cases db !! id = Some test →
       user_role user = ENG → tc_status test ≠ fail → tc_status test ≠ escalated →
       getTest ρ user id db = ApiError 403 "You can only view failed or escalated test cases")
  ∧ (∀ ρ user id db bug,
       findError ρ = false → unlisted_bugs db !! id = Some bug →
       user_role user = QA → bug_created_by bug ≠ user_id user →
       getBug ρ user id db = ApiError 403 "You do not have access to this bug")
  ∧ (∀ ρ user id db,
       statusCode (getTest ρ user id db) = 404
       ↔ single (findError ρ) (test_cases db !! id) = None)
  ∧ (∀ ρ user id db,
       statusCode (getBug ρ user id db) = 404
       ↔ single (findError ρ) (unlisted_bugs db !! id) = None).
Proof.
  repeat split.
  - intros ρ user id db test Hf Ht Hr Hne. unfold getTest, single.
    rewrite Hf, Ht, Hr. by rewrite (bool_decide_eq_false_2 _ Hne).
  - intros ρ user id db test Hf Ht Hr Hn1 Hn2. unfold getTest, single.
    rewrite Hf, Ht, Hr. rewrite (bool_decide_eq_false_2 (_ ∈ _)); [done|].
    intros Hin. apply elem_of_cons in Hin as [?|Hin]; [done|].
    apply elem_of_cons in Hin as [?|Hin]; [done|]. by apply elem_of_nil in Hin.
  - intros ρ user id db bug Hf Hb Hr Hne. unfold getBug, single.
    rewrite Hf, Hb, Hr. by rewrite (bool_decide_eq_false_2 _ Hne).
  - unfold getTest. destruct (single _ _); [|done].
    repeat case_match; simpl; discriminate.
  - unfold getTest. by intros ->.
  - unfold getBug. destruct (single _ _); [|done].
    repeat case_match; simpl; discriminate.
  - unfold getBug. by intros ->.
Qed.

Lemma out_of_scope_is_403_witness :
  getTest Sample.env0 Sample.as_nora "t-0" Sample.db0
  = ApiError 403 "You do not have access to this test case".
Proof.
  apply (proj1 out_of_scope_is_403) with (test := Sample.test0);
    [reflexivity|reflexivity|reflexivity|discriminate].
Defined.

(** ** Listing test cases *)

Lemma parseInt_or_pos v d : (0 < d → 0 < parseInt_or v d)%nat.
Proof. unfold parseInt_or. destruct v as [[|n]|]; lia. Qed.

Lemma order_tests_Permutation sort order rows : order_tests sort order rows ≡ₚ rows.
Proof. unfold order_tests. case_bool_decide; apply merge_sort_Permutation. Qed.

(** The rows of the query are the rows of the table that pass the scope of
    the role and the filters of the request. *)
Lemma elem_of_tests_query `{Postgres} user q db k t :
  (k, t) ∈ tests_query user q db
  ↔ test_cases db !! k = Some t
    ∧ role_filter user (k, t) = true
    ∧ status_filter (q_status q) (k, t) = true
    ∧ module_filter (q_module_platform q) (k, t) = true
    ∧ search_filter (q_search q) (k, t) = true.
Proof.
  unfold tests_query. rewrite order_tests_Permutation, list_elem_of_filter.
  rewrite elem_of_map_to_list, !andb_True, !Is_true_true. tauto.
Qed.

(** A page holds rows of the query only. *)
Lemma elem_of_page {A} (x : A) (n o : nat) (rows : list A) :
  x ∈ take n (drop o rows) → x ∈ rows.
Proof.
  intros Hin. apply elem_of_take in Hin as (i & Hi & _).
  rewrite lookup_drop in Hi. by eapply list_elem_of_lookup_2.
Qed.

(** Every row of the query is on the page its position falls on. *)
Lemma page_of_elem {A} (x : A) (n : nat) (rows : list A) :
  (0 < n)%nat → x ∈ rows → ∃ p, x ∈ take n (drop (p * n) rows).
Proof.
  intros Hn Hin. apply list_elem_of_lookup in Hin as [i Hi].
  exists (i / n)%nat. apply elem_of_take. exists (i mod n)%nat. split.
  - rewrite lookup_drop. rewrite <- Hi. f_equal.
    rewrite (Nat.div_mod i n) at 3 by lia. lia.
  - apply Nat.mod_upper_bound. lia.
Qed.

(** C7. The scope of a QA user.  Whatever the request asks for, every test
    case a QA user is given by [GET /tests] is a row of the table assigned to
    that user.  When the request carries no status, module or search filter,
    a row of the table is on one of the pages of the list if and only if it
    is assigned to the user. *)
Theorem qa_list_scope `{Postgres} :
  (∀ ρ user q db l k t,
     user_role user = QA →
     data (getTests ρ user q db) = Some l →
     (k, t) ∈ tests l →
     test_cases db !! k = Some t ∧ tc_assigned_to t = user_id user)
  ∧ (∀ ρ user q db k t,
       user_role user = QA →
       findError ρ = false →
       truthy (q_status q) = false →
       truthy (q_module_platform q) = false →
       truthy (q_search q) = false →
       (∃ p l, data (getTests ρ user (at_page p q) db) = Some l ∧ (k, t) ∈ tests l)
       ↔ test_cases db !! k = Some t ∧ tc_assigned_to t = user_id user).
Proof.
  assert (Hscope : ∀ ρ user q db l k t,
     user_role user = QA →
     data (getTests ρ user q db) = Some l →
     (k, t) ∈ tests l →
     test_cases db !! k = Some t ∧ tc_assigned_to t = user_id user).
  { intros ρ user q db l k t Hrole Hd Hin. unfold getTests in Hd.
    destruct (findError ρ); [done|]. simpl in Hd. injection Hd as <-. simpl in Hin.
    apply elem_of_page, elem_of_tests_query in Hin as (Hk & Hr & _).
    split; [done|]. unfold role_filter in Hr. rewrite Hrole in Hr.
    by apply bool_decide_eq_true in Hr. }
  split; [exact Hscope|].
  intros ρ user q db k t Hrole Hf Hs Hm Hq. split.
  - intros (p & l & Hd & Hin). by eapply Hscope.
  - intros [Hk Ha].
    assert (Hin : (k, t) ∈ tests_query user q db).
    { apply elem_of_tests_query. repeat split; [done|..].
      - unfold role_filter. rewrite Hrole. by apply bool_decide_eq_true.
      - unfold status_filter. destruct (q_status q) as [s|]; [|done].
        unfold truthy in Hs. apply negb_false_iff, bool_decide_eq_true in Hs.
        by subst s.
      - unfold module_filter. by rewrite Hm.
      - unfold search_filter. by rewrite Hq. }
    pose proof (parseInt_or_pos (q_limit q) 10 ltac:(lia)) as Hl.
    destruct (page_of_elem _ _ _ Hl Hin) as [p Hp].
    exists (S p). eexists. unfold getTests. rewrite Hf. simpl. split; [done|].
    simpl. rewrite Nat.sub_0_r. exact Hp.
Qed.

Lemma qa_list_scope_witness :
  ∃ p l,
    data (@getTests Sample.no_ilike Sample.env0 Sample.as_mike
            (at_page p Sample.no_query) Sample.db0) = Some l
    ∧ ("t-0", Sample.test0) ∈ tests l.
Proof.
  apply (proj2 (@qa_list_scope Sample.no_ilike)); try reflexivity.
  split; reflexivity.
Defined.

(** Mike's first page holds his test case; Nora's is empty. *)
Example qa_lists :
  (tests <$> data (@getTests Sample.no_ilike Sample.env0 Sample.as_mike
                     Sample.no_query Sample.db0)) = Some [("t-0", Sample.test0)]
  ∧ (tests <$> data (@getTests Sample.no_ilike Sample.env0 Sample.as_nora
                       Sample.no_query Sample.db0)) = Some [].
Proof. vm_compute. split; reflexivity. Qed.

(** ** Password reset *)

(** For an address that no user has, the request is answered 200 with the
    neutral message, and nothing is written. *)
Lemma forgotPassword_unknown ρ tok e db :
  user_by_email e db = None →
  forgotPassword ρ tok e db =
    (Json 200 "If an account exists, a password reset email has been sent." None, db).
Proof. intros Hu. unfold forgotPassword, single. rewrite Hu. by destruct (findError ρ). Qed.

(** While the mail service works the answer is that same 200, account or
    not. *)
Lemma forgotPassword_mail_works ρ tok e db :
  emailError ρ = false →
  (forgotPassword ρ tok e db).1 =
    Json 200 "If an account exists, a password reset email has been sent." None.
Proof.
  intros He. unfold forgotPassword. rewrite He.
  by destruct (single _ _) as [[uid u]|].
Qed.

(** C8 on the code: the handler rethrows a failure of the mail service as a
    500, and only an existing account reaches the mail service.  With the
    mail service down, the request for Mike's address is answered 500 while
    the request for an address nobody has is answered 200. *)
Theorem reset_reveals_account :
  let known := forgotPassword Sample.env_email_fails "tok-1" "qa@qualitysync.com" Sample.db0 in
  let unknown := forgotPassword Sample.env_email_fails "tok-1" "nobody@qualitysync.com" Sample.db0 in
  (email <$> users Sample.db0 !! "u-mike") = Some "qa@qualitysync.com"
  ∧ user_by_email "nobody@qualitysync.com" Sample.db0 = None
  ∧ statusCode known.1 = 500 ∧ success known.1 = false
  ∧ message known.1 = "Failed to send password reset email"
  ∧ statusCode unknown.1 = 200 ∧ success unknown.1 = true.
Proof. vm_compute. repeat split. Qed.

(** ** Evidence links *)

Lemma prefix_app (n h : string) : String.prefix n h = true ↔ ∃ b, h = n ++ b.
Proof.
  revert h. induction n as [|c n IH]; intros h.
  - split; [intros _; by exists h|by destruct h].
  - destruct h as [|c' h]. { split; [done|]. intros [b Hb]. discriminate. }
    cbn [String.prefix].
    destruct (Ascii.ascii_dec c c') as [->|Hne].
    + rewrite IH. split; intros [b Hb]; exists b; [cbn; by rewrite Hb|by injection Hb].
    + split; [done|]. intros [b Hb]. by injection Hb.
Qed.

(** [includes] is the substring test. *)
Lemma includes_spec (n h : string) : includes n h = true ↔ ∃ a b, h = a ++ n ++ b.
Proof.
  induction h as [|c h IH]; cbn [includes]; rewrite orb_true_iff, prefix_app.
  - split.
    + intros [[b Hb]|?]; [by exists "", b|done].
    + intros (a & b & Hab). destruct a; [left; by exists b|done].
  - rewrite IH. split.
    + intros [[b Hb]|(a & b & Hab)]; [by exists "", b|].
      exists (String c a), b. cbn. by rewrite Hab.
    + intros (a & b & Hab). destruct a as [|c' a]; [left; by exists b|].
      right. exists a, b. by injection Hab.
Qed.

(** A chain that is given a value reports an error as soon as one of its
    validators does not pass. *)
Lemma run_chain_rejects `{ValidatorJs} (c : ValidationChain) (v : string) ck msg :
  (ck, msg) ∈ vc_validators c →
  passes ck (Some v) = false →
  run_chain c (Some v) ≠ [].
Proof.
  intros Hin Hfail. unfold run_chain.
  rewrite (bool_decide_eq_false_2 (Some v = None)) by done. rewrite andb_false_r.
  assert (Hf : (ck, msg) ∈ filter (λ cm, ¬ Is_true (passes cm.1 (Some v))) (vc_validators c)).
  { apply list_elem_of_filter. split; [|done]. simpl. rewrite Hfail. by intros []. }
  intros Hnil. apply fmap_nil_inv in Hnil. rewrite Hnil in Hf. by apply elem_of_nil in Hf.
Qed.

(** The chains with [isURL()] reject a supplied link that is not a URL or
    lacks the text [jam.dev]: the chain of test creation and result
    recording, the chain of bug updates and the chain of bug creation. *)
Lemma evidence_url_chain_rejects `{ValidatorJs} (v : string) :
  v ≠ "" →
  isURL v = false ∨ includes "jam.dev" v = false →
  run_chain evidence_url_chain (Some v) ≠ []
  ∧ run_chain updateBug_jam_link_chain (Some v) ≠ []
  ∧ run_chain jam_link_chain (Some v) ≠ [].
Proof.
  intros Hne [Hurl|Hjam].
  - repeat split; eapply (run_chain_rejects _ v v_isURL); try done;
      simpl; rewrite !elem_of_cons; eauto.
  - repeat split.
    + eapply (run_chain_rejects _ v (v_custom jam_if_present)).
      * simpl. rewrite !elem_of_cons. eauto.
      * simpl. unfold jam_if_present, truthy. simpl.
        by rewrite Hjam, (bool_decide_eq_false_2 _ Hne).
    + eapply (run_chain_rejects _ v (v_custom jam_if_present)).
      * simpl. rewrite !elem_of_cons. eauto.
      * simpl. unfold jam_if_present, truthy. simpl.
        by rewrite Hjam, (bool_decide_eq_false_2 _ Hne).
    + eapply (run_chain_rejects _ v (v_custom jam_required)).
      * simpl. rewrite !elem_of_cons. eauto.
      * done.
Qed.

(** The chain of [PUT /tests/:id] looks for the text [jam.dev] only. *)
Lemma updateTest_evidence_url_chain_accepts `{ValidatorJs} (v : string) :
  includes "jam.dev" v = true →
  run_chain updateTest_evidence_url_chain (Some v) = [].
Proof.
  intros Hjam. unfold run_chain, updateTest_evidence_url_chain, optional_chain. simpl.
  rewrite filter_cons, filter_nil. simpl. unfold jam_if_present. simpl. rewrite Hjam.
  rewrite andb_false_r. destruct (decide _) as [Hn|]; [|done]. by destruct Hn.
Qed.

(** Errors of the validation end the request with a 400 that carries them;
    the store is not reached. *)
Lemma handleValidation_rejects {A} errs db (next : Response A * DB) :
  errs ≠ [] →
  handleValidation errs db next =
    ({| statusCode := 400; success := false; message := "Validation failed";
        data := None; errors := errs |}, db).
Proof. by destruct errs. Qed.

(** The routes whose chain has [isURL()] answer 400, with a field-level
    error, and leave the store as it was. *)
Lemma evidence_link_rejected `{ValidatorJs} ρ user id db (v : string) :
  v ≠ "" →
  isURL v = false ∨ includes "jam.dev" v = false →
  (∀ body, user_role user = PM → ct_evidence_url body = Some v →
     statusCode (post_tests ρ user body db).1 = 400
     ∧ errors (post_tests ρ user body db).1 ≠ []
     ∧ (post_tests ρ user body db).2 = db)
  ∧ (∀ body, user_role user = QA → rb_evidence_url body = Some v →
       statusCode (put_tests_id_result ρ user id body db).1 = 400
       ∧ errors (put_tests_id_result ρ user id body db).1 ≠ []
       ∧ (put_tests_id_result ρ user id body db).2 = db)
  ∧ (∀ body, user_role user = QA → bb_jam_link body = Some v →
       statusCode (post_bugs ρ user body db).1 = 400
       ∧ errors (post_bugs ρ user body db).1 ≠ []
       ∧ (post_bugs ρ user body db).2 = db).
Proof.
  intros Hne Hbad.
  destruct (evidence_url_chain_rejects v Hne Hbad) as (He & _ & Hj).
  assert (Hpt : ∀ body, ct_evidence_url body = Some v → createTestValidation body ≠ []).
  { intros body Hv Hnil. unfold createTestValidation in Hnil. rewrite Hv in Hnil.
    repeat (apply app_eq_nil in Hnil as [? Hnil]). done. }
  assert (Hpr : ∀ body, rb_evidence_url body = Some v →
                        updateTestResultValidation id body ≠ []).
  { intros body Hv Hnil. unfold updateTestResultValidation in Hnil. rewrite Hv in Hnil.
    repeat (apply app_eq_nil in Hnil as [? Hnil]). done. }
  assert (Hpb : ∀ body, bb_jam_link body = Some v → createBugValidation body ≠ []).
  { intros body Hv Hnil. unfold createBugValidation in Hnil. rewrite Hv in Hnil.
    repeat (apply app_eq_nil in Hnil as [? Hnil]). done. }
  split; [|split]; intros body Hrole Hv.
  - unfold post_tests, authorize. rewrite Hrole. simpl.
    rewrite handleValidation_rejects by auto. simpl. auto.
  - unfold put_tests_id_result, authorize. rewrite Hrole. simpl.
    rewrite handleValidation_rejects by auto. simpl. auto.
  - unfold post_bugs, authorize. rewrite Hrole. simpl.
    rewrite handleValidation_rejects by auto. simpl. auto.
Qed.

(** C9 on the code: the chain of [PUT /tests/:id] has the [jam.dev] check
    but no [isURL()].  The text ["not a url jam.dev"] is no URL for the
    validator; test creation refuses it with a 400, while the update of a
    test case accepts it, answers 200 and stores it as the evidence link. *)
Theorem updateTest_accepts_non_url :
  let link := "not a url jam.dev" in
  let body := {| ut_module_platform := None; ut_test_case := None;
                 ut_expected_result := None; ut_evidence_url := Some link;
                 ut_assigned_to := None |} in
  let updated := @put_tests_id Sample.https_validator Sample.env0 Sample.as_pat "t-0" body
                   Sample.db0 in
  let created_ := @post_tests Sample.https_validator Sample.env0 Sample.as_pat
                    (Sample.create_body "u-mike" (Some link)) Sample.db0 in
  @isURL Sample.https_validator link = false
  ∧ includes "jam.dev" link = true
  ∧ statusCode created_.1 = 400
  ∧ errors created_.1 = [("evidence_url", "Evidence URL must be a valid URL")]
  ∧ statusCode updated.1 = 200
  ∧ errors updated.1 = []
  ∧ (tc_evidence_url <$> test_cases updated.2 !! "t-0") = Some (Some link).
Proof. vm_compute. repeat split. Qed.

(** The same for every validator.js and every text with [jam.dev] in it:
    the validation of [PUT /tests/:id] raises no error on the link. *)
Lemma updateTest_validation_ignores_isURL `{ValidatorJs} (v : string) :
  includes "jam.dev" v = true →
  updateTestValidation {| ut_module_platform := None; ut_test_case := None;
                          ut_expected_result := None; ut_evidence_url := Some v;
                          ut_assigned_to := None |} = [].
Proof.
  intros Hjam. unfold updateTestValidation. simpl.
  by rewrite (updateTest_evidence_url_chain_accepts v Hjam).
Qed.

(** ** Recording a result *)

Lemma update_test_case_Some ρ id u db t' db' :
  update_test_case ρ id u db = Some (t', db') →
  ∃ t st, test_cases db !! id = Some t
          ∧ t' = apply_test_cases_update (now ρ) u st t
          ∧ db' = with_test_cases (insert id t') db.
Proof.
  unfold update_test_case. intros H.
  destruct (updateError ρ); [done|].
  destruct (test_cases db !! id) as [t|]; [|done].
  destruct (match upd_status u with Some _ => _ | None => _ end) as [st|]; [|done].
  simplify_eq/=. by exists t, st.
Qed.

(** The handler by itself, on the body the route hands it.  A successful
    recording of a result is the assignee's, and it overwrites
    [evidence_url] and [notes] whatever they held: each becomes the text of
    that body when it is not empty, and null when the field is absent or is
    the empty text. *)
Theorem result_overwrites_evidence_and_notes ρ user id body db r db' :
  updateTestResult ρ user id body db = (r, db') →
  success r = true →
  ∃ test test',
    test_cases db !! id = Some test
    ∧ tc_assigned_to test = user_id user
    ∧ test_cases db' !! id = Some test'
    ∧ data r = Some (id, test')
    ∧ tc_evidence_url test' =
        match rb_evidence_url body with
        | Some s => if bool_decide (s = "") then None else Some s
        | None => None
        end
    ∧ tc_notes test' =
        match rb_notes body with
        | Some s => if bool_decide (s = "") then None else Some s
        | None => None
        end.
Proof.
  unfold updateTestResult. intros H Hs.
  destruct (single _ _) as [existing|] eqn:He; [|by simplify_eq/=].
  apply single_Some in He as [_ He].
  case_bool_decide as Ha; simpl in H; [|by simplify_eq/=].
  destruct (update_test_case _ _ _ _) as [[t' db1]|] eqn:Hu; [|by simplify_eq/=].
  apply update_test_case_Some in Hu as (t & st & Ht & -> & ->).
  rewrite He in Ht. injection Ht as <-. injection H as <- <-.
  eexists existing, _. split; [done|]. split; [done|].
  split; [by simpl; rewrite lookup_insert_eq|]. split; [done|]. simpl.
  unfold or_null, truthy. split.
  - destruct (rb_evidence_url body) as [s|]; [|done]. by case_bool_decide.
  - destruct (rb_notes body) as [s|]; [|done]. by case_bool_decide.
Qed.

Lemma result_overwrites_evidence_and_notes_witness :
  (tc_evidence_url <$> test_cases Sample.db0 !! "t-0") = Some (Some "https://jam.dev/c/y")
  ∧ (tc_notes <$> test_cases Sample.db0 !! "t-0") = Some (Some "first run")
  ∧ ∃ test',
      test_cases (updateTestResult Sample.env0 Sample.as_mike "t-0"
                    {| rb_status := Some "fail"; rb_evidence_url := None;
                       rb_notes := Some "" |} Sample.db0).2 !! "t-0" = Some test'
      ∧ tc_evidence_url test' = None
      ∧ tc_notes test' = None.
Proof.
  split; [reflexivity|]. split; [reflexivity|].
  destruct (result_overwrites_evidence_and_notes Sample.env0 Sample.as_mike "t-0"
              {| rb_status := Some "fail"; rb_evidence_url := None; rb_notes := Some "" |}
              Sample.db0 _ _ eq_refl eq_refl)
    as (test & test' & _ & _ & Ht' & _ & He & Hn).
  exists test'. repeat split; done.
Defined.

(** At the route the handler is given the body after the chain's [trim]:
    a successful [PUT /tests/:id/result] is a QA user's, it passed the
    validation, and it is the handler's answer on the sanitized body. *)
Lemma put_tests_id_result_success `{ValidatorJs} ρ user id body db :
  success (put_tests_id_result ρ user id body db).1 = true →
  user_role user = QA
  ∧ updateTestResultValidation id body = []
  ∧ put_tests_id_result ρ user id body db
    = updateTestResult ρ user id (sanitize_ResultBody body) db.
Proof.
  unfold put_tests_id_result, authorize, handleValidation.
  case_bool_decide as Hrole; [|done].
  apply list_elem_of_singleton in Hrole.
  by destruct (updateTestResultValidation id body).
Qed.

(** At the endpoint the claim does not hold as it is stated.  With the
    [trim] of validator.js, the notes [" flaky "] are stored as ["flaky"],
    not as they were supplied, and the notes ["   "], which are not empty,
    are stored as null; and an empty [evidence_url] is not a clearing
    request: it is refused with 400 and the stored link stays. *)
Lemma result_route_trims_and_refuses :
  statusCode (@put_tests_id_result Fixture.trimming_validator Sample.env0 Sample.as_mike
                "t-0" {| rb_status := Some "fail"; rb_evidence_url := None;
                         rb_notes := Some " flaky " |} Sample.db0).1 = 200
  ∧ statusCode (@put_tests_id_result Fixture.trimming_validator Sample.env0 Sample.as_mike
                  "t-0" {| rb_status := Some "fail"; rb_evidence_url := None;
                           rb_notes := Some "   " |} Sample.db0).1 = 200
  ∧ (tc_notes
     <$> test_cases (@put_tests_id_result Fixture.trimming_validator Sample.env0 Sample.as_mike
                       "t-0" {| rb_status := Some "fail"; rb_evidence_url := None;
                                rb_notes := Some " flaky " |} Sample.db0).2 !! "t-0")
  = Some (Some "flaky")
  ∧ (tc_notes
       <$> test_cases (@put_tests_id_result Fixture.trimming_validator Sample.env0
                         Sample.as_mike "t-0"
                         {| rb_status := Some "fail"; rb_evidence_url := None;
                            rb_notes := Some "   " |} Sample.db0).2 !! "t-0")
    = Some None
  ∧ statusCode (@put_tests_id_result Fixture.trimming_validator Sample.env0 Sample.as_mike
                  "t-0" {| rb_status := Some "fail"; rb_evidence_url := Some "";
                           rb_notes := None |} Sample.db0).1 = 400
  ∧ (tc_evidence_url
       <$> test_cases (@put_tests_id_result Fixture.trimming_validator Sample.env0
                         Sample.as_mike "t-0"
                         {| rb_status := Some "fail"; rb_evidence_url := Some "";
                            rb_notes := None |} Sample.db0).2 !! "t-0")
    = Some (Some "https://jam.dev/c/y").
Proof. vm_compute. done. Qed.

(** C10, amended, at [PUT /tests/:id/result].  A recording that is answered
    success is the assignee's, and it overwrites [evidence_url] and [notes]
    whatever they held.  [evidence_url] becomes the link of the request, a
    text the validator takes for a URL, or null when the request has none;
    the empty text is not among the links of a successful request when the
    validator does not take it for a URL.  [notes] becomes the notes of the
    request after [trim], or null when the request has none or they are
    empty after [trim]. *)
Theorem result_route_overwrites `{ValidatorJs} ρ user id body db r db' :
  put_tests_id_result ρ user id body db = (r, db') →
  success r = true →
  ∃ test test',
    user_role user = QA
    ∧ test_cases db !! id = Some test
    ∧ tc_assigned_to test = user_id user
    ∧ test_cases db' !! id = Some test'
    ∧ data r = Some (id, test')
    ∧ tc_evidence_url test' =
        match rb_evidence_url body with
        | Some s => if bool_decide (s = "") then None else Some s
        | None => None
        end
    ∧ (∀ s, rb_evidence_url body = Some s → isURL s = true)
    ∧ (isURL "" = false → rb_evidence_url body ≠ Some "")
    ∧ tc_notes test' =
        match rb_notes body with
        | Some s => if bool_decide (trim s = "") then None else Some (trim s)
        | None => None
        end.
Proof.
  intros Hrun Hs.
  assert (Hs' : success (put_tests_id_result ρ user id body db).1 = true)
    by (by rewrite Hrun).
  destruct (put_tests_id_result_success _ _ _ _ _ Hs') as (Hrole & Hval & Heq).
  rewrite Heq in Hrun.
  destruct (result_overwrites_evidence_and_notes _ _ _ _ _ _ _ Hrun Hs)
    as (test & test' & Ht & Ha & Ht' & Hd & He & Hn).
  assert (Hurl : ∀ s, rb_evidence_url body = Some s → isURL s = true).
  { intros s Hb. unfold updateTestResultValidation in Hval.
    apply app_eq_nil in Hval as [_ Hval]. apply app_eq_nil in Hval as [_ Hval].
    apply app_eq_nil in Hval as [Hval _].
    rewrite Hb in Hval. destruct (isURL s) eqn:Hu; [done|]. exfalso.
    eapply (run_chain_rejects evidence_url_chain s v_isURL); [|exact Hu|exact Hval].
    simpl. left. }
  exists test, test'.
  split; [exact Hrole|]. split; [exact Ht|]. split; [exact Ha|].
  split; [exact Ht'|]. split; [exact Hd|].
  split; [exact He|]. split; [exact Hurl|]. split.
  - intros Hno Hb. apply Hurl in Hb. congruence.
  - rewrite Hn. simpl. by destruct (rb_notes body).
Qed.

Lemma result_route_overwrites_witness :
  (tc_evidence_url <$> test_cases Sample.db0 !! "t-0") = Some (Some "https://jam.dev/c/y")
  ∧ (tc_notes <$> test_cases Sample.db0 !! "t-0") = Some (Some "first run")
  ∧ ∃ test',
      test_cases (@put_tests_id_result Fixture.trimming_validator Sample.env0 Sample.as_mike
                    "t-0" {| rb_status := Some "fail"; rb_evidence_url := None;
                             rb_notes := Some "  " |} Sample.db0).2 !! "t-0" = Some test'
      ∧ tc_evidence_url test' = None
      ∧ tc_notes test' = None.
Proof.
  split; [reflexivity|]. split; [reflexivity|].
  destruct (@result_route_overwrites Fixture.trimming_validator Sample.env0 Sample.as_mike
              "t-0" {| rb_status := Some "fail"; rb_evidence_url := None;
                       rb_notes := Some "  " |} Sample.db0 _ _ eq_refl eq_refl)
    as (test & test' & _ & _ & _ & Ht' & _ & He & _ & _ & Hn).
  exists test'. split; [exact Ht'|]. split; [exact He|exact Hn].
Defined.

(** * Further properties of the controllers *)

(** ** Lists of test cases *)

Lemma elem_of_getTests `{Postgres} ρ user q db l k t :
  data (getTests ρ user q db) = Some l →
  (k, t) ∈ tests l →
  (k, t) ∈ tests_query user q db.
Proof.
  unfold getTests. destruct (findError ρ); [done|]. simpl.
  intros [= <-]. simpl. apply elem_of_page.
Qed.

Lemma getTests_page_of `{Postgres} ρ user q db k t :
  findError ρ = false →
  (k, t) ∈ tests_query user q db →
  ∃ p l, data (getTests ρ user (at_page p q) db) = Some l ∧ (k, t) ∈ tests l.
Proof.
  intros Hf Hin.
  pose proof (parseInt_or_pos (q_limit q) 10 ltac:(lia)) as Hl.
  destruct (page_of_elem _ _ _ Hl Hin) as [p Hp].
  exists (S p). eexists. unfold getTests. rewrite Hf. simpl. split; [done|].
  simpl. rewrite Nat.sub_0_r. exact Hp.
Qed.

Lemma no_filters_pass `{Postgres} q kv :
  truthy (q_status q) = false →
  truthy (q_module_platform q) = false →
  truthy (q_search q) = false →
  status_filter (q_status q) kv = true
  ∧ module_filter (q_module_platform q) kv = true
  ∧ search_filter (q_search q) kv = true.
Proof.
  intros Hs Hm Hq. unfold status_filter, module_filter, search_filter.
  rewrite Hm, Hq. repeat split.
  destruct (q_status q) as [s|]; [|done].
  unfold truthy in Hs. apply negb_false_iff, bool_decide_eq_true in Hs. by subst s.
Qed.

(** X1. The scope of the other two roles in [GET /tests]: an ENG user is
    only ever given test cases whose status is fail or escalated, and with
    no filter in the request the pages of an ENG user hold exactly those
    rows, the pages of a PM every row of the table. *)
Theorem eng_and_pm_list_scope `{Postgres} :
  (∀ ρ user q db l k t,
     user_role user = ENG →
     data (getTests ρ user q db) = Some l →
     (k, t) ∈ tests l →
     test_cases db !! k = Some t ∧ (tc_status t = fail ∨ tc_status t = escalated))
  ∧ (∀ ρ user q db k t,
       findError ρ = false →
       truthy (q_status q) = false →
       truthy (q_module_platform q) = false →
       truthy (q_search q) = false →
       ((∃ p l, data (getTests ρ user (at_page p q) db) = Some l ∧ (k, t) ∈ tests l)
        ↔ test_cases db !! k = Some t
          ∧ match user_role user with
            | PM => True
            | QA => tc_assigned_to t = user_id user
            | ENG => tc_status t = fail ∨ tc_status t = escalated
            end)).
Proof.
  assert (Hrole : ∀ user k t,
    role_filter user (k, t) = true
    ↔ match user_role user with
      | PM => True
      | QA => tc_assigned_to t = user_id user
      | ENG => tc_status t = fail ∨ tc_status t = escalated
      end).
  { intros user k t. unfold role_filter. destruct (user_role user); simpl.
    - done.
    - by rewrite bool_decide_eq_true.
    - rewrite bool_decide_eq_true, !elem_of_cons, elem_of_nil. tauto. }
  split.
  - intros ρ user q db l k t Hr Hd Hin.
    pose proof (elem_of_getTests _ _ _ _ _ _ _ Hd Hin) as Hq.
    apply elem_of_tests_query in Hq as (Hk & Hf & _).
    apply Hrole in Hf. rewrite Hr in Hf. done.
  - intros ρ user q db k t Hf Hs Hm Hq. rewrite <- Hrole. split.
    + intros (p & l & Hd & Hin).
      pose proof (elem_of_getTests _ _ _ _ _ _ _ Hd Hin) as Hq'.
      apply elem_of_tests_query in Hq' as (Hk & Hr & _). done.
    + intros [Hk Hr]. apply getTests_page_of; [done|].
      apply elem_of_tests_query.
      destruct (no_filters_pass q (k, t) Hs Hm Hq) as (? & ? & ?). done.
Qed.

Lemma eng_and_pm_list_scope_witness :
  ∃ p l,
    data (@getTests Sample.no_ilike Sample.env0 Sample.as_pat
            (at_page p Sample.no_query) Sample.db0) = Some l
    ∧ ("t-0", Sample.test0) ∈ tests l.
Proof.
  apply (proj2 (@eng_and_pm_list_scope Sample.no_ilike)); try reflexivity.
  split; [reflexivity|exact I].
Defined.




(** The four test cases of Mike on two pages of two, newest first. *)
Example getTests_pages_sample :
  (fst <$> default []
     (tests <$> data (@getTests Sample.no_ilike Sample.env0 Sample.as_mike
                        (at_page 1 Fixture.limit_2) Fixture.db_tests)))
  = ["t-5"; "t-3"]
  ∧ (fst <$> default []
       (tests <$> data (@getTests Sample.no_ilike Sample.env0 Sample.as_mike
                          (at_page 2 Fixture.limit_2) Fixture.db_tests)))
    = ["t-4"; "t-0"]
  ∧ (fst <$> @tests_query Sample.no_ilike Sample.as_mike Fixture.limit_2 Fixture.db_tests)
    = ["t-5"; "t-3"; "t-4"; "t-0"].
Proof. vm_compute. done. Qed.

(** ** Writing test cases *)

(** X3. A created test case.  When [createTest] answers success the table
    has one more row, under an id that was free: it is pending, has no notes
    and no source bug, is created by the acting user and assigned to a user
    of the store whose role is QA; its evidence link is the supplied one, or
    null for an absent or empty one.  No other row, user or bug changes. *)
Theorem createTest_initial_state ρ user body db r db' :
  createTest ρ user body db = (r, db') →
  success r = true →
  ∃ a assignee test,
    ct_assigned_to body = Some a
    ∧ users db !! a = Some assignee ∧ role assignee = QA
    ∧ test_cases db !! uuid ρ = None
    ∧ r = Json 201 "Test case created successfully" (Some (uuid ρ, test))
    ∧ db' = with_test_cases (insert (uuid ρ) test) db
    ∧ tc_status test = pending
    ∧ tc_notes test = None
    ∧ tc_source_bug_id test = None
    ∧ tc_created_by test = user_id user
    ∧ tc_assigned_to test = a
    ∧ tc_evidence_url test = or_null (ct_evidence_url body)
    ∧ Some (tc_module_platform test) = ct_module_platform body
    ∧ Some (tc_test_case test) = ct_test_case body
    ∧ Some (tc_expected_result test) = ct_expected_result body.
Proof.
  unfold createTest, insert_test_case. intros H Hs.
  destruct (single _ _) as [assignee|] eqn:Ha; [|by simplify_eq/=].
  apply single_Some in Ha as [_ Ha].
  destruct (ct_assigned_to body) as [a|] eqn:Hct; [|done]. simpl in Ha.
  case_bool_decide as Hr; simpl in H; [|by simplify_eq/=].
  destruct (insertError ρ); [by simplify_eq/=|].
  destruct (ct_module_platform body) as [mp|]; [|by simplify_eq/=].
  destruct (ct_test_case body) as [tc|]; [|by simplify_eq/=].
  destruct (ct_expected_result body) as [er|]; [|by simplify_eq/=].
  destruct (test_cases db !! uuid ρ) eqn:Hfresh; [by simplify_eq/=|].
  simplify_eq/=. eexists a, assignee, _. repeat split; done.
Qed.

Lemma createTest_initial_state_witness :
  ∃ test,
    (createTest Sample.env0 Sample.as_pat
       (Sample.create_body "u-mike" (Some "")) Sample.db0).1
    = Json 201 "Test case created successfully" (Some ("t-1", test))
    ∧ tc_status test = pending
    ∧ tc_evidence_url test = None.
Proof.
  destruct (createTest_initial_state Sample.env0 Sample.as_pat
              (Sample.create_body "u-mike" (Some "")) Sample.db0 _ _ eq_refl eq_refl)
    as (a & assignee & test & _ & _ & _ & _ & Hr & _ & Hst & _ & _ & _ & _ & He & _).
  exists test. split; [exact Hr|]. split; [exact Hst|exact He].
Defined.

Lemma update_test_case_inv ρ id u db t' db' :
  update_test_case ρ id u db = Some (t', db') →
  ∃ t st, updateError ρ = false
          ∧ test_cases db !! id = Some t
          ∧ match upd_status u with
            | None => st = tc_status t
            | Some s => TestStatus_of_string s = Some st
            end
          ∧ t' = apply_test_cases_update (now ρ) u st t
          ∧ db' = with_test_cases (insert id t') db.
Proof.
  unfold update_test_case. intros H.
  destruct (updateError ρ); [done|].
  destruct (test_cases db !! id) as [t|]; [|done].
  destruct (upd_status u) as [s|] eqn:Hs.
  - destruct (TestStatus_of_string s) as [st|] eqn:Hp; [|done].
    simplify_eq/=. by exists t, st.
  - simplify_eq/=. by exists t, (tc_status t).
Qed.

(** X4. What a PM's update of a test case leaves alone.  A successful
    [updateTest] rewrites the one row and nothing else; the status, the
    notes, the creator, the source bug and the creation time of the row stay,
    so a reassignment does not reset the result; and the assignee either
    stays or becomes a user of the store whose role is QA. *)
Theorem updateTest_preserves ρ user id body db r db' :
  updateTest ρ user id body db = (r, db') →
  success r = true →
  ∃ t t',
    test_cases db !! id = Some t
    ∧ db' = with_test_cases (insert id t') db
    ∧ tc_status t' = tc_status t
    ∧ tc_notes t' = tc_notes t
    ∧ tc_created_by t' = tc_created_by t
    ∧ tc_source_bug_id t' = tc_source_bug_id t
    ∧ tc_created_at t' = tc_created_at t
    ∧ (tc_assigned_to t' = tc_assigned_to t
       ∨ ∃ u, users db !! tc_assigned_to t' = Some u ∧ role u = QA).
Proof.
  unfold updateTest. intros H Hs.
  destruct (single _ (test_cases db !! id)) as [existing|] eqn:He; [|by simplify_eq/=].
  apply single_Some in He as [_ He].
  destruct (truthy (ut_assigned_to body) && _) eqn:Hre.
  - destruct (single _ (by_id _ _)) as [assignee|] eqn:Ha; [|by simplify_eq/=].
    apply single_Some in Ha as [_ Ha].
    case_bool_decide as Hr; simpl in H; [|by simplify_eq/=].
    destruct (update_test_case _ _ _ _) as [[t' db1]|] eqn:Hu; [|by simplify_eq/=].
    apply update_test_case_inv in Hu as (t & st & _ & Ht & Hst & -> & ->). simpl in *.
    subst st. rewrite He in Ht. injection Ht as <-. injection H as <- <-.
    eexists existing, _. repeat split; try done. simpl.
    destruct (ut_assigned_to body) as [a|]; [|done]. simpl in *.
    right. by exists assignee.
  - destruct (update_test_case _ _ _ _) as [[t' db1]|] eqn:Hu; [|by simplify_eq/=].
    apply update_test_case_inv in Hu as (t & st & _ & Ht & Hst & -> & ->). simpl in *.
    subst st. rewrite He in Ht. injection Ht as <-. injection H as <- <-.
    eexists existing, _. repeat split; try done. by left.
Qed.

Lemma updateTest_preserves_witness :
  ∃ t',
    test_cases (updateTest Sample.env0 Sample.as_pat "t-0"
                  {| ut_module_platform := None; ut_test_case := None;
                     ut_expected_result := None; ut_evidence_url := None;
                     ut_assigned_to := Some "u-lisa" |} Sample.db0).2 !! "t-0" = Some t'
    ∧ tc_status t' = tc_status Sample.test0
    ∧ tc_notes t' = tc_notes Sample.test0.
Proof.
  destruct (updateTest_preserves Sample.env0 Sample.as_pat "t-0"
              {| ut_module_platform := None; ut_test_case := None;
                 ut_expected_result := None; ut_evidence_url := None;
                 ut_assigned_to := Some "u-lisa" |} Sample.db0 _ _ eq_refl eq_refl)
    as (t & t' & Ht & Hdb & Hst & Hn & _).
  injection Ht as <-. exists t'. split; [|split; [exact Hst|exact Hn]].
  pose proof (f_equal (λ d, test_cases d !! "t-0") Hdb) as E. simpl in E.
  rewrite lookup_insert_eq in E. exact E.
Defined.

(** A chain that reports no error lets each of its validators pass, unless
    it is optional and the field is absent. *)
Lemma run_chain_nil `{ValidatorJs} (c : ValidationChain) (v : option string) ck msg :
  run_chain c v = [] →
  (ck, msg) ∈ vc_validators c →
  (vc_optional c = true ∧ v = None) ∨ passes ck v = true.
Proof.
  unfold run_chain. intros Hnil Hin.
  destruct (vc_optional c && bool_decide (v = None)) eqn:Hopt.
  - left. apply andb_true_iff in Hopt as [? Hv]. by apply bool_decide_eq_true in Hv.
  - right. apply fmap_nil_inv in Hnil.
    destruct (passes ck v) eqn:Hp; [done|]. exfalso.
    assert (Hf : (ck, msg) ∈ filter (λ cm, ¬ Is_true (passes cm.1 v)) (vc_validators c)).
    { apply list_elem_of_filter. split; [|done]. simpl. rewrite Hp. by intros []. }
    rewrite Hnil in Hf. by apply elem_of_nil in Hf.
Qed.

(** X5. Recording a result through [PUT /tests/:id/result].  A request
    that is answered success comes from a QA user who is the assignee of the
    test case; the new status is the one of the request and is pass, fail or
    escalated, never pending; the text of the test case, its assignee, its
    creator and its source bug are untouched, and so is every other row. *)
Theorem result_route_transition `{ValidatorJs} ρ user id body db r db' :
  put_tests_id_result ρ user id body db = (r, db') →
  success r = true →
  ∃ t t' s,
    user_role user = QA
    ∧ test_cases db !! id = Some t
    ∧ tc_assigned_to t = user_id user
    ∧ db' = with_test_cases (insert id t') db
    ∧ rb_status body = Some s
    ∧ TestStatus_of_string s = Some (tc_status t')
    ∧ tc_status t' ∈ [pass; fail; escalated]
    ∧ tc_module_platform t' = tc_module_platform t
    ∧ tc_test_case t' = tc_test_case t
    ∧ tc_expected_result t' = tc_expected_result t
    ∧ tc_assigned_to t' = tc_assigned_to t
    ∧ tc_created_by t' = tc_created_by t
    ∧ tc_source_bug_id t' = tc_source_bug_id t.
Proof.
  intros H0 Hs.
  assert (Hs' : success (put_tests_id_result ρ user id body db).1 = true) by by rewrite H0.
  destruct (put_tests_id_result_success _ _ _ _ _ Hs') as (Hrole & Hval & Heq).
  rewrite Heq in H0. clear Heq Hs'.
  unfold updateTestResultValidation in Hval.
  apply app_eq_nil in Hval as [_ Hval]. apply app_eq_nil in Hval as [Hst _].
  eapply run_chain_nil in Hst as [[? _]|Hst]; [done| |by apply list_elem_of_here].
  simpl in Hst. apply bool_decide_eq_true in Hst.
  destruct (rb_status body) as [s|] eqn:Hbs; simpl in Hst;
    [|by repeat (apply elem_of_cons in Hst as [?|Hst]; [done|]); apply elem_of_nil in Hst].
  unfold updateTestResult in H0.
  destruct (single _ _) as [existing|] eqn:He; [|by simplify_eq/=].
  apply single_Some in He as [_ He].
  case_bool_decide as Ha; simpl in H0; [|by simplify_eq/=].
  destruct (update_test_case _ _ _ _) as [[t' db1]|] eqn:Hu; [|by simplify_eq/=].
  apply update_test_case_inv in Hu as (t & st & _ & Ht & Hpst & -> & ->).
  simpl in Hpst. rewrite Hbs in Hpst.
  rewrite He in Ht. injection Ht as <-. injection H0 as <- <-.
  eexists existing, _, s. repeat split; try done.
  simpl. clear -Hst Hpst.
  repeat (apply elem_of_cons in Hst as [->|Hst];
          [vm_compute in Hpst; injection Hpst as <-;
           rewrite !elem_of_cons; tauto|]).
  by apply elem_of_nil in Hst.
Qed.

Lemma result_route_transition_witness :
  ∃ t',
    test_cases (@put_tests_id_result Sample.https_validator Sample.env0 Sample.as_mike "t-0"
                  {| rb_status := Some "fail"; rb_evidence_url := Some "https://jam.dev/c/z";
                     rb_notes := None |} Sample.db0).2 !! "t-0" = Some t'
    ∧ tc_status t' ∈ [pass; fail; escalated].
Proof.
  destruct (@result_route_transition Sample.https_validator Sample.env0 Sample.as_mike "t-0"
              {| rb_status := Some "fail"; rb_evidence_url := Some "https://jam.dev/c/z";
                 rb_notes := None |} Sample.db0 _ _ eq_refl eq_refl)
    as (t & t' & s & _ & _ & _ & Hdb & _ & _ & Hin & _).
  exists t'. split; [|exact Hin].
  pose proof (f_equal (λ d, test_cases d !! "t-0") Hdb) as E. simpl in E.
  rewrite lookup_insert_eq in E. exact E.
Defined.

(** X6. A refused request writes nothing.  Whenever the creation of a test
    case, the recording of a result, the update of a test case, the report
    of a bug or the update of a bug is answered with an error, the store is
    the one before the call. *)
Theorem refused_writes_nothing ρ user id :
  (∀ body db, success (createTest ρ user body db).1 = false →
              (createTest ρ user body db).2 = db)
  ∧ (∀ body db, success (updateTestResult ρ user id body db).1 = false →
                (updateTestResult ρ user id body db).2 = db)
  ∧ (∀ body db, success (updateTest ρ user id body db).1 = false →
                (updateTest ρ user id body db).2 = db)
  ∧ (∀ body db, success (createBug ρ user body db).1 = false →
                (createBug ρ user body db).2 = db)
  ∧ (∀ body db, success (updateBug ρ user id body db).1 = false →
                (updateBug ρ user id body db).2 = db).
Proof.
  repeat split; intros body db.
  - unfold createTest. handler_cases; done.
  - unfold updateTestResult. handler_cases; done.
  - unfold updateTest. handler_cases; done.
  - unfold createBug. handler_cases; done.
  - unfold updateBug. handler_cases; done.
Qed.

Lemma refused_writes_nothing_witness :
  (updateTestResult Sample.env0 Sample.as_nora "t-0"
     {| rb_status := Some "pass"; rb_evidence_url := None; rb_notes := None |}
     Sample.db0).2 = Sample.db0.
Proof.
  apply (proj1 (proj2 (refused_writes_nothing Sample.env0 Sample.as_nora "t-0"))).
  reflexivity.
Defined.

(** X7. The role gate of a route comes first.  Whatever the body, valid or
    not, and whatever the store holds, a user who is not a PM is answered
    403 by the creation of a test, the update of a test and the conversion
    of a bug, and a user who is not a QA by the report of a bug and the
    recording of a result; nothing is written. *)
Theorem role_gate_first `{ValidatorJs} ρ user id db :
  (user_role user ≠ PM →
     (∀ body, post_tests ρ user body db
              = (ApiError 403 "Access denied. Required role: PM", db))
     ∧ (∀ body, put_tests_id ρ user id body db
                = (ApiError 403 "Access denied. Required role: PM", db))
     ∧ (∀ body, post_bugs_id_convert ρ user id body db
                = (ApiError 403 "Access denied. Required role: PM", db)))
  ∧ (user_role user ≠ QA →
       (∀ body, post_bugs ρ user body db
                = (ApiError 403 "Access denied. Required role: QA", db))
       ∧ (∀ body, put_tests_id_result ρ user id body db
                  = (ApiError 403 "Access denied. Required role: QA", db))).
Proof.
  split; intros Hrole.
  - assert (Hg : bool_decide (user_role user ∈ [PM]) = false).
    { apply bool_decide_eq_false. by rewrite list_elem_of_singleton. }
    unfold post_tests, put_tests_id, post_bugs_id_convert, authorize.
    rewrite Hg. done.
  - assert (Hg : bool_decide (user_role user ∈ [QA]) = false).
    { apply bool_decide_eq_false. by rewrite list_elem_of_singleton. }
    unfold post_bugs, put_tests_id_result, authorize.
    rewrite Hg. done.
Qed.

Lemma role_gate_first_witness :
  @put_tests_id Sample.https_validator Sample.env0 Sample.as_mike "t-0"
    {| ut_module_platform := None; ut_test_case := Some "x";
       ut_expected_result := None; ut_evidence_url := None;
       ut_assigned_to := None |} Sample.db0
  = (ApiError 403 "Access denied. Required role: PM", Sample.db0).
Proof.
  apply (proj1 (@role_gate_first Sample.https_validator Sample.env0 Sample.as_mike "t-0"
                  Sample.db0)).
  discriminate.
Defined.

(** ** Deleting *)

(** X8. Deleting a bug never deletes a test case.  After a successful
    [deleteBug] the bug is gone and the other bugs and the users are as
    before; the table of test cases has the same ids, no test case points at
    the deleted bug any more, and a test case differs from what it was in
    its [source_bug_id] (now null) and [updated_at] at most. *)
Theorem deleteBug_keeps_tests ρ deleteError user id db r db' :
  deleteBug ρ deleteError user id db = (r, db') →
  success r = true →
  is_Some (unlisted_bugs db !! id)
  ∧ unlisted_bugs db' = delete id (unlisted_bugs db)
  ∧ users db' = users db
  ∧ dom (test_cases db') = dom (test_cases db)
  ∧ ∀ k t', test_cases db' !! k = Some t' →
      tc_source_bug_id t' ≠ Some id
      ∧ ∃ t, test_cases db !! k = Some t
             ∧ (tc_source_bug_id t' = tc_source_bug_id t ∨ tc_source_bug_id t' = None)
             ∧ tc_status t' = tc_status t
             ∧ tc_module_platform t' = tc_module_platform t
             ∧ tc_test_case t' = tc_test_case t
             ∧ tc_expected_result t' = tc_expected_result t
             ∧ tc_evidence_url t' = tc_evidence_url t
             ∧ tc_notes t' = tc_notes t
             ∧ tc_assigned_to t' = tc_assigned_to t
             ∧ tc_created_by t' = tc_created_by t.
Proof.
  unfold deleteBug, delete_bug. intros H Hs.
  destruct (single _ _) as [existing|] eqn:He; [|by simplify_eq/=].
  apply single_Some in He as [_ He].
  destruct deleteError; [by simplify_eq/=|].
  injection H as <- <-. simpl.
  split; [by rewrite He|].
  split; [by destruct (_ && _)|]. split; [by destruct (_ && _)|].
  split.
  - rewrite dom_fmap_L. destruct (_ && _); [|done]. simpl. by rewrite dom_alter_L.
  - intros k t'. rewrite lookup_fmap.
    destruct (test_cases (if _ && _ then _ else _) !! k) as [t1|] eqn:H1; [|done].
    simpl. intros [= <-].
    assert (∃ t, test_cases db !! k = Some t
                 ∧ (t1 = t ∨ t1 = set_source_bug_id_null (now ρ) t)) as (t & Ht & Ht1).
    { destruct (_ && _); [|by exists t1; auto]. simpl in H1.
      destruct (decide (default "" (bug_converted_to_test_id existing) = k)) as [Hk|Hne].
      - subst k. rewrite lookup_alter_eq in H1.
        destruct (test_cases db !! _) as [t|]; [|done]. simpl in H1. injection H1 as <-.
        exists t. auto.
      - rewrite lookup_alter_ne in H1 by done. exists t1. auto. }
    unfold clear_source_bug_id. split.
    + case_bool_decide as Hsrc; [done|]. done.
    + exists t. split; [done|].
      case_bool_decide; destruct Ht1 as [-> | ->]; simpl; auto 12.
Qed.

Lemma deleteBug_keeps_tests_witness :
  test_cases (deleteBug Sample.env0 false Sample.as_pat "b-2" Sample.db0).2 !! "t-0"
  ≠ None
  ∧ unlisted_bugs (deleteBug Sample.env0 false Sample.as_pat "b-2" Sample.db0).2 !! "b-2"
    = None.
Proof.
  destruct (deleteBug_keeps_tests Sample.env0 false Sample.as_pat "b-2" Sample.db0
              (deleteBug Sample.env0 false Sample.as_pat "b-2" Sample.db0).1
              (deleteBug Sample.env0 false Sample.as_pat "b-2" Sample.db0).2
              eq_refl eq_refl) as (_ & Hb & _ & Hdom & _).
  split.
  - intros Hnone. apply not_elem_of_dom in Hnone. rewrite Hdom in Hnone.
    apply Hnone. apply elem_of_dom. by exists Sample.test0.
  - rewrite Hb. apply lookup_delete_eq.
Defined.

(** X9. Deleting a test case does not reopen its bug.  After a successful
    [deleteTest] the row is gone and the other test cases and the users are
    as before; no bug points at the deleted test case any more, but every
    bug keeps its status: a bug that was converted stays converted, and a
    further conversion of it is refused with 400. *)
Theorem deleteTest_keeps_bug_converted ρ deleteError user id db r db' :
  deleteTest ρ deleteError user id db = (r, db') →
  success r = true →
  is_Some (test_cases db !! id)
  ∧ test_cases db' = delete id (test_cases db)
  ∧ users db' = users db
  ∧ dom (unlisted_bugs db') = dom (unlisted_bugs db)
  ∧ (∀ k, (bug_status <$> unlisted_bugs db' !! k) = (bug_status <$> unlisted_bugs db !! k))
  ∧ (∀ k b', unlisted_bugs db' !! k = Some b' → bug_converted_to_test_id b' ≠ Some id)
  ∧ (∀ ρ' user' k body bug,
       unlisted_bugs db !! k = Some bug →
       bug_status bug = converted_to_test →
       findError ρ' = false →
       convertToTest ρ' user' k body db' =
         (ApiError 400 "This bug has already been converted to a test case", db')).
Proof.
  unfold deleteTest, delete_test_case. intros H Hs.
  destruct (single _ _) as [existing|] eqn:He; [|by simplify_eq/=].
  apply single_Some in He as [_ He].
  destruct deleteError; [by simplify_eq/=|].
  injection H as <- <-. simpl.
  assert (Hst : ∀ k, (bug_status <$> (clear_converted_to_test_id id (now ρ)
                                        <$> unlisted_bugs db) !! k)
                     = (bug_status <$> unlisted_bugs db !! k)).
  { intros k. rewrite lookup_fmap. destruct (unlisted_bugs db !! k) as [b|]; [|done].
    simpl. unfold clear_converted_to_test_id. by case_bool_decide. }
  split; [by rewrite He|]. split; [done|]. split; [done|].
  split; [by rewrite dom_fmap_L|]. split; [exact Hst|]. split.
  - intros k b'. rewrite lookup_fmap.
    destruct (unlisted_bugs db !! k) as [b|]; [|done]. simpl. intros [= <-].
    unfold clear_converted_to_test_id. case_bool_decide; [done|done].
  - intros ρ' user' k body bug Hb Hconv Hf.
    pose proof (Hst k) as Hk. rewrite Hb in Hk. simpl in Hk.
    destruct ((clear_converted_to_test_id id (now ρ) <$> unlisted_bugs db) !! k)
      as [b'|] eqn:Hb'; [|done].
    injection Hk as Hk.
    erewrite convertToTest_guard; [by rewrite Hf|exact Hb'|congruence].
Qed.

Lemma deleteTest_keeps_bug_converted_witness :
  (bug_status <$> unlisted_bugs (deleteTest Sample.env0 false Sample.as_pat "t-0"
                                   Sample.db0).2 !! "b-2") = Some converted_to_test.
Proof.
  destruct (deleteTest_keeps_bug_converted Sample.env0 false Sample.as_pat "t-0" Sample.db0
              (deleteTest Sample.env0 false Sample.as_pat "t-0" Sample.db0).1
              (deleteTest Sample.env0 false Sample.as_pat "t-0" Sample.db0).2
              eq_refl eq_refl) as (_ & _ & _ & _ & Hst & _).
  rewrite Hst. reflexivity.
Defined.

(** ** Bug reports *)

Lemma order_bugs_Permutation sort order rows : order_bugs sort order rows ≡ₚ rows.
Proof. unfold order_bugs. case_bool_decide; apply merge_sort_Permutation. Qed.

Lemma elem_of_bugs_query `{Postgres} user q db k b :
  (k, b) ∈ bugs_query user q db
  ↔ unlisted_bugs db !! k = Some b
    ∧ bug_role_filter user (k, b) = true
    ∧ bug_status_filter (bq_status q) (k, b) = true
    ∧ bug_severity_filter (bq_severity q) (k, b) = true
    ∧ bug_module_filter (bq_module_platform q) (k, b) = true
    ∧ bug_search_filter (bq_search q) (k, b) = true.
Proof.
  unfold bugs_query. rewrite order_bugs_Permutation, list_elem_of_filter.
  rewrite elem_of_map_to_list, !andb_True, !Is_true_true. tauto.
Qed.

Lemma falsy_default (v : option string) : truthy v = false → default "" v = "".
Proof.
  destruct v as [s|]; [|done]. unfold truthy. intros Hs.
  by apply negb_false_iff, bool_decide_eq_true in Hs.
Qed.

(** X10. The scope of [GET /bugs].  A QA user is only ever given bugs they
    created.  With no filter in the request, a bug is on one of the pages of
    the list exactly when it is in the table and, for a QA user, was created
    by that user: PM and ENG users see every bug. *)
Theorem bug_list_scope `{Postgres} :
  (∀ ρ user q db l k b,
     user_role user = QA →
     data (getBugs ρ user q db) = Some l →
     (k, b) ∈ bugs l →
     unlisted_bugs db !! k = Some b ∧ bug_created_by b = user_id user)
  ∧ (∀ ρ user q db k b,
       findError ρ = false →
       truthy (bq_status q) = false →
       truthy (bq_severity q) = false →
       truthy (bq_module_platform q) = false →
       truthy (bq_search q) = false →
       ((∃ p l, data (getBugs ρ user (bugs_at_page p q) db) = Some l ∧ (k, b) ∈ bugs l)
        ↔ unlisted_bugs db !! k = Some b
          ∧ (user_role user = QA → bug_created_by b = user_id user))).
Proof.
  assert (Hrole : ∀ user k b,
    bug_role_filter user (k, b) = true
    ↔ (user_role user = QA → bug_created_by b = user_id user)).
  { intros user k b. unfold bug_role_filter. case_bool_decide as Hr; simpl.
    - rewrite bool_decide_eq_true. tauto.
    - tauto. }
  assert (Hin : ∀ ρ user q db l k b,
    data (getBugs ρ user q db) = Some l → (k, b) ∈ bugs l → (k, b) ∈ bugs_query user q db).
  { intros ρ user q db l k b. unfold getBugs. destruct (findError ρ); [done|]. simpl.
    intros [= <-]. simpl. apply elem_of_page. }
  split.
  - intros ρ user q db l k b Hr Hd Hl.
    pose proof (Hin _ _ _ _ _ _ _ Hd Hl) as Hq.
    apply elem_of_bugs_query in Hq as (Hk & Hf & _).
    split; [done|]. by apply Hrole in Hf; auto.
  - intros ρ user q db k b Hf Hs Hv Hm Hq. rewrite <- Hrole. split.
    + intros (p & l & Hd & Hl).
      pose proof (Hin _ _ _ _ _ _ _ Hd Hl) as Hq'.
      by apply elem_of_bugs_query in Hq' as (Hk & Hr & _).
    + intros [Hk Hr].
      assert (Hall : (k, b) ∈ bugs_query user q db).
      { apply elem_of_bugs_query. repeat split; [done|done|..].
        - unfold bug_status_filter. by rewrite (falsy_default _ Hs).
        - unfold bug_severity_filter. by rewrite (falsy_default _ Hv).
        - unfold bug_module_filter. by rewrite Hm.
        - unfold bug_search_filter. by rewrite Hq. }
      pose proof (parseInt_or_pos (bq_limit q) 10 ltac:(lia)) as Hl.
      destruct (page_of_elem _ _ _ Hl Hall) as [p Hp].
      exists (S p). eexists. unfold getBugs. rewrite Hf. simpl. split; [done|].
      simpl. rewrite Nat.sub_0_r. exact Hp.
Qed.

Lemma bug_list_scope_witness :
  ∃ p l,
    data (@getBugs Sample.no_ilike Sample.env0 Sample.as_erin
            (bugs_at_page p {| bq_page := None; bq_limit := None; bq_status := None;
                               bq_severity := None; bq_module_platform := None;
                               bq_search := None; bq_sort := None; bq_order := None |})
            Sample.db0) = Some l
    ∧ ("b-1", Sample.bug1) ∈ bugs l.
Proof.
  apply (proj2 (@bug_list_scope Sample.no_ilike)); try reflexivity.
  split; [reflexivity|discriminate].
Defined.

Lemma post_bugs_success `{ValidatorJs} ρ user body db :
  success (post_bugs ρ user body db).1 = true →
  user_role user = QA
  ∧ createBugValidation body = []
  ∧ post_bugs ρ user body db = createBug ρ user (sanitize_BugBody body) db.
Proof.
  unfold post_bugs, authorize, handleValidation.
  case_bool_decide as Hrole; [|done].
  apply list_elem_of_singleton in Hrole.
  by destruct (createBugValidation body).
Qed.

(** X11. A reported bug.  When [POST /bugs] answers success the reporter is
    a QA user and the table has one more bug, under an id that was free: it
    is open, not converted, created by the reporter; its severity is the one
    of the request, or medium when none is given; and its evidence link is
    the link of the request, which the validator takes for a URL and which
    contains [jam.dev].  Nothing else in the store changes. *)
Theorem post_bugs_initial_state `{ValidatorJs} ρ user body db r db' :
  post_bugs ρ user body db = (r, db') →
  success r = true →
  ∃ bug link,
    user_role user = QA
    ∧ unlisted_bugs db !! uuid ρ = None
    ∧ r = Json 201 "Bug reported successfully" (Some (uuid ρ, bug))
    ∧ db' = with_unlisted_bugs (insert (uuid ρ) bug) db
    ∧ bug_status bug = open
    ∧ bug_converted_to_test_id bug = None
    ∧ bug_converted_at bug = None
    ∧ bug_created_by bug = user_id user
    ∧ BugSeverity_of_string (default "medium" (or_null (bb_severity body)))
      = Some (bug_severity bug)
    ∧ bb_jam_link body = Some link
    ∧ bug_jam_link bug = link
    ∧ isURL link = true
    ∧ includes "jam.dev" link = true.
Proof.
  intros H0 Hs.
  assert (Hs' : success (post_bugs ρ user body db).1 = true) by by rewrite H0.
  destruct (post_bugs_success _ _ _ _ Hs') as (Hrole & Hval & Heq).
  rewrite Heq in H0. clear Heq Hs'.
  unfold createBugValidation in Hval.
  apply app_eq_nil in Hval as [_ Hval]. apply app_eq_nil in Hval as [Hjam _].
  assert (Hurl : passes v_isURL (bb_jam_link body) = true).
  { eapply run_chain_nil in Hjam as [[? _]|Hp]; [done|exact Hp|].
    simpl. rewrite !elem_of_cons. eauto. }
  assert (Hinc : passes (v_custom jam_required) (bb_jam_link body) = true).
  { eapply run_chain_nil in Hjam as [[? _]|Hp]; [done|exact Hp|].
    simpl. rewrite !elem_of_cons. eauto. }
  simpl in Hurl, Hinc. unfold jam_required in Hinc.
  destruct (bb_jam_link body) as [link|] eqn:Hlink; [|done]. simpl in Hurl.
  unfold createBug, insert_bug in H0. simpl in H0. rewrite Hlink in H0.
  destruct (insertError ρ); [by simplify_eq/=|].
  destruct (bb_module_platform body) as [mp|]; [|by simplify_eq/=]. simpl in H0.
  destruct (bb_description body) as [d|]; [|by simplify_eq/=]. simpl in H0.
  destruct (BugSeverity_of_string _) as [sev|] eqn:Hsev; [|by simplify_eq/=].
  destruct (unlisted_bugs db !! uuid ρ) eqn:Hfresh; [by simplify_eq/=|].
  injection H0 as <- <-. eexists _, link. repeat split; done.
Qed.

Lemma post_bugs_initial_state_witness :
  ∃ bug,
    (@post_bugs Sample.https_validator Sample.env0 Sample.as_mike
       {| bb_module_platform := Some "Profile / Android";
          bb_jam_link := Some "https://jam.dev/c/q";
          bb_description := Some "Avatar upload never finishes";
          bb_note := None; bb_severity := None; bb_status := Some "closed" |}
       Sample.db0).1
    = Json 201 "Bug reported successfully" (Some ("t-1", bug))
    ∧ bug_status bug = open
    ∧ bug_severity bug = medium.
Proof.
  destruct (@post_bugs_initial_state Sample.https_validator Sample.env0 Sample.as_mike
       {| bb_module_platform := Some "Profile / Android";
          bb_jam_link := Some "https://jam.dev/c/q";
          bb_description := Some "Avatar upload never finishes";
          bb_note := None; bb_severity := None; bb_status := Some "closed" |}
       Sample.db0 _ _ eq_refl eq_refl)
    as (bug & link & _ & _ & Hr & _ & Hst & _ & _ & _ & Hsev & _).
  exists bug. split; [exact Hr|]. split; [exact Hst|].
  injection Hsev as Hsev. by symmetry.
Defined.

(** X12. What an update of a bug leaves alone.  A successful [updateBug]
    rewrites the one bug and touches no test case and no user; whoever the
    actor is, the creator, the creation time and the conversion link
    ([converted_to_test_id], [converted_at]) of the bug stay as they were. *)
Theorem updateBug_preserves ρ user id body db r db' :
  updateBug ρ user id body db = (r, db') →
  success r = true →
  ∃ b b',
    unlisted_bugs db !! id = Some b
    ∧ r = Json 200 "Bug updated successfully" (Some (id, b'))
    ∧ db' = with_unlisted_bugs (insert id b') db
    ∧ bug_created_by b' = bug_created_by b
    ∧ bug_created_at b' = bug_created_at b
    ∧ bug_converted_to_test_id b' = bug_converted_to_test_id b
    ∧ bug_converted_at b' = bug_converted_at b
    ∧ (user_role user = QA →
       bug_created_by b = user_id user ∧ bug_status b ≠ converted_to_test
       ∧ bug_status b' = bug_status b).
Proof.
  unfold updateBug. intros H Hs.
  destruct (single _ _) as [existing|] eqn:He; [|by simplify_eq/=].
  apply single_Some in He as [_ He].
  destruct (bool_decide (user_role user = QA) && negb _) eqn:H1; [by simplify_eq/=|].
  destruct (bool_decide (user_role user = QA) && bool_decide _) eqn:H2; [by simplify_eq/=|].
  destruct (update_bug _ _ _ _) as [[b' db1]|] eqn:Hu; [|by simplify_eq/=].
  apply update_bug_Some in Hu as (b0 & sev & st & Hb0 & Hst & -> & ->).
  rewrite He in Hb0. injection Hb0 as <-. injection H as <- <-.
  eexists existing, _. repeat split; try done.
  - rewrite (bool_decide_eq_true_2 _ H) in H1. simpl in H1.
    by apply negb_false_iff, bool_decide_eq_true in H1.
  - rewrite (bool_decide_eq_true_2 _ H) in H2. simpl in H2.
    by apply bool_decide_eq_false in H2.
  - simpl in *. rewrite H in Hst.
    rewrite (bool_decide_eq_false_2 (QA = PM)), andb_false_r in Hst by done. done.
Qed.

Lemma updateBug_preserves_witness :
  ∃ b',
    (updateBug Sample.env0 Sample.as_pat "b-2"
       {| bb_module_platform := None; bb_jam_link := None; bb_description := None;
          bb_note := None; bb_severity := None; bb_status := Some "open" |}
       Sample.db0).1 = Json 200 "Bug updated successfully" (Some ("b-2", b'))
    ∧ bug_status b' = open
    ∧ bug_converted_to_test_id b' = Some "t-0".
Proof.
  destruct (updateBug_preserves Sample.env0 Sample.as_pat "b-2"
       {| bb_module_platform := None; bb_jam_link := None; bb_description := None;
          bb_note := None; bb_severity := None; bb_status := Some "open" |}
       Sample.db0 _ _ eq_refl eq_refl)
    as (b & b' & Hb & Hr & _ & _ & _ & Hc & _).
  injection Hb as <-. exists b'. split; [exact Hr|].
  split; [|exact Hc]. by injection Hr as <-.
Defined.

(** ** Dashboard statistics *)

Lemma count_by_status (l : list (string * test_cases_row)) :
  length l
  = (length (filter (λ kv, tc_status kv.2 = pass) l)
     + length (filter (λ kv, tc_status kv.2 = fail) l)
     + length (filter (λ kv, tc_status kv.2 = pending) l)
     + length (filter (λ kv, tc_status kv.2 = escalated) l))%nat.
Proof.
  induction l as [|[k t] l IH]; [done|].
  rewrite !filter_cons. simpl. rewrite IH.
  destruct (tc_status t); repeat case_decide; try done; simpl; lia.
Qed.

Lemma total_tests_by_status (db : DB) :
  total_tests (dashboard_stats db)
  = (passed_tests (dashboard_stats db) + failed_tests (dashboard_stats db)
     + pending_tests (dashboard_stats db) + escalated_tests (dashboard_stats db))%nat.
Proof. unfold dashboard_stats, count_tests. simpl. apply count_by_status. Qed.

(** X13. The counters of the dashboard add up: every test case is counted
    in exactly one of passed, failed, pending and escalated, so their sum is
    [total_tests]; and [open_bugs] is at most [total_bugs]. *)
Theorem dashboard_stats_add_up (db : DB) :
  total_tests (dashboard_stats db)
  = (passed_tests (dashboard_stats db) + failed_tests (dashboard_stats db)
     + pending_tests (dashboard_stats db) + escalated_tests (dashboard_stats db))%nat
  ∧ (open_bugs (dashboard_stats db) ≤ total_bugs (dashboard_stats db))%nat.
Proof.
  split; [apply total_tests_by_status|].
  unfold dashboard_stats, count_bugs. simpl. apply length_filter.
Qed.

Lemma count_tests_insert st id t t' db :
  test_cases db !! id = Some t →
  (count_tests st (with_test_cases (insert id t') db)
   + (if decide (tc_status t = st) then 1 else 0)
   = count_tests st db + (if decide (tc_status t' = st) then 1 else 0))%nat.
Proof.
  intros Ht. unfold count_tests, with_test_cases. simpl.
  rewrite <- (map_to_list_delete _ _ _ Ht).
  rewrite <- insert_delete_eq.
  rewrite (map_to_list_insert (delete id (test_cases db)) id t')
    by apply lookup_delete_eq.
  rewrite !filter_cons. simpl. repeat case_decide; simpl; lia.
Qed.

(** X14. Recording a result moves one test case between the counters of
    the dashboard.  After a successful [updateTestResult] the total is
    unchanged, and for every status the counter grows by one if the test
    case entered that status and shrinks by one if it left it: a pending
    test recorded as fail takes one from [pending_tests] and adds one to
    [failed_tests]. *)
Theorem result_moves_one_count ρ user id body db r db' :
  updateTestResult ρ user id body db = (r, db') →
  success r = true →
  ∃ t t',
    test_cases db !! id = Some t
    ∧ test_cases db' !! id = Some t'
    ∧ total_tests (dashboard_stats db') = total_tests (dashboard_stats db)
    ∧ ∀ st, (count_tests st db' + (if decide (tc_status t = st) then 1 else 0)
             = count_tests st db + (if decide (tc_status t' = st) then 1 else 0))%nat.
Proof.
  unfold updateTestResult. intros H Hs.
  destruct (single _ _) as [existing|] eqn:He; [|by simplify_eq/=].
  apply single_Some in He as [_ He].
  case_bool_decide as Ha; simpl in H; [|by simplify_eq/=].
  destruct (update_test_case _ _ _ _) as [[t' db1]|] eqn:Hu; [|by simplify_eq/=].
  apply update_test_case_inv in Hu as (t & st0 & _ & Ht & _ & Ht' & ->).
  rewrite He in Ht. injection Ht as <-. injection H as <- <-.
  exists existing, t'. split; [done|]. split; [by simpl; rewrite lookup_insert_eq|].
  assert (Hcount := λ st, count_tests_insert st id existing t' db He).
  split; [|exact Hcount].
  pose proof (total_tests_by_status db) as E.
  pose proof (total_tests_by_status (with_test_cases (insert id t') db)) as E'.
  rewrite E, E'. unfold dashboard_stats. simpl.
  pose proof (Hcount pass). pose proof (Hcount fail).
  pose proof (Hcount pending). pose proof (Hcount escalated).
  destruct (tc_status existing), (tc_status t'); repeat case_decide; try done; lia.
Qed.

Lemma result_moves_one_count_witness :
  total_tests (dashboard_stats
                 (updateTestResult Sample.env0 Sample.as_mike "t-0"
                    {| rb_status := Some "fail"; rb_evidence_url := None;
                       rb_notes := None |} Sample.db0).2)
  = total_tests (dashboard_stats Sample.db0).
Proof.
  destruct (result_moves_one_count Sample.env0 Sample.as_mike "t-0"
              {| rb_status := Some "fail"; rb_evidence_url := None; rb_notes := None |}
              Sample.db0
              (updateTestResult Sample.env0 Sample.as_mike "t-0"
                 {| rb_status := Some "fail"; rb_evidence_url := None;
                    rb_notes := None |} Sample.db0).1
              (updateTestResult Sample.env0 Sample.as_mike "t-0"
                 {| rb_status := Some "fail"; rb_evidence_url := None;
                    rb_notes := None |} Sample.db0).2
              eq_refl eq_refl) as (t & t' & _ & _ & Htot & _).
  exact Htot.
Defined.

(** In the sample store that request takes the one test case from pending
    to failed. *)
Example result_moves_one_count_sample :
  let db' := (updateTestResult Sample.env0 Sample.as_mike "t-0"
                {| rb_status := Some "fail"; rb_evidence_url := None;
                   rb_notes := None |} Sample.db0).2 in
  (pending_tests (dashboard_stats Sample.db0), failed_tests (dashboard_stats Sample.db0))
  = (1, 0)
  ∧ (pending_tests (dashboard_stats db'), failed_tests (dashboard_stats db')) = (0, 1).
Proof. vm_compute. split; reflexivity. Qed.

(** ** Order of the lists *)

Lemma Sorted_drop {A} (R : relation A) (n : nat) (l : list A) :
  Sorted R l → Sorted R (drop n l).
Proof.
  revert l. induction n as [|n IH]; intros l Hl; [by rewrite drop_0|].
  destruct l as [|x l]; [done|]. simpl. apply IH. by apply Sorted_inv in Hl as [? _].
Qed.

Lemma Sorted_take {A} (R : relation A) (n : nat) (l : list A) :
  Sorted R l → Sorted R (take n l).
Proof.
  revert l. induction n as [|n IH]; intros l Hl; [by rewrite take_0|].
  destruct l as [|x l]; [done|]. simpl.
  apply Sorted_inv in Hl as [Hl Hhd]. constructor; [by apply IH|].
  destruct Hhd as [|y l' Hxy]; [by rewrite take_nil|].
  destruct n; simpl; by constructor.
Qed.

Lemma test_le_total (f : string) : Total (λ a b, Is_true (test_le f a b)).
Proof.
  intros a b. unfold test_le. repeat case_bool_decide.
  - rewrite !Is_true_true, !Z.leb_le. lia.
  - rewrite !Is_true_true, !Nat.leb_le. lia.
  - rewrite !Is_true_true. apply String.leb_total.
  - rewrite !Is_true_true, !Z.leb_le. lia.
Qed.

(** X15. The order of [GET /tests].  The rows of a page follow the order
    the request asks for: ascending in the sort field when [order] is
    [asc], descending otherwise, the sort field being [created_at] when the
    request names none or one outside the list of the handler.  By default
    the newest test case comes first. *)
Theorem getTests_sorted `{Postgres} ρ user q db l :
  data (getTests ρ user q db) = Some l →
  (default "desc" (q_order q) = "asc" →
     Sorted (λ a b, Is_true (test_le (default "created_at" (q_sort q)) a b)) (tests l))
  ∧ (default "desc" (q_order q) ≠ "asc" →
       Sorted (λ a b, Is_true (test_le (default "created_at" (q_sort q)) b a)) (tests l))
  ∧ (q_sort q = None → q_order q = None →
       Sorted (λ a b, (tc_created_at b.2 ≤ tc_created_at a.2)%Z) (tests l)).
Proof.
  unfold getTests. destruct (findError ρ); [done|]. simpl. intros [= <-]. simpl.
  assert (Hasc : default "desc" (q_order q) = "asc" →
    Sorted (λ a b, Is_true (test_le (default "created_at" (q_sort q)) a b))
      (tests_query user q db)).
  { intros Ho. unfold tests_query, order_tests. rewrite (bool_decide_eq_true_2 _ Ho).
    apply Sorted_merge_sort, test_le_total. }
  assert (Hdesc : default "desc" (q_order q) ≠ "asc" →
    Sorted (λ a b, Is_true (test_le (default "created_at" (q_sort q)) b a))
      (tests_query user q db)).
  { intros Ho. unfold tests_query, order_tests. rewrite (bool_decide_eq_false_2 _ Ho).
    apply Sorted_merge_sort. intros a b.
    destruct (test_le_total (default "created_at" (q_sort q)) a b); auto. }
  split; [|split].
  - intros Ho. by apply Sorted_take, Sorted_drop, Hasc.
  - intros Ho. by apply Sorted_take, Sorted_drop, Hdesc.
  - intros Hs Ho. apply Sorted_take, Sorted_drop.
    rewrite Hs, Ho in Hdesc. simpl in Hdesc.
    assert (Hd : Sorted (λ a b, Is_true (test_le "created_at" b a))
                   (tests_query user q db)) by (by apply Hdesc).
    apply (Sorted_fmap id) with (R2 := λ a b, (tc_created_at b.2 ≤ tc_created_at a.2)%Z)
      in Hd; [by rewrite list_fmap_id in Hd|].
    intros a b. unfold test_le. simpl. rewrite Is_true_true. apply Z.leb_le.
Qed.

Lemma getTests_sorted_witness :
  ∃ l, data (@getTests Sample.no_ilike Sample.env0 Sample.as_pat Sample.no_query
               Fixture.db_tests) = Some l
       ∧ length (tests l) = 4%nat
       ∧ Sorted (λ a b, (tc_created_at b.2 ≤ tc_created_at a.2)%Z) (tests l).
Proof.
  eexists. split; [reflexivity|]. split; [reflexivity|].
  by apply (@getTests_sorted Sample.no_ilike Sample.env0 Sample.as_pat Sample.no_query
              Fixture.db_tests _ eq_refl).
Defined.

(** Four test cases, created at 80, 70, 60 and 50: the newest first by
    default, the oldest first on [order=asc], and by status (in the order of
    the enum: pending, pass, fail, escalated) on [sort=status]. *)
Example getTests_sorted_sample :
  (fst <$> default []
     (tests <$> data (@getTests Sample.no_ilike Sample.env0 Sample.as_pat Sample.no_query
                        Fixture.db_tests)))
  = ["t-5"; "t-3"; "t-4"; "t-0"]
  ∧ (fst <$> default []
       (tests <$> data (@getTests Sample.no_ilike Sample.env0 Sample.as_pat
                          {| q_page := None; q_limit := None; q_status := None;
                             q_module_platform := None; q_search := None;
                             q_sort := None; q_order := Some "asc" |}
                          Fixture.db_tests)))
    = ["t-0"; "t-4"; "t-3"; "t-5"]
  ∧ (fst <$> default []
       (tests <$> data (@getTests Sample.no_ilike Sample.env0 Sample.as_pat
                          {| q_page := None; q_limit := None; q_status := None;
                             q_module_platform := None; q_search := None;
                             q_sort := Some "status"; q_order := Some "asc" |}
                          Fixture.db_tests)))
    = ["t-0"; "t-3"; "t-5"; "t-4"].
Proof. vm_compute. done. Qed.

(** ** Users *)

(** X16. The assignment list.  [GET /users/qa-testers] lists exactly the
    users of the store that have the role QA and are verified, each of them
    once, by ascending name. *)
Theorem getQATesters_lists_verified_QA ρ db l :
  data (getQATesters ρ db) = Some l →
  (∀ x, x ∈ l ↔ ∃ u, users db !! qt_id x = Some u
                     ∧ role u = QA ∧ is_verified u = true
                     ∧ qt_email x = email u ∧ qt_name x = name u)
  ∧ NoDup (qt_id <$> l)
  ∧ Sorted (λ a b, Is_true (String.leb (qt_name a) (qt_name b))) l.
Proof.
  unfold getQATesters. destruct (findError ρ); [done|]. simpl. intros [= <-].
  set (P := λ kv : string * users_row, role kv.2 = QA ∧ is_verified kv.2 = true).
  set (R := λ a b : string * users_row, Is_true (String.leb (name a.2) (name b.2))).
  assert (Hmem : ∀ kv, kv ∈ merge_sort R (filter P (map_to_list (users db)))
                       ↔ users db !! kv.1 = Some kv.2 ∧ P kv).
  { intros [k u]. rewrite merge_sort_Permutation, list_elem_of_filter, elem_of_map_to_list.
    tauto. }
  split; [|split].
  - intros x. rewrite list_elem_of_fmap. split.
    + intros ([k u] & -> & Hin). apply Hmem in Hin as [Hk [Hr Hv]]. by exists u.
    + intros (u & Hk & Hr & Hv & He & Hn). exists (qt_id x, u). split.
      * destruct x. simpl in *. by subst.
      * apply Hmem. done.
  - rewrite <- list_fmap_compose.
    change (qt_id ∘ QATester_of) with (@fst string users_row).
    rewrite merge_sort_Permutation.
    apply NoDup_fmap_fst.
    + intros k u1 u2 H1 H2.
      apply list_elem_of_filter in H1 as [_ H1]. apply list_elem_of_filter in H2 as [_ H2].
      apply elem_of_map_to_list in H1, H2. congruence.
    + apply NoDup_filter, NoDup_map_to_list.
  - apply (Sorted_fmap QATester_of R); [done|].
    apply Sorted_merge_sort. intros a b. unfold R. rewrite !Is_true_true.
    apply String.leb_total.
Qed.

Lemma getQATesters_lists_verified_QA_witness :
  ∃ l, data (getQATesters Sample.env0 Sample.db0) = Some l
       ∧ {| qt_id := "u-mike"; qt_email := "qa@qualitysync.com"; qt_name := "Mike" |} ∈ l.
Proof.
  eexists. split; [reflexivity|].
  apply (getQATesters_lists_verified_QA Sample.env0 Sample.db0 _ eq_refl).
  exists Sample.mike. repeat split; reflexivity.
Defined.

(** Lisa is a QA user but not verified: she is not on the list, although
    the creation of a test case accepts her as assignee. *)
Example getQATesters_sample :
  data (getQATesters Sample.env0 Sample.db0)
  = Some [ {| qt_id := "u-mike"; qt_email := "qa@qualitysync.com"; qt_name := "Mike" |} ].
Proof. vm_compute. reflexivity. Qed.

(** X17. What [PUT /users/:id] changes.  An update that answers 200 has
    rewritten the row of that user and nothing else; of the row, only the
    name (when the body carries one that is not empty) and the role (when
    the body carries one of PM, QA, ENG) are new; the email, the
    verification flag and the reset token stay.  Any other text for the role
    is dropped without an error.  An update that does not answer 200 leaves
    the store as it was. *)
Theorem updateUser_preserves ρ user id body db r db' :
  updateUser ρ user id body db = (r, db') →
  (statusCode r = 200 →
     ∃ u u', users db !! id = Some u
       ∧ db' = with_users (insert id u') db
       ∧ data r = Some (id, u')
       ∧ email u' = email u
       ∧ is_verified u' = is_verified u
       ∧ reset_password_token u' = reset_password_token u
       ∧ reset_password_expires u' = reset_password_expires u
       ∧ name u' = (if truthy (uu_name body) then default "" (uu_name body) else name u)
       ∧ (∀ s, uu_role body = Some s → s ∉ ["PM"; "QA"; "ENG"] → role u' = role u)
       ∧ (uu_role body = None → role u' = role u)
       ∧ (∀ ro, uu_role body = Some (role_name ro) → role u' = ro))
  ∧ (statusCode r ≠ 200 → db' = db).
Proof.
  unfold updateUser. intros Hrun.
  destruct (single (findError ρ) (users db !! id)) as [u|] eqn:Hu;
    [|by simplify_eq/=].
  apply single_Some in Hu as [_ Hu].
  destruct (updateError ρ); [by simplify_eq/=|].
  simplify_eq/=. split; [intros _|done].
  exists u, (apply_user_update body u). repeat split; try done.
  - simpl. unfold if_truthy.
    destruct (truthy (uu_name body)) eqn:Ht; [|done].
    by destruct (uu_name body).
  - intros s Hb Hs. simpl. rewrite Hb. unfold UserRole_of_string. simpl.
    rewrite !elem_of_cons in Hs.
    repeat case_bool_decide; simpl; try done; subst; exfalso; apply Hs; auto.
  - intros Hb. simpl. by rewrite Hb.
  - intros ro Hb. simpl. rewrite Hb. by destruct ro.
Qed.

Lemma updateUser_preserves_witness :
  ∃ u', users (updateUser Sample.env0 Sample.as_pat "u-erin"
                 {| uu_name := Some "Erin B."; uu_role := Some "root" |} Sample.db0).2
        !! "u-erin" = Some u'
        ∧ email u' = "eng@qualitysync.com" ∧ role u' = ENG ∧ name u' = "Erin B.".
Proof.
  destruct (updateUser_preserves Sample.env0 Sample.as_pat "u-erin"
              {| uu_name := Some "Erin B."; uu_role := Some "root" |} Sample.db0 _ _ eq_refl)
    as [H _].
  destruct (H eq_refl) as (u & u' & Hu & Hdb & _ & He & _ & _ & _ & Hn & Hr & _).
  exists u'. vm_compute in Hu. injection Hu as <-.
  split; [|split; [exact He|split; [|exact Hn]]].
  - vm_compute in Hdb. vm_compute. by injection Hdb as <-.
  - apply (Hr "root" eq_refl). vm_compute. intros Hin.
    repeat (apply elem_of_cons in Hin as [Hin|Hin]; [discriminate|]).
    by apply elem_of_nil in Hin.
Defined.

Lemma Exists_map_to_list_false `{Countable K} {A} (P : K * A → Prop)
    `{∀ x, Decision (P x)} (m : gmap K A) :
  bool_decide (Exists P (map_to_list m)) = false → ∀ k x, m !! k = Some x → ¬ P (k, x).
Proof.
  intros Hf k x Hk HP. apply bool_decide_eq_false in Hf. apply Hf.
  apply Exists_exists. exists (k, x). split; [|done]. by apply elem_of_map_to_list.
Qed.

Lemma Exists_map_to_list_false_2 `{Countable K} {A} (P : K * A → Prop)
    `{∀ x, Decision (P x)} (m : gmap K A) :
  (∀ k x, m !! k = Some x → ¬ P (k, x)) → bool_decide (Exists P (map_to_list m)) = false.
Proof.
  intros Hm. apply bool_decide_eq_false. intros Hex.
  apply Exists_exists in Hex as ([k x] & Hin & HP).
  apply elem_of_map_to_list in Hin. by apply (Hm k x).
Qed.

(** X18. The deletion of a user.  A call whose id is, as a text, the id of
    the caller is answered 400 and writes nothing.  The guard compares
    texts, the store compares [uuid]s: the id of the caller written in
    another case passes the guard, and when no test case and no bug refers
    to the caller the call answers 200 and the caller's own account is gone.
    A deletion that answers 200 has removed the user the store finds under
    the id and nothing else, and no test case (as assignee or creator) and
    no bug (as creator) of the store refers to that user.  A deletion that
    does not answer 200 leaves the store as it was. *)
Theorem deleteUser_unreferenced ρ selectError deleteError user id db r db' :
  deleteUser ρ selectError deleteError user id db = (r, db') →
  (id = user_id user → statusCode r = 400 ∧ db' = db)
  ∧ (statusCode r = 200 →
       id ≠ user_id user
       ∧ is_Some (users db !! as_uuid id)
       ∧ db' = with_users (delete (as_uuid id)) db
       ∧ (∀ k t, test_cases db !! k = Some t →
            tc_assigned_to t ≠ as_uuid id ∧ tc_created_by t ≠ as_uuid id)
       ∧ (∀ k b, unlisted_bugs db !! k = Some b → bug_created_by b ≠ as_uuid id))
  ∧ (statusCode r ≠ 200 → db' = db)
  ∧ (id ≠ user_id user → as_uuid id = user_id user →
     findError ρ = false → deleteError = false →
     is_Some (users db !! user_id user) →
     (∀ k t, test_cases db !! k = Some t →
        tc_assigned_to t ≠ user_id user ∧ tc_created_by t ≠ user_id user) →
     (∀ k b, unlisted_bugs db !! k = Some b → bug_created_by b ≠ user_id user) →
     statusCode r = 200 ∧ users db' !! user_id user = None).
Proof.
  unfold deleteUser. intros Hrun.
  case_bool_decide as Hself; [by simplify_eq/=|].
  split; [done|].
  assert (Hown : id ≠ user_id user → as_uuid id = user_id user →
     findError ρ = false → deleteError = false →
     is_Some (users db !! user_id user) →
     (∀ k t, test_cases db !! k = Some t →
        tc_assigned_to t ≠ user_id user ∧ tc_created_by t ≠ user_id user) →
     (∀ k b, unlisted_bugs db !! k = Some b → bug_created_by b ≠ user_id user) →
     statusCode r = 200 ∧ users db' !! user_id user = None).
  { intros _ Hid Hf Hd [u Hu] Hts Hbs. rewrite Hid, Hf, Hd in Hrun. simpl in Hrun.
    rewrite Hu in Hrun.
    rewrite (Exists_map_to_list_false_2 (λ kv : string * test_cases_row,
               tc_assigned_to kv.2 = user_id user)) in Hrun
      by (intros k t Hk; simpl; by destruct (Hts k t Hk)).
    rewrite andb_false_r in Hrun. unfold delete_user, user_referenced in Hrun.
    rewrite (Exists_map_to_list_false_2 (λ kv : string * test_cases_row,
               tc_assigned_to kv.2 = user_id user ∨ tc_created_by kv.2 = user_id user))
      in Hrun by (intros k t Hk; simpl; destruct (Hts k t Hk); tauto).
    rewrite (Exists_map_to_list_false_2 (λ kv : string * unlisted_bugs_row,
               bug_created_by kv.2 = user_id user)) in Hrun
      by (intros k b Hk; simpl; by apply (Hbs k b)).
    simpl in Hrun. injection Hrun as <- <-. simpl. split; [done|].
    apply lookup_delete_eq. }
  destruct (single (findError ρ) (users db !! as_uuid id)) as [u|] eqn:Hu;
    [|by simplify_eq/=].
  apply single_Some in Hu as [_ Hu].
  destruct (negb selectError && _); [by simplify_eq/=|].
  unfold delete_user in Hrun.
  destruct (deleteError || user_referenced (as_uuid id) db) eqn:Href; [by simplify_eq/=|].
  apply orb_false_iff in Href as [_ Href]. unfold user_referenced in Href.
  apply orb_false_iff in Href as [Ht Hb].
  injection Hrun as <- <-. split; [intros _|split; [done|exact Hown]].
  split; [done|]. split; [by rewrite Hu|]. split; [done|]. split.
  - intros k t Hk.
    pose proof (Exists_map_to_list_false _ _ Ht k t Hk) as Hn. simpl in Hn. tauto.
  - intros k b Hk.
    exact (Exists_map_to_list_false _ _ Hb k b Hk).
Qed.

Lemma deleteUser_unreferenced_witness :
  statusCode (deleteUser Sample.env0 false false Fixture.as_pia
                "7C9E6679-7425-40DE-944B-E07FC1F90AE7" Fixture.db_pia).1 = 200
  ∧ users (deleteUser Sample.env0 false false Fixture.as_pia
             "7C9E6679-7425-40DE-944B-E07FC1F90AE7" Fixture.db_pia).2
      !! "7c9e6679-7425-40de-944b-e07fc1f90ae7" = None.
Proof.
  destruct (deleteUser_unreferenced Sample.env0 false false Fixture.as_pia
              "7C9E6679-7425-40DE-944B-E07FC1F90AE7" Fixture.db_pia _ _ eq_refl)
    as (_ & _ & _ & H).
  apply H.
  - discriminate.
  - reflexivity.
  - reflexivity.
  - reflexivity.
  - by eexists.
  - intros k t Hk. simpl in Hk.
    apply lookup_insert_Some in Hk as [[_ <-]|[_ Hk]]; [|by rewrite lookup_empty in Hk].
    split; discriminate.
  - intros k b Hk. simpl in Hk.
    apply lookup_insert_Some in Hk as [[_ <-]|[_ Hk]]; [discriminate|].
    apply lookup_insert_Some in Hk as [[_ <-]|[_ Hk]]; [discriminate|].
    by rewrite lookup_empty in Hk.
Defined.

(** The same call with the id as the store holds it, in lower case, is
    refused; Mike has a test case assigned and cannot be deleted; Lisa,
    whom no row refers to, can. *)
Example deleteUser_sample :
  statusCode (deleteUser Sample.env0 false false Fixture.as_pia
                "7c9e6679-7425-40de-944b-e07fc1f90ae7" Fixture.db_pia).1 = 400
  ∧ statusCode (deleteUser Sample.env0 false false Sample.as_pat "u-mike" Sample.db0).1 = 400
  ∧ (deleteUser Sample.env0 false false Sample.as_pat "u-lisa" Sample.db0).2
    = with_users (delete "u-lisa") Sample.db0.
Proof. repeat split; vm_compute; reflexivity. Qed.

(** ** Referential integrity is an invariant *)

Lemma refs_ok_test_cases_insert db k row :
  refs_ok db →
  is_Some (users db !! tc_assigned_to row) →
  is_Some (users db !! tc_created_by row) →
  (∀ b, tc_source_bug_id row = Some b → is_Some (unlisted_bugs db !! b)) →
  refs_ok (with_test_cases (insert k row) db).
Proof.
  intros [Ht Hb] Ha Hc Hs. split; simpl.
  - intros k' t. destruct (decide (k' = k)) as [Hk|Hk].
    + subst k'. rewrite lookup_insert_eq. intros [= <-]. done.
    + rewrite lookup_insert_ne by done. apply Ht.
  - intros k' b Hk'. destruct (Hb k' b Hk') as [Hu Hcv]. split; [done|].
    intros t Hcvt. destruct (decide (t = k)) as [Hk|Hk].
    + subst t. by rewrite lookup_insert_eq.
    + rewrite lookup_insert_ne by done. by apply Hcv.
Qed.

Lemma refs_ok_unlisted_bugs_insert db k row :
  refs_ok db →
  is_Some (users db !! bug_created_by row) →
  (∀ t, bug_converted_to_test_id row = Some t → is_Some (test_cases db !! t)) →
  refs_ok (with_unlisted_bugs (insert k row) db).
Proof.
  intros [Ht Hb] Hc Hcv. split; simpl.
  - intros k' t Hk'. destruct (Ht k' t Hk') as (Ha & Hcr & Hs).
    split; [done|]. split; [done|].
    intros b Hsb. destruct (decide (b = k)) as [Hk|Hk].
    + subst b. by rewrite lookup_insert_eq.
    + rewrite lookup_insert_ne by done. by apply Hs.
  - intros k' b. destruct (decide (k' = k)) as [Hk|Hk].
    + subst k'. rewrite lookup_insert_eq. intros [= <-]. done.
    + rewrite lookup_insert_ne by done. apply Hb.
Qed.

(** A change of [users] that keeps every user the rows refer to. *)
Lemma refs_ok_users db (f : gmap string users_row → gmap string users_row) :
  refs_ok db →
  (∀ k t, test_cases db !! k = Some t →
     is_Some (f (users db) !! tc_assigned_to t) ∧ is_Some (f (users db) !! tc_created_by t)) →
  (∀ k b, unlisted_bugs db !! k = Some b → is_Some (f (users db) !! bug_created_by b)) →
  refs_ok (with_users f db).
Proof.
  intros [Ht Hb] Hft Hfb. split; simpl.
  - intros k t Hk. destruct (Ht k t Hk) as (_ & _ & Hs), (Hft k t Hk). done.
  - intros k b Hk. destruct (Hb k b Hk) as (_ & Hcv). split; [by eapply Hfb|done].
Qed.

Lemma refs_ok_users_grow db (f : gmap string users_row → gmap string users_row) :
  refs_ok db →
  (∀ k, is_Some (users db !! k) → is_Some (f (users db) !! k)) →
  refs_ok (with_users f db).
Proof.
  intros Hok Hf. pose proof Hok as [Ht Hb]. apply refs_ok_users; [done|..].
  - intros k t Hk. destruct (Ht k t Hk) as (? & ? & _). split; by apply Hf.
  - intros k b Hk. destruct (Hb k b Hk) as (? & _). by apply Hf.
Qed.

Lemma insert_test_case_Some ρ v db k row db' :
  insert_test_case ρ v db = Some (k, row, db') →
  ins_assigned_to v = Some (tc_assigned_to row)
  ∧ ins_created_by v = Some (tc_created_by row)
  ∧ tc_source_bug_id row = ins_source_bug_id v
  ∧ test_cases db !! k = None
  ∧ db' = with_test_cases (insert k row) db.
Proof.
  unfold insert_test_case. intros. handler_cases. done.
Qed.

Lemma createTest_refs_ok ρ user body db :
  refs_ok db → is_Some (users db !! user_id user) →
  refs_ok (createTest ρ user body db).2.
Proof.
  intros Hok Hactor. unfold createTest.
  destruct (single _ _) as [assignee|] eqn:Ha; [|done].
  apply single_Some in Ha as [_ Ha].
  destruct (negb _); [done|].
  destruct (insert_test_case _ _ _) as [[[k row] db1]|] eqn:Hins; [|done].
  apply insert_test_case_Some in Hins as (Hia & Hic & Hsb & _ & ->). simpl in *.
  apply refs_ok_test_cases_insert; [done|..].
  - rewrite Hia in Ha. simpl in Ha. by rewrite Ha.
  - by injection Hic as <-.
  - rewrite Hsb. done.
Qed.

Lemma update_test_case_refs_ok ρ id u db t' db' :
  refs_ok db →
  (∀ a, upd_assigned_to u = Some a → is_Some (users db !! a)) →
  update_test_case ρ id u db = Some (t', db') →
  refs_ok db'.
Proof.
  intros Hok Hu Hupd.
  apply update_test_case_Some in Hupd as (t & st & Ht & -> & ->).
  destruct Hok as [Hts Hbs]. destruct (Hts id t Ht) as (Ha & Hc & Hs).
  apply refs_ok_test_cases_insert; [done|..]; simpl; try done.
  destruct (upd_assigned_to u) as [a|]; simpl; [by apply Hu|done].
Qed.

Lemma updateTestResult_refs_ok ρ user id body db :
  refs_ok db → refs_ok (updateTestResult ρ user id body db).2.
Proof.
  intros Hok. unfold updateTestResult.
  destruct (single _ _) as [existing|]; [|done]. destruct (negb _); [done|].
  destruct (update_test_case _ _ _ _) as [[t' db1]|] eqn:Hupd; [|done].
  eapply update_test_case_refs_ok; [done| |done]. done.
Qed.

Lemma updateTest_refs_ok ρ user id body db :
  refs_ok db → refs_ok (updateTest ρ user id body db).2.
Proof.
  intros Hok. unfold updateTest.
  destruct (single _ _) as [existing|]; [|done].
  destruct (_ && _).
  - destruct (single _ _) as [assignee|] eqn:Ha; [|done].
    apply single_Some in Ha as [_ Ha].
    destruct (negb _); [done|].
    destruct (update_test_case _ _ _ _) as [[t' db1]|] eqn:Hupd; [|done].
    eapply update_test_case_refs_ok; [done| |done]. simpl.
    intros a Hb. rewrite Hb in Ha. simpl in Ha. by rewrite Ha.
  - destruct (update_test_case _ _ _ _) as [[t' db1]|] eqn:Hupd; [|done].
    eapply update_test_case_refs_ok; [done| |done]. done.
Qed.

Lemma deleteTest_refs_ok ρ deleteError user id db :
  refs_ok db → refs_ok (deleteTest ρ deleteError user id db).2.
Proof.
  intros Hok. unfold deleteTest, delete_test_case.
  destruct (single _ _) as [existing|]; [|done]. destruct deleteError; [done|]. simpl.
  destruct Hok as [Ht Hb]. split; simpl.
  - intros k t Hk. apply lookup_delete_Some in Hk as [_ Hk].
    destruct (Ht k t Hk) as (? & ? & Hs). split; [done|]. split; [done|].
    intros b Hsb. rewrite lookup_fmap. destruct (Hs b Hsb) as [x ->]. by eexists.
  - intros k b'. rewrite lookup_fmap.
    destruct (unlisted_bugs db !! k) as [b|] eqn:Hk; [|done]. simpl. intros [= <-].
    destruct (Hb k b Hk) as [Hu Hcv]. unfold clear_converted_to_test_id.
    case_bool_decide as Hc; simpl; [done|]. split; [done|].
    intros i Hi. rewrite lookup_delete_ne by congruence. by apply Hcv.
Qed.

Lemma createBug_refs_ok ρ user body db :
  refs_ok db → is_Some (users db !! user_id user) →
  refs_ok (createBug ρ user body db).2.
Proof.
  intros Hok Hactor. unfold createBug, insert_bug.
  handler_cases; try done.
  by apply refs_ok_unlisted_bugs_insert.
Qed.

Lemma updateBug_refs_ok ρ user id body db :
  refs_ok db → refs_ok (updateBug ρ user id body db).2.
Proof.
  intros Hok. unfold updateBug.
  destruct (single _ _) as [existing|]; [|done].
  destruct (_ && _); [done|]. destruct (_ && _); [done|].
  destruct (update_bug _ _ _ _) as [[b' db1]|] eqn:Hupd; [|done].
  apply update_bug_Some in Hupd as (b & sev & st & Hb & _ & -> & ->). simpl.
  destruct (proj2 Hok id b Hb) as [Hu Hcv].
  by apply refs_ok_unlisted_bugs_insert.
Qed.

Lemma convertToTest_refs_ok ρ user id body db :
  refs_ok db → is_Some (users db !! user_id user) →
  refs_ok (convertToTest ρ user id body db).2.
Proof.
  intros Hok Hactor. unfold convertToTest.
  destruct (single _ _) as [bug|] eqn:Hbug; [|done].
  apply single_Some in Hbug as [_ Hbug].
  case_bool_decide; [done|].
  destruct (single _ _) as [assignee|] eqn:Ha; [|done].
  apply single_Some in Ha as [_ Ha].
  destruct (negb _); [done|].
  destruct (insert_test_case _ _ _) as [[[k row] db1]|] eqn:Hins; [|done].
  apply insert_test_case_Some in Hins as (Hia & Hic & Hsb & _ & ->). simpl in *.
  assert (Hok1 : refs_ok (with_test_cases (insert k row) db)).
  { apply refs_ok_test_cases_insert; [done|..].
    - rewrite Hia in Ha. simpl in Ha. by rewrite Ha.
    - by injection Hic as <-.
    - rewrite Hsb. intros b [= <-]. by rewrite Hbug. }
  destruct (updateError ρ); [done|].
  assert (Halt : with_unlisted_bugs (alter (mark_converted k (now ρ)) id)
                   (with_test_cases (insert k row) db)
                 = with_unlisted_bugs (insert id (mark_converted k (now ρ) bug))
                     (with_test_cases (insert k row) db)).
  { unfold with_unlisted_bugs. simpl. f_equal.
    apply map_eq. intros i. destruct (decide (i = id)) as [Hi|Hi].
    - subst i. by rewrite lookup_alter_eq, lookup_insert_eq, Hbug.
    - by rewrite lookup_alter_ne, lookup_insert_ne. }
  rewrite Halt. apply refs_ok_unlisted_bugs_insert; [done|..]; simpl.
  - by destruct (proj2 Hok id bug Hbug).
  - intros t [= <-]. by rewrite lookup_insert_eq.
Qed.

Lemma deleteBug_refs_ok ρ deleteError user id db :
  refs_ok db → refs_ok (deleteBug ρ deleteError user id db).2.
Proof.
  intros Hok. unfold deleteBug.
  destruct (single _ _) as [bug|]; [|done].
  set (db1 := if _ && _ then _ else db).
  assert (Hok1 : refs_ok db1).
  { unfold db1. destruct (_ && _); [|done].
    destruct Hok as [Ht Hb]. split; simpl.
    - intros k t'.
      destruct (decide (k = default "" (bug_converted_to_test_id bug))) as [Hk|Hk].
      + subst k. rewrite lookup_alter_eq.
        destruct (test_cases db !! _) as [t|] eqn:Hk; [|done]. simpl. intros [= <-].
        destruct (Ht _ t Hk) as (? & ? & _). done.
      + rewrite lookup_alter_ne by done. apply Ht.
    - intros k b Hk. destruct (Hb k b Hk) as [Hu Hcv]. split; [done|].
      intros t Ht'. apply lookup_alter_is_Some. by apply Hcv. }
  clearbody db1. unfold delete_bug. destruct deleteError; [done|]. simpl.
  destruct Hok1 as [Ht Hb]. split; simpl.
  - intros k t'. rewrite lookup_fmap.
    destruct (test_cases db1 !! k) as [t|] eqn:Hk; [|done]. simpl. intros [= <-].
    destruct (Ht k t Hk) as (Ha & Hc & Hs). unfold clear_source_bug_id.
    case_bool_decide as Hsb; simpl; [done|]. split; [done|]. split; [done|].
    intros b Hb'. rewrite lookup_delete_ne by congruence. by apply Hs.
  - intros k b Hk. apply lookup_delete_Some in Hk as [_ Hk].
    destruct (Hb k b Hk) as [Hu Hcv]. split; [done|].
    intros t Ht'. rewrite lookup_fmap. destruct (Hcv t Ht') as [x ->]. by eexists.
Qed.

Lemma updateUser_refs_ok ρ user id body db :
  refs_ok db → refs_ok (updateUser ρ user id body db).2.
Proof.
  intros Hok. unfold updateUser.
  destruct (single _ _) as [existing|]; [|done]. destruct (updateError ρ); [done|]. simpl.
  apply refs_ok_users_grow; [done|]. intros k Hk.
  destruct (decide (k = id)) as [Hi|Hi].
  - subst k. by rewrite lookup_insert_eq.
  - by rewrite lookup_insert_ne.
Qed.

Lemma deleteUser_refs_ok ρ selectError deleteError user id db :
  refs_ok db → refs_ok (deleteUser ρ selectError deleteError user id db).2.
Proof.
  intros Hok. unfold deleteUser.
  case_bool_decide; [done|].
  destruct (single _ _) as [existing|]; [|done]. destruct (_ && _); [done|].
  unfold delete_user.
  destruct (deleteError || user_referenced (as_uuid id) db) eqn:Href; [done|]. simpl.
  apply orb_false_iff in Href as [_ Href]. unfold user_referenced in Href.
  apply orb_false_iff in Href as [Ht Hb].
  pose proof Hok as [Hts Hbs]. apply refs_ok_users; [done|..].
  - intros k t Hk. destruct (Hts k t Hk) as (Ha & Hc & _).
    pose proof (Exists_map_to_list_false _ _ Ht k t Hk) as Hn. simpl in Hn.
    split; (rewrite lookup_delete_ne; [done|intros Heq; symmetry in Heq; tauto]).
  - intros k b Hk. destruct (Hbs k b Hk) as (Hc & _).
    pose proof (Exists_map_to_list_false _ _ Hb k b Hk) as Hn. simpl in Hn.
    rewrite lookup_delete_ne; [done|]. intros Heq. by symmetry in Heq.
Qed.

Lemma createUser_refs_ok ρ errorMessage user body db :
  refs_ok db → refs_ok (createUser ρ errorMessage user body db).2.
Proof.
  intros Hok. unfold createUser, insert_user.
  handler_cases; try done.
  apply refs_ok_users_grow; [done|]. intros k Hk.
  destruct (decide (k = uuid ρ)) as [Hi|Hi].
  - subst k. by rewrite lookup_insert_eq.
  - by rewrite lookup_insert_ne.
Qed.

Lemma refs_ok_users_alter db (f : users_row → users_row) k :
  refs_ok db → refs_ok (with_users (alter f k) db).
Proof.
  intros Hok. apply refs_ok_users_grow; [done|]. intros i Hi.
  by apply lookup_alter_is_Some.
Qed.

Lemma forgotPassword_refs_ok ρ randomToken email_ db :
  refs_ok db → refs_ok (forgotPassword ρ randomToken email_ db).2.
Proof.
  intros Hok. unfold forgotPassword.
  destruct (single _ _) as [[uid u]|]; [|done].
  assert (refs_ok (if updateError ρ then db
                   else with_users (alter (set_reset_token randomToken
                                             (now ρ + 60 * 60 * 1000)%Z) uid) db)).
  { destruct (updateError ρ); [done|]. by apply refs_ok_users_alter. }
  by destruct (emailError ρ).
Qed.

Lemma resetPassword_refs_ok ρ token db :
  refs_ok db → refs_ok (resetPassword ρ token db).2.
Proof.
  intros Hok. unfold resetPassword.
  destruct (single _ _) as [[uid u]|]; [|done].
  destruct (_ <? _)%Z; [done|]. destruct (updateError ρ); [done|].
  by apply refs_ok_users_alter.
Qed.

Lemma authenticate_store_cases {A} authError userId s
    (next : ReqUser → Response A * Store) :
  (authenticate_store authError userId s next).2 = s
  ∨ ∃ u, users (tables s) !! userId = Some u ∧ is_verified u = true
         ∧ authenticate_store authError userId s next
           = next {| user_id := userId; user_role := role u |}.
Proof.
  unfold authenticate_store.
  destruct (single _ _) as [u|] eqn:Hu; [|by left].
  apply single_Some in Hu as [_ Hu].
  destruct (is_verified u) eqn:Hv; [|by left]. right. by exists u.
Qed.

(** Before a handler that leaves [password_hash] alone, [authenticate] on
    the store is [authenticate] on the tables. *)
Lemma authenticate_store_lift {A} authError userId s (next : ReqUser → Response A * DB) :
  authenticate_store authError userId s (λ user, lift (next user) s)
  = lift (authenticate authError userId (tables s) next) s.
Proof.
  unfold authenticate_store, authenticate, lift.
  destruct (single _ _) as [u|]; [destruct (negb _)|]; simpl; try done;
    by destruct s.
Qed.

Lemma authorize_cases {A} roles user db (next : Response A * DB) :
  (authorize roles user db next).2 = db
  ∨ (user_role user ∈ roles ∧ authorize roles user db next = next).
Proof.
  unfold authorize. case_bool_decide; [by right|by left].
Qed.

Lemma handleValidation_cases {A} errs db (next : Response A * DB) :
  (handleValidation errs db next).2 = db
  ∨ (errs = [] ∧ handleValidation errs db next = next).
Proof. destruct errs; [by right|by left]. Qed.

Lemma handleValidation_store_cases {A} errs s (next : Response A * Store) :
  (handleValidation_store errs s next).2 = s
  ∨ (errs = [] ∧ handleValidation_store errs s next = next).
Proof. destruct errs; [by right|by left]. Qed.

(** [changePassword] writes the hash of the caller and nothing else. *)
Lemma changePassword_writes `{Argon2} ρ user currentPassword newPassword s :
  tables (changePassword ρ user currentPassword newPassword s).2 = tables s
  ∧ ∀ k, k ≠ user_id user →
         password_hash (changePassword ρ user currentPassword newPassword s).2 k
         = password_hash s k.
Proof.
  unfold changePassword.
  destruct (single _ _); [|done]. destruct (negb _); [done|].
  destruct (updateError ρ); [done|]. simpl. split; [done|].
  intros k Hk. by rewrite fn_lookup_insert_ne.
Qed.

Ltac through_gates :=
  repeat match goal with
  | |- context [authorize ?roles ?user ?db ?next] =>
      destruct (authorize_cases roles user db next) as [->|[_ ->]]; [done|]
  | |- context [handleValidation ?errs ?db ?next] =>
      destruct (handleValidation_cases errs db next) as [->|[_ ->]]; [done|]
  end.

Lemma serve_refs_ok `{ValidatorJs} `{Argon2} ρ φ userId req s :
  refs_ok (tables s) → refs_ok (tables (serve ρ φ userId req s).2).
Proof.
  intros Hok.
  destruct req; simpl;
    (match goal with
     | |- context [authenticate_store ?e ?i ?d ?n] =>
         destruct (authenticate_store_cases e i d n) as [->|(u & Hu & Hv & ->)]; [done|]
     end);
    assert (Hactor : is_Some (users (tables s) !! userId)) by (by rewrite Hu); simpl.
  - unfold post_tests. through_gates. by apply createTest_refs_ok.
  - unfold put_tests_id_result. through_gates. by apply updateTestResult_refs_ok.
  - unfold put_tests_id. through_gates. by apply updateTest_refs_ok.
  - unfold delete_tests_id. through_gates. by apply deleteTest_refs_ok.
  - unfold post_bugs. through_gates. by apply createBug_refs_ok.
  - unfold put_bugs_id. through_gates. by apply updateBug_refs_ok.
  - unfold post_bugs_id_convert. through_gates. by apply convertToTest_refs_ok.
  - unfold delete_bugs_id. through_gates. by apply deleteBug_refs_ok.
  - unfold put_users_id. through_gates. by apply updateUser_refs_ok.
  - unfold delete_users_id. through_gates. by apply deleteUser_refs_ok.
  - unfold put_auth_change_password.
    destruct (handleValidation_store_cases (changePasswordValidation body) s
                (changePassword ρ {| user_id := userId; user_role := role u |}
                   (default "" (cp_currentPassword body))
                   (default "" (cp_newPassword body)) s)) as [->|[_ ->]]; [done|].
    by rewrite (proj1 (changePassword_writes _ _ _ _ _)).
Qed.

Lemma Sample_db0_refs_ok : refs_ok Sample.db0.
Proof.
  split; simpl.
  - intros k t Hk. apply lookup_insert_Some in Hk as [[_ <-]|[_ Hk]];
      [|by rewrite lookup_empty in Hk].
    split; [by eexists|]. split; [by eexists|].
    intros b [= <-]. by eexists.
  - intros k b Hk. apply lookup_insert_Some in Hk as [[_ <-]|[_ Hk]].
    { split; [by eexists|done]. }
    apply lookup_insert_Some in Hk as [[_ <-]|[_ Hk]];
      [|by rewrite lookup_empty in Hk].
    split; [by eexists|]. intros t [= <-]. by eexists.
Qed.

(** X19. Referential integrity.  If every reference of the store resolves
    (the assignee and the creator of each test case and the creator of each
    bug are users, the source bug of a test case and the test case a bug was
    converted to exist), then it does so after any sequence of calls: the
    writing requests behind [authenticate], whoever sends them and whatever
    they carry, the creation of a user, and the calls for a new password;
    with any failure of the store or of the mail in between.  In particular
    the conversion whose status write is lost, and the deletions, leave no
    dangling reference. *)
Theorem refs_ok_invariant `{ValidatorJs} `{Argon2} (events : list Event) (s : Store) :
  refs_ok (tables s) → refs_ok (tables (run events s)).
Proof.
  unfold run. revert s. induction events as [|e events IH]; intros s Hok; [done|].
  simpl. apply IH. destruct e; simpl.
  - by apply serve_refs_ok.
  - by apply createUser_refs_ok.
  - by apply forgotPassword_refs_ok.
  - by apply resetPassword_refs_ok.
Qed.

Lemma refs_ok_invariant_witness :
  refs_ok
    (tables
       (@run Sample.https_validator Fixture.argon2
          [ Authenticated (Sample.env_update_fails "t-1" 1000) Fixture.no_faults
              "u-pat" (POST_bugs_id_convert "b-1" (Sample.convert_body "u-mike"));
            Authenticated Sample.env1 Fixture.no_faults "u-pat" (DELETE_tests_id "t-0");
            Authenticated Sample.env1 Fixture.no_faults "u-pat" (DELETE_users_id "u-lisa") ]
          Fixture.store0)).
Proof.
  apply (@refs_ok_invariant Sample.https_validator Fixture.argon2), Sample_db0_refs_ok.
Defined.

(** The three calls of the witness are carried out: the test case ["t-1"] is
    there, ["t-0"] and Lisa are gone, and the bug ["b-2"] no longer points
    to ["t-0"]. *)
Example refs_ok_invariant_sample :
  let db := tables
       (@run Sample.https_validator Fixture.argon2
          [ Authenticated (Sample.env_update_fails "t-1" 1000) Fixture.no_faults
              "u-pat" (POST_bugs_id_convert "b-1" (Sample.convert_body "u-mike"));
            Authenticated Sample.env1 Fixture.no_faults "u-pat" (DELETE_tests_id "t-0");
            Authenticated Sample.env1 Fixture.no_faults "u-pat" (DELETE_users_id "u-lisa") ]
          Fixture.store0) in
  is_Some (test_cases db !! "t-1") ∧ test_cases db !! "t-0" = None
  ∧ users db !! "u-lisa" = None
  ∧ (bug_converted_to_test_id <$> unlisted_bugs db !! "b-2") = Some None.
Proof. vm_compute. split; [by eexists|done]. Qed.

(** ** Who can write what *)







(** Erin, an ENG user, rewrites the description of a bug of Mike. *)
Example eng_updates_bug :
  let r := @serve Sample.https_validator Fixture.argon2 Sample.env0 Fixture.no_faults
             "u-erin"
             (PUT_bugs_id "b-1"
                {| bb_module_platform := None; bb_jam_link := None;
                   bb_description := Some "Total is stale after a coupon is applied";
                   bb_note := None; bb_severity := None; bb_status := None |})
             Fixture.store0 in
  r.1 = 200
  ∧ (bug_description <$> unlisted_bugs (tables r.2) !! "b-1")
    = Some "Total is stale after a coupon is applied".
Proof. vm_compute. done. Qed.

(** Mike, a QA user, changes his password: the column [password_hash] of
    [users] has a new value in his row, and in his row only; a wrong current
    password is answered 401. *)
Example qa_changes_password :
  let r := @serve Sample.https_validator Fixture.argon2 Sample.env0 Fixture.no_faults
             "u-mike"
             (PUT_auth_change_password
                {| cp_currentPassword := Some "Secret-1";
                   cp_newPassword := Some "Secret-22" |})
             Fixture.store0 in
  r.1 = 200
  ∧ password_hash r.2 "u-mike" = "$argon2id$Secret-22"
  ∧ password_hash r.2 "u-pat" = "$argon2id$Secret-1"
  ∧ (@serve Sample.https_validator Fixture.argon2 Sample.env0 Fixture.no_faults
       "u-mike"
       (PUT_auth_change_password
          {| cp_currentPassword := Some "secret";
             cp_newPassword := Some "Secret-22" |})
       Fixture.store0).1 = 401.
Proof. vm_compute. done. Qed.

(** ** Accounts *)

Lemma UserRole_of_string_Some s ro : UserRole_of_string s = Some ro → s = role_name ro.
Proof.
  unfold UserRole_of_string. repeat case_bool_decide; intros [= <-]; by subst.
Qed.

(** X21. The creation of a user.  A creation that answers 201 has added one
    user and changed nothing else: the new user has the email, name and role
    of the body (a role of PM, QA, ENG), no user of the store had that
    email, and the user is verified at once, so [authenticate] lets their
    token through with that role.  A creation that does not answer 201
    leaves the store as it was.  In both cases, emails that were unique stay
    unique. *)
Theorem createUser_account ρ errorMessage user body db r db' :
  createUser ρ errorMessage user body db = (r, db') →
  (statusCode r = 201 →
     ∃ id row, data r = Some (id, row)
       ∧ users db !! id = None
       ∧ db' = with_users (insert id row) db
       ∧ email row = cu_email body
       ∧ cu_name body = Some (name row)
       ∧ cu_role body = Some (role_name (role row))
       ∧ is_verified row = true
       ∧ (∀ k u, users db !! k = Some u → email u ≠ cu_email body)
       ∧ ∀ A (next : ReqUser → Response A * DB),
           authenticate false id db' next = next {| user_id := id; user_role := role row |})
  ∧ (statusCode r ≠ 201 → db' = db)
  ∧ (emails_unique db → emails_unique db').
Proof.
  unfold createUser. intros Hrun.
  destruct (single _ _) as [existing|]; [by simplify_eq/=|].
  unfold insert_user in Hrun.
  destruct (insertError ρ); [by simplify_eq/=|].
  destruct (cu_name body) as [n|] eqn:Hn; [|by simplify_eq/=].
  destruct (UserRole_of_string _) as [ro|] eqn:Hro; [|by simplify_eq/=].
  apply UserRole_of_string_Some in Hro.
  destruct (bool_decide (Exists _ _)) eqn:Hex; [by simplify_eq/=|].
  pose proof (Exists_map_to_list_false _ _ Hex) as Hfresh. simpl in Hfresh.
  destruct (users db !! uuid ρ) eqn:Hid; [by simplify_eq/=|].
  simplify_eq/=. split; [intros _|split; [done|]].
  - eexists _, _. split; [done|]. split; [done|]. split; [done|]. simpl.
    split; [done|]. split; [done|]. split.
    { destruct (cu_role body) as [s|]; simpl in Hro; [by rewrite Hro|by destruct ro]. }
    split; [done|]. split; [done|].
    intros A next. unfold authenticate. simpl. by rewrite lookup_insert_eq.
  - intros Huniq k1 k2 u1 u2. simpl.
    destruct (decide (k1 = uuid ρ)) as [H1|H1], (decide (k2 = uuid ρ)) as [H2|H2];
      subst; rewrite ?lookup_insert_eq, ?lookup_insert_ne by done.
    + done.
    + intros [= <-] Hk2 He. simpl in He. by destruct (Hfresh k2 u2 Hk2).
    + intros Hk1 [= <-] He. simpl in He. by destruct (Hfresh k1 u1 Hk1).
    + apply Huniq.
Qed.

Lemma createUser_account_witness :
  ∃ id row,
    data (createUser Sample.env0 None Sample.as_pat
            {| cu_email := "nora@qualitysync.com"; cu_name := Some "Nora";
               cu_role := Some "QA" |} Sample.db0).1 = Some (id, row)
    ∧ is_verified row = true.
Proof.
  destruct (createUser_account Sample.env0 None Sample.as_pat
              {| cu_email := "nora@qualitysync.com"; cu_name := Some "Nora";
                 cu_role := Some "QA" |} Sample.db0 _ _ eq_refl) as [H _].
  destruct (H eq_refl) as (id & row & Hd & _ & _ & _ & _ & _ & Hv & _).
  by exists id, row.
Defined.

(** ** The reset of a password *)

Lemma singleton_of_NoDup {A} (l : list A) (a : A) :
  NoDup l → (∀ x, x ∈ l ↔ x = a) → l = [a].
Proof.
  intros Hnd Hl. apply Permutation_singleton_r, NoDup_Permutation.
  - done.
  - apply NoDup_singleton.
  - intros x. rewrite Hl. by rewrite list_elem_of_singleton.
Qed.

Lemma user_by_email_Some e db uid u :
  user_by_email e db = Some (uid, u) → users db !! uid = Some u ∧ email u = e.
Proof.
  unfold user_by_email.
  destruct (filter _ _) as [|x [|y l]] eqn:Hf; intros Heq; simplify_eq/=.
  assert (Hin : (uid, u) ∈ filter (λ kv : string * users_row, email kv.2 = e)
                            (map_to_list (users db))) by (rewrite Hf; left).
  apply list_elem_of_filter in Hin as [He Hin]. by apply elem_of_map_to_list in Hin.
Qed.

Lemma user_by_reset_token_None tok db :
  (∀ k v, users db !! k = Some v → reset_password_token v ≠ Some tok) →
  user_by_reset_token tok db = None.
Proof.
  intros Hfresh. unfold user_by_reset_token.
  destruct (filter _ _) as [|[k v] l] eqn:Hf; [done|]. exfalso.
  assert (Hin : (k, v) ∈ filter (λ kv : string * users_row,
                                   reset_password_token kv.2 = Some tok)
                          (map_to_list (users db))) by (rewrite Hf; left).
  apply list_elem_of_filter in Hin as [He Hin]. apply elem_of_map_to_list in Hin.
  by apply (Hfresh k v).
Qed.

Lemma user_by_reset_token_Some tok db uid v :
  users db !! uid = Some v →
  reset_password_token v = Some tok →
  (∀ k w, k ≠ uid → users db !! k = Some w → reset_password_token w ≠ Some tok) →
  user_by_reset_token tok db = Some (uid, v).
Proof.
  intros Hv Htok Hothers. unfold user_by_reset_token.
  rewrite (singleton_of_NoDup _ (uid, v)); [done|..].
  - apply NoDup_filter, NoDup_map_to_list.
  - intros [k w]. rewrite list_elem_of_filter, elem_of_map_to_list. simpl. split.
    + intros [Hw Hk]. destruct (decide (k = uid)) as [->|Hne]; [congruence|].
      by destruct (Hothers k w Hne Hk).
    + by intros [= -> ->].
Qed.

(** X22. The round trip of a password reset.  A user asks for a reset and
    the store takes the token, a token no user holds yet; the mail may even
    fail.  Then [POST /auth/reset-password] with that token answers 200 as
    long as the hour has not passed, and leaves the user with no token and
    no expiry while email, name, role and verification are as before; the
    token is spent, a second call with it answers 400 and changes nothing.
    Once the hour has passed the call answers 400 and changes nothing. *)
Theorem reset_round_trip ρ1 ρ2 tok e db uid u :
  findError ρ1 = false → updateError ρ1 = false →
  findError ρ2 = false → updateError ρ2 = false →
  user_by_email e db = Some (uid, u) →
  (∀ k v, users db !! k = Some v → reset_password_token v ≠ Some tok) →
  ((now ρ2 ≤ now ρ1 + 3600000)%Z →
     statusCode (resetPassword ρ2 tok (forgotPassword ρ1 tok e db).2).1 = 200
     ∧ users (resetPassword ρ2 tok (forgotPassword ρ1 tok e db).2).2 !! uid
       = Some {| email := email u; name := name u; role := role u;
                 is_verified := is_verified u;
                 reset_password_token := None; reset_password_expires := None |}
     ∧ ∀ ρ3,
         resetPassword ρ3 tok (resetPassword ρ2 tok (forgotPassword ρ1 tok e db).2).2
         = (ApiError 400 "Invalid or expired reset token",
            (resetPassword ρ2 tok (forgotPassword ρ1 tok e db).2).2))
  ∧ ((now ρ1 + 3600000 < now ρ2)%Z →
       resetPassword ρ2 tok (forgotPassword ρ1 tok e db).2
       = (ApiError 400 "Reset token has expired", (forgotPassword ρ1 tok e db).2)).
Proof.
  intros Hf1 Hu1 Hf2 Hu2 Hmail Hfresh.
  pose proof (user_by_email_Some _ _ _ _ Hmail) as [Huid _].
  set (u1 := set_reset_token tok (now ρ1 + 60 * 60 * 1000)%Z u).
  assert (Hdb1 : (forgotPassword ρ1 tok e db).2 = with_users (alter (λ _, u1) uid) db).
  { unfold forgotPassword. rewrite Hf1, Hu1. simpl. rewrite Hmail.
    assert (Halt : alter (set_reset_token tok (now ρ1 + 60 * 60 * 1000)%Z) uid (users db)
                   = alter (λ _, u1) uid (users db)).
    { apply map_eq. intros i. destruct (decide (i = uid)) as [->|Hne].
      - by rewrite !lookup_alter_eq, Huid.
      - by rewrite !lookup_alter_ne. }
    unfold with_users. rewrite Halt. by destruct (emailError ρ1). }
  rewrite Hdb1.
  assert (Hfind : user_by_reset_token tok (with_users (alter (λ _, u1) uid) db)
                  = Some (uid, u1)).
  { apply user_by_reset_token_Some; simpl.
    - by rewrite lookup_alter_eq, Huid.
    - done.
    - intros k w Hne. rewrite lookup_alter_ne by done. apply Hfresh. }
  split.
  - intros Hnow.
    assert (Hreset : resetPassword ρ2 tok (with_users (alter (λ _, u1) uid) db)
              = (Json 200
                   "Password reset successful. You can now log in with your new password."
                   None,
                 with_users (alter clear_reset_token uid)
                   (with_users (alter (λ _, u1) uid) db))).
    { unfold resetPassword. rewrite Hf2, Hu2. simpl. rewrite Hfind. simpl.
      by replace (_ <? _)%Z with false by (symmetry; apply Z.ltb_ge; lia). }
    rewrite Hreset. simpl.
    split; [done|]. split.
    + by rewrite !lookup_alter_eq, Huid.
    + intros ρ3. unfold resetPassword. rewrite user_by_reset_token_None.
      * by destruct (findError ρ3).
      * simpl. intros k v. destruct (decide (k = uid)) as [->|Hne].
        -- rewrite !lookup_alter_eq, Huid. by intros [= <-].
        -- rewrite !lookup_alter_ne by done. apply Hfresh.
  - intros Hnow. unfold resetPassword. rewrite Hf2. simpl. rewrite Hfind. simpl.
    replace (_ <? _)%Z with true by (symmetry; apply Z.ltb_lt; lia). done.
Qed.

Lemma reset_round_trip_witness :
  statusCode (resetPassword Sample.env1 "tok-1"
                (forgotPassword Sample.env_email_fails "tok-1" "qa@qualitysync.com"
                   Sample.db0).2).1 = 200.
Proof.
  refine (proj1 (proj1 (reset_round_trip Sample.env_email_fails Sample.env1 "tok-1"
                          "qa@qualitysync.com" Sample.db0 "u-mike" Sample.mike
                          eq_refl eq_refl eq_refl eq_refl _ _) _)).
  - vm_compute. reflexivity.
  - intros k v Hk Htok.
    assert (Hall : map_Forall (λ _ w, reset_password_token w = None) (users Sample.db0)).
    { unfold Sample.db0. simpl.
      repeat apply map_Forall_insert_2; first [done | apply map_Forall_empty]. }
    rewrite (Hall k v Hk) in Htok. discriminate.
  - vm_compute. discriminate.
Defined.

(** ** Order of the bug list *)

Lemma bug_le_total (f : string) : Total (λ a b, Is_true (bug_le f a b)).
Proof.
  intros a b. unfold bug_le. repeat case_bool_decide.
  - rewrite !Is_true_true, !Z.leb_le. lia.
  - rewrite !Is_true_true, !Nat.leb_le. lia.
  - rewrite !Is_true_true, !Nat.leb_le. lia.
  - rewrite !Is_true_true. apply String.leb_total.
  - rewrite !Is_true_true, !Z.leb_le. lia.
Qed.

(** X23. The order of [GET /bugs].  The rows of a page follow the order the
    request asks for, ascending in the sort field when [order] is [asc] and
    descending otherwise; with no [sort] and no [order] the newest bug comes
    first.  The total of the pagination counts the rows of the user's scope
    that pass the filters, whatever the page. *)
Theorem getBugs_sorted `{Postgres} ρ user q db l :
  data (getBugs ρ user q db) = Some l →
  (default "desc" (bq_order q) = "asc" →
     Sorted (λ a b, Is_true (bug_le (default "created_at" (bq_sort q)) a b)) (bugs l))
  ∧ (default "desc" (bq_order q) ≠ "asc" →
       Sorted (λ a b, Is_true (bug_le (default "created_at" (bq_sort q)) b a)) (bugs l))
  ∧ (bq_sort q = None → bq_order q = None →
       Sorted (λ a b, (bug_created_at b.2 ≤ bug_created_at a.2)%Z) (bugs l))
  ∧ total (bugs_pagination l) = length (bugs_query user q db).
Proof.
  unfold getBugs. destruct (findError ρ); [done|]. simpl. intros [= <-]. simpl.
  assert (Hasc : default "desc" (bq_order q) = "asc" →
    Sorted (λ a b, Is_true (bug_le (default "created_at" (bq_sort q)) a b))
      (bugs_query user q db)).
  { intros Ho. unfold bugs_query, order_bugs. rewrite (bool_decide_eq_true_2 _ Ho).
    apply Sorted_merge_sort, bug_le_total. }
  assert (Hdesc : default "desc" (bq_order q) ≠ "asc" →
    Sorted (λ a b, Is_true (bug_le (default "created_at" (bq_sort q)) b a))
      (bugs_query user q db)).
  { intros Ho. unfold bugs_query, order_bugs. rewrite (bool_decide_eq_false_2 _ Ho).
    apply Sorted_merge_sort. intros a b.
    destruct (bug_le_total (default "created_at" (bq_sort q)) a b); auto. }
  split; [|split; [|split; [|done]]].
  - intros Ho. by apply Sorted_take, Sorted_drop, Hasc.
  - intros Ho. by apply Sorted_take, Sorted_drop, Hdesc.
  - intros Hs Ho. apply Sorted_take, Sorted_drop.
    rewrite Hs, Ho in Hdesc. simpl in Hdesc.
    assert (Hd : Sorted (λ a b, Is_true (bug_le "created_at" b a))
                   (bugs_query user q db)) by (by apply Hdesc).
    apply (Sorted_fmap id) with (R2 := λ a b, (bug_created_at b.2 ≤ bug_created_at a.2)%Z)
      in Hd; [by rewrite list_fmap_id in Hd|].
    intros a b. unfold bug_le. simpl. rewrite Is_true_true. apply Z.leb_le.
Qed.

Lemma getBugs_sorted_witness :
  ∃ l, data (@getBugs Sample.no_ilike Sample.env0 Sample.as_pat
               {| bq_page := None; bq_limit := None; bq_status := None;
                  bq_severity := None; bq_module_platform := None; bq_search := None;
                  bq_sort := None; bq_order := None |} Sample.db0) = Some l
       ∧ Sorted (λ a b, (bug_created_at b.2 ≤ bug_created_at a.2)%Z) (bugs l).
Proof.
  eexists. split; [reflexivity|].
  by apply (@getBugs_sorted Sample.no_ilike Sample.env0 Sample.as_pat
              {| bq_page := None; bq_limit := None; bq_status := None;
                 bq_severity := None; bq_module_platform := None; bq_search := None;
                 bq_sort := None; bq_order := None |} Sample.db0 _ eq_refl).
Defined.
